(** * A virtual FAT12 block device backed by flash: disk.c

    Shallow embedding of [src/src/disk.c] (with [src/inc/disk.h]) and the
    properties of its block-device facade, write gatekeeper, file codec,
    FAT maintenance and deferred commit.

    Conventions of the embedding.
    - A [u8] buffer is a [list Z] of byte values; a pointer into
      [disk_buffer] is the byte offset from [&disk_buffer[0]], so
      [FAT1_SECTOR = 0], [ROOT_SECTOR = 0x400], [FILE_SECTOR = 0x600].
    - Accesses that the C code makes at offsets computed from data
      (the pointer returned by [find_file], FAT entry offsets, the directory
      entry index) are checked: an access outside the object is undefined
      behaviour in C and is [None] here.
    - The static scratch buffers [file_buffer], [parse_buffer],
      [file_content_buffer], [value_buffer] and [disk_buffer_temp] are fully
      initialised by each call before they are read, so they are local
      values of the functions that use them.
    - The HAL (flash unlock, erase, program, lock, tick) is an external
      collaborator: the outcome of each flash call is taken from a script
      held in the state, and the tick is an argument. *)

From Stdlib Require Import String Ascii ZArith List Lia Bool.
Import ListNotations.
Open Scope Z_scope.

(** ** Fixed-width integers *)

Definition u8 (x : Z) : Z := x mod 256.
Definition u16 (x : Z) : Z := x mod 65536.
Definition u32 (x : Z) : Z := x mod 4294967296.

(** ** Byte buffers addressed by [Z] offsets *)

Module Mem.

(** Length of a buffer as a [Z]. *)
Abbreviation zlen b := (Z.of_nat (length b)) (only parsing).

(** [b[i]], for an index known to be inside [b]. *)
Definition load (b : list Z) (i : Z) : Z := nth (Z.to_nat i) b 0.

(** The [n] bytes of [b] from offset [off]. *)
Definition slice (b : list Z) (off n : Z) : list Z :=
  firstn (Z.to_nat n) (skipn (Z.to_nat off) b).

(** [memcpy(b + off, src, length src)]. *)
Definition memcpy (b : list Z) (off : Z) (src : list Z) : list Z :=
  firstn (Z.to_nat off) b ++ src ++ skipn (Z.to_nat off + length src) b.

(** [memset(b + off, v, n)]. *)
Definition memset (b : list Z) (off v n : Z) : list Z :=
  memcpy b off (repeat v (Z.to_nat n)).

(** [b[off] = v]. *)
Definition store (b : list Z) (off v : Z) : list Z := memcpy b off [v].

(** [memcmp(a, b, n) == 0] on two byte strings of the same length. *)
Fixpoint bytes_eqb (a b : list Z) : bool :=
  match a, b with
  | [], [] => true
  | x :: a', y :: b' => (x =? y) && bytes_eqb a' b'
  | _, _ => false
  end.

(** Checked accesses: [None] when the range leaves the object. *)
Definition in_bounds (b : list Z) (off n : Z) : bool :=
  (0 <=? off) && (off + n <=? zlen b).

Definition load_opt (b : list Z) (i : Z) : option Z :=
  if in_bounds b i 1 then Some (load b i) else None.

Definition slice_opt (b : list Z) (off n : Z) : option (list Z) :=
  if in_bounds b off n then Some (slice b off n) else None.

Definition store_opt (b : list Z) (off v : Z) : option (list Z) :=
  if in_bounds b off 1 then Some (store b off v) else None.

(** [strlen]: number of bytes before the first NUL (the whole array when
    it holds none). *)
Fixpoint strlen (s : list Z) : Z :=
  match s with
  | [] => 0
  | c :: s' => if c =? 0 then 0 else 1 + strlen s'
  end.

(** The C string stored in [s]: its bytes before the first NUL. *)
Definition cstr (s : list Z) : list Z := slice s 0 (strlen s).

End Mem.
Import Mem.

(** Bytes of an ASCII string literal (without terminator). *)
Definition bytes_of (s : string) : list Z :=
  map (fun c => Z.of_N (N_of_ascii c)) (list_ascii_of_string s).

(** ** An option monad for the fallible steps *)

Definition bind {A B : Type} (m : option A) (f : A -> option B) : option B :=
  match m with
  | Some x => f x
  | None => None
  end.

Notation "x <- m ;; k" := (bind m (fun x => k))
  (at level 61, m at next level, right associativity).
Notation "' p <- m ;; k" := (bind m (fun p => k))
  (at level 61, p pattern, m at next level, right associativity).

(** ** Constants of disk.c *)

Definition SECTOR_SIZE : Z := 512.
Definition SECTOR_CNT : Z := 4096.
Definition FILE_ENTRY_CNT : Z := 8.
Definition FILE_ROW_CNT : Z := 2048.
Definition FILE_CHAR_CNT : Z := 8192.
Definition DATA_FIRST_SECTOR : Z := 64.
Definition SECTOR_TO_CLUSTER (s : Z) : Z := s - DATA_FIRST_SECTOR + 2.
Definition VOLUME : Z := 0x40DD8D18.
Definition fat_data : list Z := [0xF8; 0xFF; 0xFF; 0xFF; 0xFF; 0xFF].

(** [CONFIG_FILENAME[] = "CONFIG  TXT"]: twelve bytes with the NUL. *)
Definition CONFIG_FILENAME : list Z := bytes_of "CONFIG  TXT" ++ [0].

Definition sizeof_disk_buffer : Z := 0x4000.
Definition sizeof_disk_buffer_temp : Z := ((SECTOR_SIZE + 32 + 28) / 4) * 4.
Definition sizeof_file_buffer : Z := SECTOR_SIZE * 16.
Definition sizeof_page_dirty_mask : Z := 32.
Definition FLASH_WRITE_DELAY_MS : Z := 500.

Definition MAX_ENTRY_LABEL_LENGTH : Z := 64.
Definition MAX_ENTRY_COMMENT_LENGTH : Z := 64.

(** Layout of [disk_buffer]. *)
Definition FAT1_SECTOR : Z := 0x000.
Definition FAT2_SECTOR : Z := 0x200.
Definition ROOT_SECTOR : Z := 0x400.
Definition VOLUME_BASE : Z := 0x416.
Definition FILE_SECTOR : Z := 0x600.
Definition FILE_SECTOR_SIZE : Z := 0x4000 - 0x600.

(** The boot sector: 62 initialised bytes, the rest of the 512 is zero. *)
Definition BOOT_SEC : list Z :=
  [0xEB; 0x3C; 0x90] ++
  bytes_of "mkdosfs" ++ [0x00] ++
  [0x00; 0x02] ++
  [0x01] ++
  [0x08; 0x00] ++
  [0x02] ++
  [0x00; 0x02] ++
  [0x50; 0x00] ++
  [0xF8] ++
  [0x0c; 0x00] ++
  [0x01; 0x00] ++
  [0x01; 0x00] ++
  [0x00; 0x00; 0x00; 0x00] ++
  [0x00; 0x00; 0x00; 0x00] ++
  [0x00] ++
  [0x00] ++
  [0x29] ++
  [0xA2; 0x98; 0xE4; 0x6C] ++
  bytes_of "RAMDISK    " ++
  bytes_of "FAT12   " ++
  repeat 0 (Z.to_nat (SECTOR_SIZE - 62)).

(** ** Build targets and the HAL

    [disk.c] is compiled for one of two targets; the flash code differs. *)
Inductive target : Type := STM32F103xB | STM32F411xE.

(** Modelled from the spec: [FLASH_PAGE_SIZE] comes from the HAL headers and
    [flashpages.h], which are not among the sources.  The spec's section 4.5
    gives the page size as 1 KiB on small-page devices and 16 KiB on
    large-sector devices; [rewrite_dirty_flash_pages] itself speaks of
    "multiple 1KB pages" on the F1 and walks 16 of them over the 16 KiB
    buffer. *)
Definition FLASH_PAGE_SIZE (tgt : target) : Z :=
  match tgt with
  | STM32F103xB => 1024
  | STM32F411xE => 16384
  end.

Inductive HAL_StatusTypeDef : Type := HAL_OK | HAL_ERROR | HAL_BUSY | HAL_TIMEOUT.

Definition HAL_status_code (s : HAL_StatusTypeDef) : Z :=
  match s with
  | HAL_OK => 0
  | HAL_ERROR => 1
  | HAL_BUSY => 2
  | HAL_TIMEOUT => 3
  end.

Definition is_HAL_OK (s : HAL_StatusTypeDef) : bool :=
  match s with
  | HAL_OK => true
  | _ => false
  end.

(** [Upper(str, len)]: ASCII lower-case letters among the first [len] bytes
    become upper case. *)
Definition upper_byte (c : Z) : Z :=
  if (97 <=? c) && (c <=? 122) then c - 32 else c.

Definition Upper (str : list Z) (len : Z) : list Z :=
  map upper_byte (slice str 0 len) ++ skipn (Z.to_nat len) str.

(** Little-endian 16-bit read, [b[off] | (b[off+1] << 8)]. *)
Definition le16 (b : list Z) (off : Z) : Z :=
  Z.lor (load b off) (Z.shiftl (load b (off + 1)) 8).

(** ** FAT maintenance *)

(** [set_fat12_entry(fat, cluster, value)], [fat] being an offset into [b].
    The stored expressions are at most 255, so the conversion to [u8] does
    not change them. *)
Definition set_fat12_entry (b : list Z) (fat cluster value : Z)
  : option (list Z) :=
  let offset := cluster + cluster / 2 in
  if negb (Z.land cluster 1 =? 0) then
    x <- load_opt b (fat + offset) ;;
    b1 <- store_opt b (fat + offset)
            (Z.lor (Z.land x 0x0F) (Z.shiftl (Z.land value 0x0F) 4)) ;;
    store_opt b1 (fat + offset + 1) (Z.land (Z.shiftr value 4) 0xFF)
  else
    b1 <- store_opt b (fat + offset) (Z.land value 0xFF) ;;
    y <- load_opt b1 (fat + offset + 1) ;;
    store_opt b1 (fat + offset + 1)
      (Z.lor (Z.land y 0xF0) (Z.land (Z.shiftr value 8) 0x0F)).

(** [clusters_needed] of [update_fat_chain], in [u32] arithmetic. *)
Definition clusters_needed_of (file_size : Z) : Z :=
  let n := u32 (file_size + SECTOR_SIZE - 1) / SECTOR_SIZE in
  if n =? 0 then 1 else n.

(** The chaining loop, [i] running up to [clusters_needed]; [fuel] is the
    number of iterations left. *)
Fixpoint update_fat_chain_loop (b : list Z) (fat clusters_needed i : Z)
  (fuel : nat) : option (list Z) :=
  match fuel with
  | O => Some b
  | S fuel' =>
      let cluster := u16 (2 + i) in
      let next :=
        if i =? clusters_needed - 1 then 0xFFF else u16 (cluster + 1) in
      b1 <- set_fat12_entry b fat cluster next ;;
      update_fat_chain_loop b1 fat clusters_needed (i + 1) fuel'
  end.

Definition update_fat_chain (b : list Z) (file_size : Z) : option (list Z) :=
  let clusters_needed := clusters_needed_of file_size in
  let b0 := memset b (FAT1_SECTOR + 3) 0 (SECTOR_SIZE - 3) in
  b1 <- update_fat_chain_loop b0 FAT1_SECTOR clusters_needed 0
          (Z.to_nat clusters_needed) ;;
  Some (memcpy b1 FAT2_SECTOR (slice b1 FAT1_SECTOR SECTOR_SIZE)).

(** Reading a packed 12-bit entry.  The source only writes entries; this is
    the decoding of the spec's data model (the one a host applies to the
    FAT it reads), used to state what the writes achieve. *)
Definition fat12_entry (b : list Z) (fat c : Z) : Z :=
  let o := c + c / 2 in
  if Z.even c
  then Z.lor (load b (fat + o)) (Z.shiftl (Z.land (load b (fat + o + 1)) 0x0F) 8)
  else Z.lor (Z.shiftr (load b (fat + o)) 4) (Z.shiftl (load b (fat + o + 1)) 4).

(** ** Root directory scans *)

(** [get_config_start_cluster]: first of the 16 entries whose upper-cased
    name is [CONFIG_FILENAME]; 0 when there is none. *)
Fixpoint get_config_start_cluster_loop (b : list Z) (i : Z) (fuel : nat) : Z :=
  match fuel with
  | O => 0
  | S fuel' =>
      let entry := ROOT_SECTOR + 32 * i in
      let name := Upper (slice b entry 11) 11 in
      if bytes_eqb name (slice CONFIG_FILENAME 0 11)
      then Z.lor (load b (entry + 0x1A)) (Z.shiftl (load b (entry + 0x1B)) 8)
      else get_config_start_cluster_loop b (i + 1) fuel'
  end.

Definition get_config_start_cluster (b : list Z) : Z :=
  get_config_start_cluster_loop b 0 16.

(** [find_file(pfilename, &file_len, &root_addr)]: the returned pointer (as
    an offset into [disk_buffer]), the 16-bit length and the entry index;
    [None] is the NULL result.  [sector] is a [u16] promoted to [int], so
    [(sector - 2) * SECTOR_SIZE] is computed without wrap-around. *)
Fixpoint find_file_loop (b pfilename : list Z) (n : Z) (fuel : nat)
  : option (Z * Z * Z) :=
  match fuel with
  | O => None
  | S fuel' =>
      let pdiraddr := ROOT_SECTOR + 32 * n in
      let str_name := Upper (slice b pdiraddr 11) 11 in
      if bytes_eqb str_name (slice pfilename 0 11)
      then
        let pfilelen := le16 b (pdiraddr + 0x1C) in
        let sector := le16 b (pdiraddr + 0x1A) in
        Some (FILE_SECTOR + (sector - 2) * SECTOR_SIZE, pfilelen, n)
      else find_file_loop b pfilename (n + 1) fuel'
  end.

Definition find_file (b pfilename : list Z) : option (Z * Z * Z) :=
  find_file_loop b pfilename 0 16.

(** The scan in [write_sector] after a root-directory write: the offset of
    the first entry whose 11 name bytes are [CONFIG_FILENAME] as they stand
    (no [Upper] here). *)
Fixpoint scan_config_entry (b : list Z) (i : Z) (fuel : nat) : option Z :=
  match fuel with
  | O => None
  | S fuel' =>
      let entry := ROOT_SECTOR + 32 * i in
      let ver := slice b entry 12 in
      if bytes_eqb (slice ver 0 11) (slice CONFIG_FILENAME 0 11)
      then Some entry
      else scan_config_entry b (i + 1) fuel'
  end.

(** [find_comment_start(value)]: distance from [value] to the first TAB
    that is followed by '#', before the terminating NUL. *)
Fixpoint find_comment_start (value : list Z) (p : Z) : option Z :=
  match value with
  | [] => None
  | c :: value' =>
      if c =? 0 then None
      else if (c =? 9) && (hd 0 value' =? 35) then Some p
      else find_comment_start value' (p + 1)
  end.

(** [snprintf(b + off, size, fmt, ...)] where the formatted text is [s]:
    at most [size - 1] bytes and a NUL are written. *)
Definition snprintf (b : list Z) (off size : Z) (s : list Z) : list Z :=
  if size <=? 0 then b else memcpy b off (slice s 0 (size - 1) ++ [0]).

(** Line splitting of [validate_file]: one pass of the inner [for] over the
    rest of [file_buffer] from index [i].  The result is the row, the count
    [j], the rest of the buffer from [m = i + line_ending_len], and whether
    the scan stopped at the end of the content.  Reading
    [file_buffer[i + 1]] with [i] the last index leaves the buffer. *)
Fixpoint scan_line (rest row : list Z) (j : Z)
  : option (list Z * Z * list Z * bool) :=
  match rest with
  | [] => Some (row, j, [], true)
  | c :: rest' =>
      if c =? 0 then Some (row, j, rest, true)
      else if c =? 0x0D then
        match rest' with
        | [] => None
        | d :: rest'' =>
            if d =? 0x0A then Some (row, j, rest'', false)
            else if j <? FILE_ROW_CNT - 1
                 then scan_line rest' (store row j c) (j + 1)
                 else scan_line rest' row j
        end
      else if c =? 0x0A then Some (row, j, rest', false)
      else if j <? FILE_ROW_CNT - 1
           then scan_line rest' (store row j c) (j + 1)
           else scan_line rest' row j
  end.

(** Replace row [k] of a two-dimensional buffer. *)
Definition set_row (pb : list (list Z)) (k : Z) (row : list Z)
  : list (list Z) :=
  firstn (Z.to_nat k) pb ++ row :: skipn (Z.to_nat k + 1) pb.

Definition get_row (pb : list (list Z)) (k : Z) : list Z :=
  nth (Z.to_nat k) pb [].

Fixpoint split_lines (rest : list Z) (pb : list (list Z)) (line_idx : Z)
  (fuel : nat) : option (list (list Z)) :=
  match fuel with
  | O => Some pb
  | S fuel' =>
      '(row, j, rest', stop) <- scan_line rest (get_row pb line_idx) 0 ;;
      let pb' := set_row pb line_idx (store row j 0) in
      if stop then Some pb'
      else split_lines rest' pb' (line_idx + 1) fuel'
  end.

(** ** The device: registry, state and operations *)

Section Disk.

(** The state the application's entry handlers read and update. *)
Variable App : Type.

(** The build target. *)
Variable tgt : target.

(** [FILE_ENTRY] of disk.h.  [entry] and [comment] are the 64-byte
    arrays; [default_value] is the NUL-terminated string behind the
    pointer, [None] for NULL.  The handlers are external: [validate] and
    [update] receive the 2048-byte value buffer (or the default string);
    [print] yields the bytes it writes from the start of the buffer it is
    given, of which at most [buffer_size] are taken. *)
Record FILE_ENTRY : Type := {
  entry : list Z;
  comment : list Z;
  default_value : option (list Z);
  validate : option (list Z -> App -> bool);
  update : option (list Z -> App -> App);
  print : option (App -> Z -> list Z)
}.

(** The globals of disk.c, the flash region at [APP_BASE], the script of
    HAL outcomes and the application state. *)
Record disk_state : Type := {
  disk_buffer : list Z;
  page_dirty_mask : list Z;
  entry_usage_mask : Z;
  last_write_tick : Z;
  pending_flash_write : bool;
  entries : list FILE_ENTRY;
  Config_flag : Z;
  txt_flag : Z;
  flash : list Z;
  hal_script : list HAL_StatusTypeDef;
  app : App
}.

Definition set_disk_buffer (st : disk_state) (b : list Z) : disk_state :=
  {| disk_buffer := b; page_dirty_mask := page_dirty_mask st;
     entry_usage_mask := entry_usage_mask st;
     last_write_tick := last_write_tick st;
     pending_flash_write := pending_flash_write st; entries := entries st;
     Config_flag := Config_flag st; txt_flag := txt_flag st;
     flash := flash st; hal_script := hal_script st; app := app st |}.

Definition set_page_dirty_mask (st : disk_state) (m : list Z) : disk_state :=
  {| disk_buffer := disk_buffer st; page_dirty_mask := m;
     entry_usage_mask := entry_usage_mask st;
     last_write_tick := last_write_tick st;
     pending_flash_write := pending_flash_write st; entries := entries st;
     Config_flag := Config_flag st; txt_flag := txt_flag st;
     flash := flash st; hal_script := hal_script st; app := app st |}.

Definition set_pending (st : disk_state) (p : bool) (tick : Z) : disk_state :=
  {| disk_buffer := disk_buffer st; page_dirty_mask := page_dirty_mask st;
     entry_usage_mask := entry_usage_mask st;
     last_write_tick := tick;
     pending_flash_write := p; entries := entries st;
     Config_flag := Config_flag st; txt_flag := txt_flag st;
     flash := flash st; hal_script := hal_script st; app := app st |}.

Definition set_flags (st : disk_state) (cf tf : Z) : disk_state :=
  {| disk_buffer := disk_buffer st; page_dirty_mask := page_dirty_mask st;
     entry_usage_mask := entry_usage_mask st;
     last_write_tick := last_write_tick st;
     pending_flash_write := pending_flash_write st; entries := entries st;
     Config_flag := cf; txt_flag := tf;
     flash := flash st; hal_script := hal_script st; app := app st |}.

Definition set_flash (st : disk_state) (f : list Z)
  (s : list HAL_StatusTypeDef) : disk_state :=
  {| disk_buffer := disk_buffer st; page_dirty_mask := page_dirty_mask st;
     entry_usage_mask := entry_usage_mask st;
     last_write_tick := last_write_tick st;
     pending_flash_write := pending_flash_write st; entries := entries st;
     Config_flag := Config_flag st; txt_flag := txt_flag st;
     flash := f; hal_script := s; app := app st |}.

Definition set_app (st : disk_state) (a : App) : disk_state :=
  {| disk_buffer := disk_buffer st; page_dirty_mask := page_dirty_mask st;
     entry_usage_mask := entry_usage_mask st;
     last_write_tick := last_write_tick st;
     pending_flash_write := pending_flash_write st; entries := entries st;
     Config_flag := Config_flag st; txt_flag := txt_flag st;
     flash := flash st; hal_script := hal_script st; app := a |}.

Definition set_entries (st : disk_state) (es : list FILE_ENTRY) (um : Z)
  : disk_state :=
  {| disk_buffer := disk_buffer st; page_dirty_mask := page_dirty_mask st;
     entry_usage_mask := um;
     last_write_tick := last_write_tick st;
     pending_flash_write := pending_flash_write st; entries := es;
     Config_flag := Config_flag st; txt_flag := txt_flag st;
     flash := flash st; hal_script := hal_script st; app := app st |}.

(** *** Label recognition

    A slot is in use when [entries[k].entry[0] != '\0']. *)
Definition registered (e : FILE_ENTRY) : bool :=
  negb (load (entry e) 0 =? 0).

(** [memcmp(p, e.entry, entry_len) == 0 && p[entry_len] == '='] for the
    pointer [b + off]. *)
Definition label_at (b : list Z) (off : Z) (e : FILE_ENTRY) : option bool :=
  let entry_len := strlen (entry e) in
  bs <- slice_opt b off entry_len ;;
  if bytes_eqb bs (slice (entry e) 0 entry_len)
  then c <- load_opt b (off + entry_len) ;; Some (c =? 61)
  else Some false.

(** The loop over the slots that stops at the first match; it occurs
    three times in [validate_file] and twice in [write_sector]. *)
Fixpoint any_label_at (b : list Z) (off : Z) (es : list FILE_ENTRY)
  : option bool :=
  match es with
  | [] => Some false
  | e :: es' =>
      if registered e then
        r <- label_at b off e ;;
        if r then Some true else any_label_at b off es'
      else any_label_at b off es'
  end.

(** *** validate_file *)

(** Choice of [read_source] (lines 376-457); the flash copy of the file
    region is loaded over [FILE_SECTOR] when neither RAM location starts
    with a label. *)
Definition select_source (st : disk_state) (p_file : Z)
  : option (list Z * Z) :=
  let b := disk_buffer st in
  let es := entries st in
  file_sector_valid <- any_label_at b FILE_SECTOR es ;;
  p_file_valid <-
    (if p_file =? FILE_SECTOR then Some false
     else any_label_at b p_file es) ;;
  if p_file_valid then Some (b, p_file)
  else if file_sector_valid then Some (b, FILE_SECTOR)
  else
    let b' := memcpy b FILE_SECTOR (slice (flash st) 0x600 FILE_SECTOR_SIZE) in
    v <- any_label_at b' FILE_SECTOR es ;;
    Some (b', if v then FILE_SECTOR else p_file).

(** The text ["%s=%s"] of an entry and its default (or [""]). *)
Definition default_line (e : FILE_ENTRY) : list Z :=
  cstr (entry e) ++ [61] ++
  match default_value e with
  | Some d => cstr d
  | None => []
  end.

(** First non-empty parsed line that starts with the entry's label and
    '=' (lines 524-532). *)
Fixpoint find_line (pb : list (list Z)) (e : FILE_ENTRY)
  : option (option (list Z)) :=
  match pb with
  | [] => Some None
  | row :: pb' =>
      if load row 0 =? 0 then find_line pb' e
      else
        r <- label_at row 0 e ;;
        if r then Some (Some row) else find_line pb' e
  end.

(** One iteration of the loop over the registered entries
    (lines 514-588): [parse_buffer[k]] receives the rendered line. *)
Definition resolve_entry (k : Z) (e : FILE_ENTRY)
  (acc : list (list Z) * App * Z) : option (list (list Z) * App * Z) :=
  let '(pb, a, illegal) := acc in
  r <- find_line pb e ;;
  match r with
  | Some row =>
      let entry_len := strlen (entry e) in
      let value_start := skipn (Z.to_nat (entry_len + 1)) row in
      let value_len :=
        match find_comment_start value_start 0 with
        | Some n => n
        | None => strlen value_start
        end in
      let value_buffer :=
        memcpy (repeat 0 (Z.to_nat FILE_ROW_CNT)) 0
          (slice value_start 0 (Z.min value_len (FILE_ROW_CNT - 1))) in
      let valid :=
        match validate e with
        | None => true
        | Some v => v value_buffer a
        end in
      if valid then
        let a' :=
          match update e with
          | Some u => u value_buffer a
          | None => a
          end in
        let pb' :=
          match print e with
          | Some p =>
              set_row pb k
                (memcpy (get_row pb k) 0 (slice (p a' FILE_ROW_CNT) 0 FILE_ROW_CNT))
          | None => pb
          end in
        Some (pb', a', illegal)
      else
        Some (set_row pb k (snprintf (get_row pb k) 0 FILE_ROW_CNT (default_line e)),
              a, 1)
  | None =>
      let pb' :=
        set_row pb k (snprintf (get_row pb k) 0 FILE_ROW_CNT (default_line e)) in
      let a' :=
        match update e, default_value e with
        | Some u, Some d => u d a
        | _, _ => a
        end in
      Some (pb', a', 1)
  end.

Fixpoint resolve_entries (es : list FILE_ENTRY) (k : Z)
  (acc : list (list Z) * App * Z) : option (list (list Z) * App * Z) :=
  match es with
  | [] => Some acc
  | e :: es' =>
      if registered e then
        acc' <- resolve_entry k e acc ;;
        resolve_entries es' (k + 1) acc'
      else resolve_entries es' (k + 1) acc
  end.

(** Rebuilding the file from the rows (lines 590-609): the content buffer
    and the length [m]. *)
Fixpoint rebuild_loop (es : list FILE_ENTRY) (k : Z) (pb : list (list Z))
  (fcb : list Z) (m : Z) : list Z * Z :=
  match es with
  | [] => (fcb, m)
  | e :: es' =>
      if registered e then
        let line_len := strlen (get_row pb k) in
        let comment_len := strlen (comment e) in
        if m + line_len + comment_len <? FILE_CHAR_CNT - 1 then
          let fcb1 := memcpy fcb m (slice (get_row pb k) 0 line_len) in
          let m1 := m + line_len in
          let fcb2 := memcpy fcb1 m1 (slice (comment e) 0 comment_len) in
          rebuild_loop es' (k + 1) pb fcb2 (m1 + comment_len)
        else rebuild_loop es' (k + 1) pb fcb m
      else rebuild_loop es' (k + 1) pb fcb m
  end.

(** Lines 370-609 of [validate_file]: the buffer after source selection,
    the handlers' state, [illegal], [file_content_buffer] and [m]. *)
Definition file_content (st : disk_state) (p_file : Z)
  : option (list Z * App * Z * list Z * Z) :=
  '(b1, read_source) <- select_source st p_file ;;
  file_buffer <- slice_opt b1 read_source sizeof_file_buffer ;;
  let parse_buffer0 :=
    repeat (repeat 0 (Z.to_nat FILE_ROW_CNT)) (Z.to_nat FILE_ENTRY_CNT) in
  parse_buffer <- split_lines file_buffer parse_buffer0 0
                    (Z.to_nat FILE_ENTRY_CNT) ;;
  '(pb, a, illegal) <- resolve_entries (entries st) 0 (parse_buffer, app st, 0) ;;
  let '(fcb, m) :=
    rebuild_loop (entries st) 0 pb (repeat 0 (Z.to_nat FILE_CHAR_CNT)) 0 in
  Some (b1, a, illegal, fcb, m).

(** Lines 613-625: size and starting cluster of the directory entry. *)
Definition write_dir_entry (b : list Z) (root_addr m : Z)
  : option (list Z) :=
  let dir_entry := ROOT_SECTOR + root_addr * 32 in
  b1 <- store_opt b (dir_entry + 0x1C) (Z.land m 0xFF) ;;
  b2 <- store_opt b1 (dir_entry + 0x1D) (Z.land (Z.shiftr m 8) 0xFF) ;;
  b3 <- store_opt b2 (dir_entry + 0x1E) (Z.land (Z.shiftr m 16) 0xFF) ;;
  b4 <- store_opt b3 (dir_entry + 0x1F) (Z.land (Z.shiftr m 24) 0xFF) ;;
  b5 <- store_opt b4 (dir_entry + 0x1A) 0x02 ;;
  store_opt b5 (dir_entry + 0x1B) 0x00.

(** [validate_file(p_file, root_addr)]: the new state and [illegal]. *)
Definition validate_file (st : disk_state) (p_file root_addr : Z)
  : option (disk_state * Z) :=
  '(b1, a, illegal, fcb, m) <- file_content st p_file ;;
  b2 <- write_dir_entry b1 root_addr m ;;
  b3 <- update_fat_chain b2 m ;;
  let mask := store (store (page_dirty_mask st) 0 1) 1 1 in
  let b4 := memcpy b3 FILE_SECTOR (slice fcb 0 m) in
  let b5 :=
    if m <? FILE_SECTOR_SIZE
    then memset b4 (FILE_SECTOR + m) 0 (FILE_SECTOR_SIZE - m)
    else b4 in
  Some (set_app (set_page_dirty_mask (set_disk_buffer st b5) mask) a, illegal).

(** *** flush_file *)

(** The default-file loop of [flush_file] (lines 700-713).  [snprintf]
    returns the length of the whole formatted line, which is added to [m];
    once [m] exceeds [FILE_SECTOR_SIZE] the size argument wraps around and
    the write leaves the buffer. *)
Fixpoint default_file_loop (es : list FILE_ENTRY) (b : list Z) (m : Z)
  : option (list Z * Z) :=
  match es with
  | [] => Some (b, m)
  | e :: es' =>
      if registered e then
        if FILE_SECTOR_SIZE <? m then None
        else
          let line := default_line e ++ cstr (comment e) in
          let b' := snprintf b (FILE_SECTOR + m) (FILE_SECTOR_SIZE - m) line in
          default_file_loop es' b' (u32 (m + zlen line))
      else default_file_loop es' b m
  end.

Definition flush_file (st : disk_state) (now : Z) : option disk_state :=
  match find_file (disk_buffer st) CONFIG_FILENAME with
  | Some (p_file, file_len, root_addr) =>
      '(st1, illegal) <- validate_file st p_file root_addr ;;
      if negb (illegal =? 0) then Some (set_pending st1 true now)
      else Some st1
  | None =>
      let b0 := memset (disk_buffer st) 0 0 sizeof_disk_buffer in
      let b1 := memcpy b0 ROOT_SECTOR (slice CONFIG_FILENAME 0 0xC) in
      let b2 := memcpy b1 FAT1_SECTOR fat_data in
      let b3 := memcpy b2 FAT2_SECTOR fat_data in
      '(b4, m) <- default_file_loop (entries st) b3 0 ;;
      let b5 := store b4 0x40B 0x0 in
      let b6 :=
        memcpy b5 VOLUME_BASE
          [Z.land VOLUME 0xFF; Z.land (Z.shiftr VOLUME 8) 0xFF;
           Z.land (Z.shiftr VOLUME 16) 0xFF; Z.land (Z.shiftr VOLUME 24) 0xFF] in
      let b7 := store b6 0x41A 0x02 in
      let b8 := store b7 0x41C (Z.land m 0xFF) in
      let b9 := store b8 0x41D (Z.land (Z.shiftr m 8) 0xFF) in
      let b10 := store b9 0x41E (Z.land (Z.shiftr m 16) 0xFF) in
      let b11 := store b10 0x41F (Z.land (Z.shiftr m 24) 0xFF) in
      b12 <- update_fat_chain b11 m ;;
      Some (set_pending
              (set_page_dirty_mask (set_disk_buffer st b12)
                 (memset (page_dirty_mask st) 0 1 sizeof_page_dirty_mask))
              true now)
  end.

(** *** read_sector

    The state is returned along with the 512 bytes written to [pbuffer]. *)
Definition read_sector (st : disk_state) (disk_addr : Z)
  : disk_state * list Z :=
  let zeros := repeat 0 (Z.to_nat SECTOR_SIZE) in
  let b := disk_buffer st in
  if disk_addr =? 0 then (st, slice BOOT_SEC 0 SECTOR_SIZE)
  else if (1 <=? disk_addr) && (disk_addr <=? 7) then (st, zeros)
  else if (8 <=? disk_addr) && (disk_addr <=? 19) then
    if disk_addr =? 8 then (st, slice b FAT1_SECTOR SECTOR_SIZE)
    else (st, zeros)
  else if (20 <=? disk_addr) && (disk_addr <=? 31) then
    if disk_addr =? 20 then (st, slice b FAT2_SECTOR SECTOR_SIZE)
    else (st, zeros)
  else if (32 <=? disk_addr) && (disk_addr <=? 63) then
    if disk_addr =? 32 then (st, slice b ROOT_SECTOR SECTOR_SIZE)
    else (st, zeros)
  else if (64 <=? disk_addr) && (disk_addr <? SECTOR_CNT) then
    let data_offset := (disk_addr - 64) * SECTOR_SIZE in
    if data_offset + SECTOR_SIZE <=? FILE_SECTOR_SIZE
    then (st, slice b (FILE_SECTOR + data_offset) SECTOR_SIZE)
    else (st, zeros)
  else (st, zeros).

(** *** write_sector *)

(** The protection block for a data sector (lines 935-1002): [true] when
    the sector is dropped by one of the two [continue] statements. *)
Definition write_rejected (st : disk_state) (sector : Z)
  (sector_data : list Z) : option bool :=
  let b := disk_buffer st in
  let write_cluster := u16 (SECTOR_TO_CLUSTER sector) in
  let config_cluster := get_config_start_cluster b in
  file_sector_has_config <- any_label_at b FILE_SECTOR (entries st) ;;
  if (0 <? config_cluster) && (write_cluster =? config_cluster) then
    Some false
  else if write_cluster =? 2 then
    looks_like_config <- any_label_at sector_data 0 (entries st) ;;
    Some (negb looks_like_config)
  else if (2 <? write_cluster)
          && (write_cluster <=? 2 + FILE_SECTOR_SIZE / SECTOR_SIZE)
          && file_sector_has_config then
    let is_dot_file :=
      (load sector_data 0 =? 0x00) || (load sector_data 0 =? 0x05)
      || ((load sector_data 0 =? 46) && negb (load sector_data 1 =? 0)) in
    Some is_dot_file
  else Some false.

(** The body of the loop over the sectors of one call. *)
Definition write_sector_body (st : disk_state) (sector : Z)
  (sector_data : list Z) : option disk_state :=
  let b := disk_buffer st in
  let mask := page_dirty_mask st in
  if (8 <=? sector) && (sector <=? 19) then
    if sector =? 8 then
      if negb (bytes_eqb sector_data (slice b FAT1_SECTOR SECTOR_SIZE)) then
        Some (set_page_dirty_mask
                (set_disk_buffer st (memcpy b FAT1_SECTOR sector_data))
                (store mask 0 1))
      else Some st
    else Some st
  else if (20 <=? sector) && (sector <=? 31) then
    if sector =? 20 then
      if negb (bytes_eqb sector_data (slice b FAT2_SECTOR SECTOR_SIZE)) then
        Some (set_page_dirty_mask
                (set_disk_buffer st (memcpy b FAT2_SECTOR sector_data))
                (store mask 0 1))
      else Some st
    else Some st
  else if (32 <=? sector) && (sector <=? 63) then
    if sector =? 32 then
      if negb (bytes_eqb sector_data (slice b ROOT_SECTOR SECTOR_SIZE)) then
        let b' := memcpy b ROOT_SECTOR sector_data in
        let mask1 := store mask 1 1 in
        let '(cf, config_filesize, tf) :=
          match scan_config_entry b' 0 16 with
          | Some entry =>
              (load b' (entry + 0x1A),
               u8 (Z.lor (load b' (entry + 0x1C))
                         (Z.shiftl (load b' (entry + 0x1D)) 8)),
               1)
          | None => (Config_flag st, 0, txt_flag st)
          end in
        if (config_filesize =? 0) && (tf =? 1) then
          Some (set_flags
                  (set_page_dirty_mask (set_disk_buffer st b')
                     (store (store mask1 1 0) 0 0))
                  cf 0)
        else
          Some (set_flags
                  (set_page_dirty_mask (set_disk_buffer st b')
                     (store mask1 0 1))
                  cf tf)
      else Some st
    else Some st
  else if (64 <=? sector) && (sector <? SECTOR_CNT) then
    let data_offset := (sector - 64) * SECTOR_SIZE in
    if FILE_SECTOR_SIZE <? data_offset + SECTOR_SIZE then Some st
    else
      rejected <- write_rejected st sector sector_data ;;
      if rejected then Some st
      else if negb (bytes_eqb sector_data
                      (slice b (FILE_SECTOR + data_offset) SECTOR_SIZE)) then
        Some (set_page_dirty_mask
                (set_disk_buffer st
                   (memcpy b (FILE_SECTOR + data_offset) sector_data))
                (store mask (data_offset / FLASH_PAGE_SIZE tgt + 1) 1))
      else Some st
  else Some st.

Fixpoint write_sector_loop (st : disk_state) (temp : list Z)
  (diskaddr s : Z) (fuel : nat) : option disk_state :=
  match fuel with
  | O => Some st
  | S fuel' =>
      let sector := u32 (diskaddr + s) in
      let sector_data := slice temp (s * SECTOR_SIZE) SECTOR_SIZE in
      st' <- write_sector_body st sector sector_data ;;
      write_sector_loop st' temp diskaddr (s + 1) fuel'
  end.

(** [write_sector(buff, diskaddr, length)] at tick [now].  The incoming
    [length * SECTOR_SIZE] bytes are first copied to [disk_buffer_temp],
    which holds [sizeof_disk_buffer_temp] bytes: a call with more than
    one sector runs past that buffer. *)
Definition write_sector (st : disk_state) (buff : list Z)
  (diskaddr length now : Z) : option (disk_state * Z) :=
  if (0 <=? length) && (length * SECTOR_SIZE <=? sizeof_disk_buffer_temp)
     && (length * SECTOR_SIZE <=? zlen buff) then
    let temp := slice buff 0 (length * SECTOR_SIZE) in
    st' <- write_sector_loop st temp diskaddr 0 (Z.to_nat length) ;;
    Some (set_pending st' true now, HAL_status_code HAL_OK)
  else None.

Definition get_sector_size : Z := SECTOR_SIZE.
Definition get_sector_count : Z := SECTOR_CNT.

(** *** Start-up and registration *)

Definition load_from_flash (st : disk_state) : disk_state :=
  set_page_dirty_mask
    (set_disk_buffer st
       (memcpy (disk_buffer st) 0 (slice (flash st) 0 sizeof_disk_buffer)))
    (memset (page_dirty_mask st) 0 0 sizeof_page_dirty_mask).

Definition init (st : disk_state) (now : Z) : option disk_state :=
  flush_file (load_from_flash st) now.

(** Modelled from the spec: [bitRead] and [bitSet] come from
    [bithelper.h], which is not among the sources; they are taken as the
    test and the set of one bit of the mask, which gives the spec's
    [register_entry] (section 4.2: "allocates the next free slot ...
    Returns false when full").

    [get_unused_idx]: first clear bit of [entry_usage_mask] among the
    first eight, which it sets; [None] is the [-1] result. *)
Fixpoint get_unused_idx_loop (mask i : Z) (fuel : nat) : option (Z * Z) :=
  match fuel with
  | O => None
  | S fuel' =>
      if Z.testbit mask i then get_unused_idx_loop mask (i + 1) fuel'
      else Some (i, Z.lor mask (Z.shiftl 1 i))
  end.

Definition register_entry (st : disk_state) (entry_s : list Z)
  (default_val : option (list Z)) (comment_s : list Z)
  (validator : option (list Z -> App -> bool))
  (updater : option (list Z -> App -> App))
  (printer : option (App -> Z -> list Z)) : disk_state * bool :=
  match get_unused_idx_loop (entry_usage_mask st) 0 (Z.to_nat FILE_ENTRY_CNT) with
  | Some (idx, um) =>
      let old := nth (Z.to_nat idx) (entries st)
                   {| entry := []; comment := []; default_value := None;
                      validate := None; update := None; print := None |} in
      let label :=
        store
          (memcpy (entry old) 0
             (slice (cstr entry_s ++ repeat 0 (Z.to_nat MAX_ENTRY_LABEL_LENGTH))
                0 (MAX_ENTRY_LABEL_LENGTH - 1)))
          (MAX_ENTRY_LABEL_LENGTH - 1) 0 in
      let cmt :=
        snprintf (comment old) 0 MAX_ENTRY_COMMENT_LENGTH
          ([9] ++ cstr comment_s ++ [13; 10]) in
      let e := {| entry := label; comment := cmt;
                  default_value := default_val; validate := validator;
                  update := updater; print := printer |} in
      (set_entries st
         (firstn (Z.to_nat idx) (entries st) ++ e
          :: skipn (Z.to_nat idx + 1) (entries st)) um,
       true)
  | None => (st, false)
  end.

(** *** Flash interface

    The HAL calls are external.  Each call takes its status from the head
    of [hal_script] (an exhausted script answers [HAL_OK]); a successful
    erase leaves 0xFF in the erased unit, a successful halfword program
    stores the two bytes, a failed call leaves the flash as it was.
    Flash addresses are offsets from [APP_BASE].  On the F4 the user data
    region is one erase sector (spec, section 4.5). *)
Definition hal_next (s : list HAL_StatusTypeDef)
  : HAL_StatusTypeDef * list HAL_StatusTypeDef :=
  match s with
  | [] => (HAL_OK, [])
  | x :: r => (x, r)
  end.

Definition HAL_FLASH_Unlock (st : disk_state)
  : disk_state * HAL_StatusTypeDef :=
  let '(s, r) := hal_next (hal_script st) in (set_flash st (flash st) r, s).

Definition HAL_FLASH_Lock (st : disk_state)
  : disk_state * HAL_StatusTypeDef :=
  let '(s, r) := hal_next (hal_script st) in (set_flash st (flash st) r, s).

Definition HAL_FLASHEx_Erase (st : disk_state) (start len : Z)
  : disk_state * HAL_StatusTypeDef :=
  let '(s, r) := hal_next (hal_script st) in
  (set_flash st
     (if is_HAL_OK s then memset (flash st) start 0xFF len else flash st) r,
   s).

Definition HAL_FLASH_Program (st : disk_state) (address data : Z)
  : disk_state * HAL_StatusTypeDef :=
  let '(s, r) := hal_next (hal_script st) in
  (set_flash st
     (if is_HAL_OK s
      then memcpy (flash st) address
             [Z.land data 0xFF; Z.land (Z.shiftr data 8) 0xFF]
      else flash st) r,
   s).

Definition erase_flash_page (st : disk_state) (address : Z)
  : disk_state * HAL_StatusTypeDef :=
  match tgt with
  | STM32F103xB => HAL_FLASHEx_Erase st address (FLASH_PAGE_SIZE tgt)
  | STM32F411xE => HAL_FLASHEx_Erase st 0 sizeof_disk_buffer
  end.

Definition write_flash_halfword (st : disk_state) (address data : Z)
  : disk_state * HAL_StatusTypeDef :=
  HAL_FLASH_Program st address data.

(** The programming loop [for (j = 0; j < size; j += 2)] from [base];
    [*f_buff++] reads the halfword of [disk_buffer] at [base + j].  The
    status of each halfword is only logged. *)
Fixpoint program_loop (st : disk_state) (base j : Z) (fuel : nat)
  : disk_state :=
  match fuel with
  | O => st
  | S fuel' =>
      let data := le16 (disk_buffer st) (base + j) in
      let '(st', _) := write_flash_halfword st (base + j) data in
      program_loop st' base (j + 2) fuel'
  end.

(** Index of the first non-zero flag among [fuel] flags from [i]. *)
Fixpoint first_dirty (mask : list Z) (i : Z) (fuel : nat) : option Z :=
  match fuel with
  | O => None
  | S fuel' =>
      if negb (load mask i =? 0) then Some i
      else first_dirty mask (i + 1) fuel'
  end.

(** [rewrite_dirty_flash_pages]: the state and the returned [u8]. *)
Definition rewrite_dirty_flash_pages (st : disk_state) : disk_state * Z :=
  let '(st1, _) := HAL_FLASH_Unlock st in
  let st2 :=
    match tgt with
    | STM32F103xB =>
        match first_dirty (page_dirty_mask st1) 0 16 with
        | Some i =>
            let sta :=
              set_page_dirty_mask st1 (store (page_dirty_mask st1) i 0) in
            let '(stb, _) := erase_flash_page sta (i * FLASH_PAGE_SIZE tgt) in
            program_loop stb (i * FLASH_PAGE_SIZE tgt) 0
              (Z.to_nat (FLASH_PAGE_SIZE tgt / 2))
        | None => st1
        end
    | STM32F411xE =>
        match first_dirty (page_dirty_mask st1) 0
                (Z.to_nat sizeof_page_dirty_mask) with
        | Some _ =>
            let sta :=
              set_page_dirty_mask st1
                (memset (page_dirty_mask st1) 0 0 sizeof_page_dirty_mask) in
            let '(stb, _) := erase_flash_page sta 0 in
            program_loop stb 0 0 (Z.to_nat (sizeof_disk_buffer / 2))
        | None => st1
        end
    end in
  let '(st3, _) := HAL_FLASH_Lock st2 in
  (st3, 0).

(** *** process

    [HAL_GetTick() - last_write_tick] is a [u32] difference. *)
Definition commit_due (st : disk_state) (now : Z) : bool :=
  pending_flash_write st
  && (FLASH_WRITE_DELAY_MS <=? u32 (now - last_write_tick st)).

Definition process (st : disk_state) (now : Z) : option disk_state :=
  if commit_due st now then
    st1 <-
      match find_file (disk_buffer st) CONFIG_FILENAME with
      | Some (p_file, file_len, root_addr) =>
          if 0 <? file_len
          then '(st', _) <- validate_file st p_file root_addr ;; Some st'
          else Some st
      | None => Some st
      end ;;
    let '(st2, _) := rewrite_dirty_flash_pages st1 in
    Some (set_pending st2 false (last_write_tick st2))
  else Some st.

End Disk.

Arguments entry {App}.
Arguments comment {App}.
Arguments default_value {App}.
Arguments validate {App}.
Arguments update {App}.
Arguments print {App}.
Arguments disk_buffer {App}.
Arguments page_dirty_mask {App}.
Arguments entry_usage_mask {App}.
Arguments last_write_tick {App}.
Arguments pending_flash_write {App}.
Arguments entries {App}.
Arguments Config_flag {App}.
Arguments txt_flag {App}.
Arguments flash {App}.
Arguments hal_script {App}.
Arguments app {App}.

Arguments set_disk_buffer {App}.
Arguments set_page_dirty_mask {App}.
Arguments set_pending {App}.
Arguments set_flags {App}.
Arguments set_flash {App}.
Arguments set_app {App}.
Arguments set_entries {App}.
Arguments registered {App}.
Arguments label_at {App}.
Arguments any_label_at {App}.
Arguments select_source {App}.
Arguments default_line {App}.
Arguments find_line {App}.
Arguments resolve_entry {App}.
Arguments resolve_entries {App}.
Arguments rebuild_loop {App}.
Arguments file_content {App}.
Arguments validate_file {App}.
Arguments default_file_loop {App}.
Arguments flush_file {App}.
Arguments read_sector {App}.
Arguments write_rejected {App}.
Arguments write_sector_body {App}.
Arguments write_sector_loop {App}.
Arguments write_sector {App}.
Arguments load_from_flash {App}.
Arguments init {App}.
Arguments register_entry {App}.
Arguments HAL_FLASH_Unlock {App}.
Arguments HAL_FLASH_Lock {App}.
Arguments HAL_FLASHEx_Erase {App}.
Arguments HAL_FLASH_Program {App}.
Arguments erase_flash_page {App}.
Arguments write_flash_halfword {App}.
Arguments program_loop {App}.
Arguments rewrite_dirty_flash_pages {App}.
Arguments commit_due {App}.
Arguments process {App}.

(** ** rewrite_all_flash_pages

    The whole-image rewrite of disk.c (lines 224-280).  Unlike
    [rewrite_dirty_flash_pages] it checks each HAL status and returns it at
    the first failure, before the flash is locked again. *)

(** [for (i = 0; i < 8; i++)] of the F1 build: erase page [i], return at the
    first status other than [HAL_OK]. *)
Fixpoint erase_pages_loop {App : Type} (tgt : target) (st : disk_state App)
  (i : Z) (fuel : nat) : disk_state App * HAL_StatusTypeDef :=
  match fuel with
  | O => (st, HAL_OK)
  | S fuel' =>
      let '(st', result) := erase_flash_page tgt st (i * FLASH_PAGE_SIZE tgt) in
      if is_HAL_OK result then erase_pages_loop tgt st' (i + 1) fuel'
      else (st', result)
  end.

(** [for (i = 0; i < n; i += 2)]: program the halfword of [disk_buffer] at
    byte offset [i] to flash offset [i] ([*f_buff++] advances with [i]),
    return at the first status other than [HAL_OK]. *)
Fixpoint program_checked_loop {App : Type} (st : disk_state App) (i : Z)
  (fuel : nat) : disk_state App * HAL_StatusTypeDef :=
  match fuel with
  | O => (st, HAL_OK)
  | S fuel' =>
      let '(st', result) :=
        write_flash_halfword st i (le16 (disk_buffer st) i) in
      if is_HAL_OK result then program_checked_loop st' (i + 2) fuel'
      else (st', result)
  end.

(** [rewrite_all_flash_pages]: the state and the returned [u8].  The F1
    build erases eight pages and programs the halfwords at offsets
    [0, 2, ..., SECTOR_CNT / 2 - 2]; the F4 build erases the sector and
    programs the [sizeof disk_buffer] bytes. *)
Definition rewrite_all_flash_pages {App : Type} (tgt : target)
  (st : disk_state App) : disk_state App * Z :=
  let '(st1, _) := HAL_FLASH_Unlock st in
  match tgt with
  | STM32F103xB =>
      let '(st2, result) := erase_pages_loop tgt st1 0 8 in
      if negb (is_HAL_OK result) then (st2, HAL_status_code result)
      else
        let '(st3, result) :=
          program_checked_loop st2 0 (Z.to_nat (SECTOR_CNT / 2 / 2)) in
        if negb (is_HAL_OK result) then (st3, HAL_status_code result)
        else
          let '(st4, _) := HAL_FLASH_Lock st3 in
          (st4, HAL_status_code HAL_OK)
  | STM32F411xE =>
      let '(st2, result) := erase_flash_page tgt st1 0 in
      if negb (is_HAL_OK result) then (st2, HAL_status_code result)
      else
        let '(st3, result) :=
          program_checked_loop st2 0 (Z.to_nat (sizeof_disk_buffer / 2)) in
        if negb (is_HAL_OK result) then (st3, HAL_status_code result)
        else
          let '(st4, _) := HAL_FLASH_Lock st3 in
          (st4, HAL_status_code HAL_OK)
  end.

(** ** A concrete device

    The registry of the spec's first scenario: [SSID] with default ["net"]
    and [PSK] with a validator that wants eight characters.  The handlers
    keep the two values in a pair. *)
Module Scenario.

Definition App : Type := (list Z * list Z)%type.

Definition update_ssid (v : list Z) (a : App) : App := (cstr v, snd a).
Definition update_psk (v : list Z) (a : App) : App := (fst a, cstr v).
Definition print_ssid (a : App) (size : Z) : list Z :=
  bytes_of "SSID=" ++ fst a ++ [0].
Definition print_psk (a : App) (size : Z) : list Z :=
  bytes_of "PSK=" ++ snd a ++ [0].
Definition validate_psk (v : list Z) (a : App) : bool := 8 <=? strlen v.

Definition blank_entry : FILE_ENTRY App :=
  {| entry := repeat 0 (Z.to_nat MAX_ENTRY_LABEL_LENGTH);
     comment := repeat 0 (Z.to_nat MAX_ENTRY_COMMENT_LENGTH);
     default_value := None; validate := None; update := None;
     print := None |}.

(** The globals at reset, over a given flash content. *)
Definition power_on (fl : list Z) (script : list HAL_StatusTypeDef)
  : disk_state App :=
  {| disk_buffer := repeat 0 (Z.to_nat sizeof_disk_buffer);
     page_dirty_mask := repeat 0 (Z.to_nat sizeof_page_dirty_mask);
     entry_usage_mask := 0; last_write_tick := 0;
     pending_flash_write := false;
     entries := repeat blank_entry (Z.to_nat FILE_ENTRY_CNT);
     Config_flag := 0; txt_flag := 0; flash := fl; hal_script := script;
     app := ([], []) |}.

Definition register_all (st : disk_state App) : disk_state App :=
  let st1 :=
    fst (register_entry st (bytes_of "SSID") (Some (bytes_of "net" ++ [0]))
           (bytes_of "#ap") None (Some update_ssid) (Some print_ssid)) in
  fst (register_entry st1 (bytes_of "PSK")
         (Some (bytes_of "password" ++ [0])) (bytes_of "#key")
         (Some validate_psk) (Some update_psk) (Some print_psk)).

Definition erased_flash : list Z := repeat 0xFF (Z.to_nat sizeof_disk_buffer).

(** Reset with erased flash and the registry filled, before [init]. *)
Definition registered_state : disk_state App :=
  register_all (power_on erased_flash []).

Definition or_else (o : option (disk_state App)) (d : disk_state App)
  : disk_state App :=
  match o with
  | Some s => s
  | None => d
  end.

(** Cold boot with erased flash: [init] at tick 0. *)
Definition cold_boot : disk_state App :=
  or_else (init registered_state 0) registered_state.

(** The image that [init] synthesises. *)
Definition image : list Z := Eval vm_compute in disk_buffer cold_boot.

(** A device whose flash already holds that image, at reset, and after
    [init] at tick 0. *)
Definition flashed (script : list HAL_StatusTypeDef) : disk_state App :=
  register_all (power_on image script).

Definition running (script : list HAL_StatusTypeDef) : disk_state App :=
  or_else (init (flashed script) 0) (flashed script).

(** A 512-byte sector that starts with [s] and is zero after it. *)
Definition sector_of (s : list Z) : list Z :=
  slice (s ++ repeat 0 (Z.to_nat SECTOR_SIZE)) 0 SECTOR_SIZE.

(** A directory sector whose first entry is [CONFIG  TXT] with the given
    starting cluster and size. *)
Definition root_with (cluster size : Z) : list Z :=
  sector_of
    (slice CONFIG_FILENAME 0 11 ++ repeat 0 15 ++
     [Z.land cluster 0xFF; Z.land (Z.shiftr cluster 8) 0xFF;
      Z.land size 0xFF; Z.land (Z.shiftr size 8) 0xFF;
      Z.land (Z.shiftr size 16) 0xFF; Z.land (Z.shiftr size 24) 0xFF]).

(** HAL outcomes of a commit in which only the unlock succeeds: the
    erase and every halfword program fail. *)
Definition failing_script : list HAL_StatusTypeDef :=
  HAL_OK :: repeat HAL_ERROR 513.

(** The running device after the host wrote sector 8 back unchanged at
    tick 10, so that a commit is pending. *)
Definition pending_state (script : list HAL_StatusTypeDef) : disk_state App :=
  or_else
    (option_map fst
       (write_sector STM32F103xB (running script)
          (snd (read_sector (running script) 8)) 8 1 10))
    (running script).

(** The host moves the file to cluster 16: it writes the directory
    sector with that starting cluster, then the file's first sector,
    sector 78. *)
Definition moved_to_cluster_16 : disk_state App :=
  let st1 :=
    or_else
      (option_map fst
         (write_sector STM32F103xB (running []) (root_with 16 10) 32 1 10))
      (running []) in
  or_else
    (option_map fst
       (write_sector STM32F103xB st1 (sector_of (bytes_of "SSID=home")) 78 1 20))
    st1.

(** The cold-booted device after the host wrote sector 64 back unchanged
    at tick 10, and after the commit that follows at tick 600. *)
Definition written_back : disk_state App :=
  or_else
    (option_map fst
       (write_sector STM32F103xB cold_boot (snd (read_sector cold_boot 64))
          64 1 10))
    cold_boot.

Definition committed : disk_state App :=
  or_else (process STM32F103xB written_back 600) written_back.

(** HAL outcomes of a commit in which the unlock and the erase succeed
    and every halfword program fails. *)
Definition programs_fail : list HAL_StatusTypeDef :=
  HAL_OK :: HAL_OK :: repeat HAL_ERROR 512.

(** The running device with that HAL, whose flash holds the mirror and
    which has nothing pending, after the host wrote sector 64 back
    unchanged at tick 10, and after the commit that follows at tick
    600. *)
Definition settled_written_back : disk_state App :=
  or_else
    (option_map fst
       (write_sector STM32F103xB (running programs_fail)
          (snd (read_sector (running programs_fail) 64)) 64 1 10))
    (running programs_fail).

Definition settled_committed : disk_state App :=
  or_else (process STM32F103xB settled_written_back 600)
    settled_written_back.

(** The running device after the host wrote a new first sector of the
    file at tick 10 (a line for [SSID] alone), after it then read sector
    8 and wrote it back at tick 20, and after the commit that follows at
    tick 600. *)
Definition edited : disk_state App :=
  or_else
    (option_map fst
       (write_sector STM32F103xB (running [])
          (sector_of (bytes_of "SSID=home")) 64 1 10))
    (running []).

Definition edited_written_back : disk_state App :=
  or_else
    (option_map fst
       (write_sector STM32F103xB edited (snd (read_sector edited 8)) 8 1 20))
    edited.

Definition edited_committed : disk_state App :=
  or_else (process STM32F103xB edited_written_back 600) edited_written_back.






(** What the content-rebuilding part of [validate_file] yields on the
    running device, read from [FILE_SECTOR]: the buffer, the handlers'
    state, [illegal], the content buffer and the length. *)
Definition rebuilt_buffer :=
  Eval vm_compute in
    match file_content (running []) FILE_SECTOR with
    | Some (b1, _, _, _, _) => b1
    | None => []
    end.

Definition rebuilt_app :=
  Eval vm_compute in
    match file_content (running []) FILE_SECTOR with
    | Some (_, a, _, _, _) => a
    | None => ([], [])
    end.

Definition rebuilt_illegal :=
  Eval vm_compute in
    match file_content (running []) FILE_SECTOR with
    | Some (_, _, illegal, _, _) => illegal
    | None => 1
    end.

Definition rebuilt_content :=
  Eval vm_compute in
    match file_content (running []) FILE_SECTOR with
    | Some (_, _, _, fcb, _) => fcb
    | None => []
    end.

Definition rebuilt_length :=
  Eval vm_compute in
    match file_content (running []) FILE_SECTOR with
    | Some (_, _, _, _, m) => m
    | None => 0
    end.

End Scenario.

(** ** Notions used to state the properties *)

(** The table of the spec's section 4.1: what each sector reads as. *)
Definition sector_view {App : Type} (st : disk_state App) (s : Z) : list Z :=
  if s =? 0 then BOOT_SEC
  else if s =? 8 then slice (disk_buffer st) FAT1_SECTOR SECTOR_SIZE
  else if s =? 20 then slice (disk_buffer st) FAT2_SECTOR SECTOR_SIZE
  else if s =? 32 then slice (disk_buffer st) ROOT_SECTOR SECTOR_SIZE
  else if (64 <=? s) && ((s - 64) * 512 + 512 <=? FILE_SECTOR_SIZE)
       then slice (disk_buffer st) (FILE_SECTOR + (s - 64) * 512) SECTOR_SIZE
  else repeat 0 (Z.to_nat SECTOR_SIZE).

(** Entry [i] of the root-directory mirror is named [CONFIG  TXT], letter
    case apart (the comparison of [find_file]). *)
Definition is_config_entry (b : list Z) (i : Z) : Prop :=
  Upper (slice b (ROOT_SECTOR + 32 * i) 11) 11 = slice CONFIG_FILENAME 0 11.

(** [i] is the first such entry among the 16 that are scanned. *)
Definition first_config_entry (b : list Z) (i : Z) : Prop :=
  0 <= i < 16 /\ is_config_entry b i
  /\ forall j, 0 <= j < i -> ~ is_config_entry b j.

Definition no_config_entry (b : list Z) : Prop :=
  forall j, 0 <= j < 16 -> ~ is_config_entry b j.

(** Entry [i] of a directory sector is named exactly [CONFIG  TXT] (the
    comparison of [write_sector]). *)
Definition config_name_at (data : list Z) (i : Z) : Prop :=
  slice data (32 * i) 11 = slice CONFIG_FILENAME 0 11.

Definition first_config_name (data : list Z) (i : Z) : Prop :=
  0 <= i < 16 /\ config_name_at data i
  /\ forall j, 0 <= j < i -> ~ config_name_at data j.

Definition no_config_name (data : list Z) : Prop :=
  forall j, 0 <= j < 16 -> ~ config_name_at data j.

(** Labels are held in arrays of [MAX_ENTRY_LABEL_LENGTH] bytes. *)
Definition labels_fit {App : Type} (es : list (FILE_ENTRY App)) : Prop :=
  Forall (fun e => zlen (entry e) <= MAX_ENTRY_LABEL_LENGTH) es.

(** Two states with the same RAM globals and handler state (the flash and
    the HAL script may differ). *)
Definition same_ram {App : Type} (st st' : disk_state App) : Prop :=
  disk_buffer st' = disk_buffer st
  /\ page_dirty_mask st' = page_dirty_mask st
  /\ entry_usage_mask st' = entry_usage_mask st
  /\ last_write_tick st' = last_write_tick st
  /\ pending_flash_write st' = pending_flash_write st
  /\ entries st' = entries st
  /\ Config_flag st' = Config_flag st
  /\ txt_flag st' = txt_flag st
  /\ app st' = app st.

(** The file is in the form that [validate_file] gives it: whenever
    [process] would validate (a [CONFIG  TXT] entry whose 16-bit length is
    not zero), the validation is defined and reproduces the mirror. *)
Definition normalised {App : Type} (st : disk_state App) : Prop :=
  forall p_file file_len root_addr,
    find_file (disk_buffer st) CONFIG_FILENAME
    = Some (p_file, file_len, root_addr) ->
    0 < file_len ->
    exists st1 illegal,
      validate_file st p_file root_addr = Some (st1, illegal)
      /\ disk_buffer st1 = disk_buffer st.

(** The dirty flags that [rewrite_dirty_flash_pages] leaves, written
    without the flash traffic. *)
Definition flags_after_commit (tgt : target) (mask : list Z) : list Z :=
  match tgt with
  | STM32F103xB =>
      match first_dirty mask 0 16 with
      | Some i => store mask i 0
      | None => mask
      end
  | STM32F411xE =>
      match first_dirty mask 0 (Z.to_nat sizeof_page_dirty_mask) with
      | Some _ => memset mask 0 0 sizeof_page_dirty_mask
      | None => mask
      end
  end.

(** The canonical layout of the file whose directory entry has index
    [root_addr]: starting cluster 2, the size [m] in the four size bytes,
    the first [m] bytes of [fcb] at [FILE_SECTOR] and zeros up to the end of
    the file region. *)
Definition canonical_layout (b : list Z) (root_addr : Z) (fcb : list Z) (m : Z)
  : Prop :=
  let d := ROOT_SECTOR + root_addr * 32 in
  load b (d + 0x1A) = 2
  /\ load b (d + 0x1B) = 0
  /\ load b (d + 0x1C) + 256 * load b (d + 0x1D) + 65536 * load b (d + 0x1E)
     + 16777216 * load b (d + 0x1F) = m
  /\ slice b FILE_SECTOR m = slice fcb 0 m
  /\ (forall k, FILE_SECTOR + m <= k < FILE_SECTOR + FILE_SECTOR_SIZE ->
      load b k = 0).

(** The chain that [update_fat_chain] builds for [n] clusters, as FAT12
    entries read from FAT1: the chain, zero entries and zero bytes after
    it, FAT2 a copy of FAT1 and the bytes outside the two FATs as they were
    in [b]. *)
Definition chain_layout (b b' : list Z) (n : Z) : Prop :=
  length b' = length b
  /\ (forall k, 0 <= k < 3 -> load b' k = load b k)
  /\ (forall i, 0 <= i < n ->
      fat12_entry b' FAT1_SECTOR (2 + i) = if i =? n - 1 then 0xFFF else 3 + i)
  /\ (forall c, 2 + n <= c <= 340 -> fat12_entry b' FAT1_SECTOR c = 0)
  /\ (forall k, (2 + n) + (2 + n) / 2 + 1 <= k < SECTOR_SIZE -> load b' k = 0)
  /\ slice b' FAT2_SECTOR SECTOR_SIZE = slice b' FAT1_SECTOR SECTOR_SIZE
  /\ (forall k, 0x400 <= k -> load b' k = load b k).

(** One [set_fat12_entry] leaves every byte but the two of the entry as it
    was, and in the byte shared with the neighbouring entry it leaves the
    neighbour's nibble. *)
Definition nibble_write (b b' : list Z) (fat c : Z) : Prop :=
  let o := fat + (c + c / 2) in
  (forall k, 0 <= k -> k <> o -> k <> o + 1 -> load b' k = load b k)
  /\ (Z.even c = false -> Z.land (load b' o) 0x0F = Z.land (load b o) 0x0F)
  /\ (Z.even c = true ->
      Z.land (load b' (o + 1)) 0xF0 = Z.land (load b (o + 1)) 0xF0).

(** The bytes at [off] are some registered entry's label followed by '='. *)
Definition begins_with_label {App : Type} (b : list Z) (off : Z)
  (es : list (FILE_ENTRY App)) : Prop :=
  exists e,
    In e es /\ registered e = true
    /\ slice b off (strlen (entry e)) = slice (entry e) 0 (strlen (entry e))
    /\ load b (off + strlen (entry e)) = 61.

(** The dot-file test on the first two bytes of a sector. *)
Definition dot_file_start (data : list Z) : Prop :=
  load data 0 = 0x00 \/ load data 0 = 0x05
  \/ (load data 0 = 46 /\ load data 1 <> 0).

(** The rows of [parse_buffer]: [FILE_ENTRY_CNT] arrays of [FILE_ROW_CNT]
    bytes. *)
Definition rows_ok (pb : list (list Z)) : Prop :=
  zlen pb = FILE_ENTRY_CNT /\ Forall (fun row => zlen row = FILE_ROW_CNT) pb.

(** ** Proof automation *)

(** Linear arithmetic with division and remainder by constants. *)
Ltac zdiv := Z.div_mod_to_equations; lia.

(** Splitting conjunctions only: an equation between large closed terms is
    left to [vm_compute]. *)
Ltac split_all := repeat match goal with |- _ /\ _ => split end.

(** Replacing the comparisons of a goal by their values, found by [lia]. *)
Ltac decide_order :=
  repeat match goal with
  | |- context [?a <=? ?b] =>
      (rewrite (proj2 (Z.leb_le a b)) by lia)
      || (rewrite (proj2 (Z.leb_gt a b)) by lia)
  | |- context [?a <? ?b] =>
      (rewrite (proj2 (Z.ltb_lt a b)) by lia)
      || (rewrite (proj2 (Z.ltb_ge a b)) by lia)
  end; cbn [andb orb negb].

(** ** Notions used by the further properties *)

(** A TAB immediately followed by '#' at index [i] of [value]. *)
Definition tab_hash_at (value : list Z) (i : Z) : Prop :=
  load value i = 9 /\ load value (i + 1) = 35.

(** A byte that the line splitter copies: neither NUL nor LF nor CR. *)
Definition line_byte (c : Z) : Prop := c <> 0 /\ c <> 10 /\ c <> 13.

(** The text that the rebuild loop of [validate_file] is to produce: for
    each registered entry, in slot order, the string of its row followed by
    the string of its comment. *)
Fixpoint rendered {App : Type} (es : list (FILE_ENTRY App)) (k : Z)
  (pb : list (list Z)) : list Z :=
  match es with
  | [] => []
  | e :: es' =>
      if registered e
      then cstr (get_row pb k) ++ cstr (comment e) ++ rendered es' (k + 1) pb
      else rendered es' (k + 1) pb
  end.

(** Slot [k] of the registry. *)
Definition slot {App : Type} (st : disk_state App) (k : Z)
  : option (FILE_ENTRY App) :=
  nth_error (entries st) (Z.to_nat k).

(** The registry is the array [entries[FILE_ENTRY_CNT]] of disk.h records:
    label and comment are arrays of 64 bytes. *)
Definition registry_shape {App : Type} (es : list (FILE_ENTRY App)) : Prop :=
  zlen es = FILE_ENTRY_CNT
  /\ Forall (fun e => zlen (entry e) = MAX_ENTRY_LABEL_LENGTH
                      /\ zlen (comment e) = MAX_ENTRY_COMMENT_LENGTH) es.

(** [k] is the lowest clear bit of [mask]. *)
Definition first_free (mask k : Z) : Prop :=
  0 <= k < FILE_ENTRY_CNT /\ Z.testbit mask k = false
  /\ forall j, 0 <= j < k -> Z.testbit mask j = true.

(** Where sector [s] of the volume lives in [disk_buffer], if anywhere
    (the sector map of [read_sector] and [write_sector]). *)
Definition mirror_offset (s : Z) : option Z :=
  if s =? 8 then Some FAT1_SECTOR
  else if s =? 20 then Some FAT2_SECTOR
  else if s =? 32 then Some ROOT_SECTOR
  else if (64 <=? s) && ((s - 64) * 512 + 512 <=? FILE_SECTOR_SIZE)
       then Some (FILE_SECTOR + (s - 64) * 512)
  else None.

(** What a sector write leaves alone: the flash and the HAL, the registry,
    the handlers' state, the deferred-commit state and the sizes of the
    mirror and of the flag array. *)
Definition write_frame {App : Type} (st st' : disk_state App) : Prop :=
  flash st' = flash st /\ hal_script st' = hal_script st
  /\ entries st' = entries st /\ entry_usage_mask st' = entry_usage_mask st
  /\ app st' = app st
  /\ pending_flash_write st' = pending_flash_write st
  /\ last_write_tick st' = last_write_tick st
  /\ length (disk_buffer st') = length (disk_buffer st)
  /\ length (page_dirty_mask st') = length (page_dirty_mask st).

(** The four outcomes of one sector of a [write_sector] call. *)
Inductive sector_outcome {App : Type} (st : disk_state App) (s : Z)
  (data : list Z) (st' : disk_state App) : Prop :=
| sector_ignored :
    mirror_offset s = None -> st' = st -> sector_outcome st s data st'
| sector_same off :
    mirror_offset s = Some off -> data = slice (disk_buffer st) off SECTOR_SIZE ->
    st' = st -> sector_outcome st s data st'
| sector_rejected off :
    mirror_offset s = Some off -> 64 <= s ->
    write_rejected st s data = Some true -> st' = st ->
    sector_outcome st s data st'
| sector_stored off :
    mirror_offset s = Some off ->
    data <> slice (disk_buffer st) off SECTOR_SIZE ->
    (64 <= s -> write_rejected st s data = Some false) ->
    disk_buffer st' = memcpy (disk_buffer st) off data ->
    sector_outcome st s data st'.

(** Every HAL call that is still to come succeeds. *)
Definition hal_ok (s : list HAL_StatusTypeDef) : Prop :=
  Forall (fun x => x = HAL_OK) s.

(** The buffer holds byte values. *)
Definition is_bytes (b : list Z) : Prop := Forall (fun x => 0 <= x < 256) b.

(** The text of the default file that [flush_file] writes: for each
    registered entry, in slot order, ["label=default"] followed by the
    stored comment. *)
Fixpoint default_text {App : Type} (es : list (FILE_ENTRY App)) : list Z :=
  match es with
  | [] => []
  | e :: es' =>
      if registered e
      then default_line e ++ cstr (comment e) ++ default_text es'
      else default_text es'
  end.

(** What may follow a value in a parsed line: the end of the row, the NUL
    that ends the line, or the TAB and '#' that start a comment. *)
Definition value_end (tail : list Z) : Prop :=
  tail = [] \/ (exists r, tail = 0 :: r) \/ (exists r, tail = 9 :: 35 :: r).

(** A text made of lines, each followed by CR LF ([true]) or by LF alone
    ([false]). *)
Fixpoint join_lines (ls : list (list Z * bool)) : list Z :=
  match ls with
  | [] => []
  | (l, crlf) :: ls' =>
      l ++ (if crlf then [13; 10] else [10]) ++ join_lines ls'
  end.

(** The empty [parse_buffer]: [memset(parse_buffer, 0, sizeof ...)]. *)
Definition blank_rows : list (list Z) :=
  repeat (repeat 0 (Z.to_nat FILE_ROW_CNT)) (Z.to_nat FILE_ENTRY_CNT).

(** A line that the splitter copies whole. *)
Definition plain_line (l : list Z) : Prop :=
  Forall line_byte l /\ zlen l <= FILE_ROW_CNT - 1.

(** ** Sample devices

    Concrete states over the registry of [Scenario], used to instantiate
    the general properties. *)
Module Sample.

(** Reset with erased flash, no entry registered. *)
Definition blank : disk_state Scenario.App :=
  Scenario.power_on Scenario.erased_flash [].

(** The same with the flag of page 3 set. *)
Definition dirty3 : disk_state Scenario.App :=
  set_page_dirty_mask blank (store (page_dirty_mask blank) 3 1).

(** The same with a HAL whose first erase fails. *)
Definition erase_fails : disk_state Scenario.App :=
  set_flash blank (flash blank) [HAL_OK; HAL_ERROR].

(** Eight slots taken. *)
Definition full : disk_state Scenario.App :=
  set_entries Scenario.registered_state
    (entries Scenario.registered_state) 255.

(** The registry filled, the mirror holding the default image (as after
    [load_from_flash] on a device that was set up before) and a commit
    pending since tick 0. *)
Definition loaded : disk_state Scenario.App :=
  set_pending (set_disk_buffer (Scenario.flashed []) Scenario.image) true 0.

(** [validate_file] on that device, for the file at [FILE_SECTOR] and
    directory entry 0. *)
Definition or_default {A : Type} (o : option A) (d : A) : A :=
  match o with
  | Some x => x
  | None => d
  end.

Definition validated : disk_state Scenario.App * Z :=
  or_default (validate_file loaded FILE_SECTOR 0) (loaded, 1).

(** A parsed line whose value holds a TAB that starts no comment. *)
Definition tab_row : list Z :=
  bytes_of "SSID=my" ++ [9] ++ bytes_of "net" ++ [9; 35] ++ bytes_of "ap"
  ++ repeat 0 100.

(** The first two slots of the registry: the entries [SSID] and [PSK]. *)
Definition ssid_entry : FILE_ENTRY Scenario.App :=
  nth 0 (entries Scenario.registered_state) Scenario.blank_entry.

Definition psk_entry : FILE_ENTRY Scenario.App :=
  nth 1 (entries Scenario.registered_state) Scenario.blank_entry.

(** A row of [parse_buffer] that holds the line [s], and the rows of a
    file that has the PSK line before the SSID line. *)
Definition row_of (s : list Z) : list Z :=
  slice (s ++ repeat 0 (Z.to_nat FILE_ROW_CNT)) 0 FILE_ROW_CNT.

Definition swapped_rows : list (list Z) :=
  [row_of (bytes_of "PSK=12345678"); row_of (bytes_of "SSID=home")].

(** [validate_file] on the running device, for the file at
    [FILE_SECTOR] and directory entry 0. *)
Definition revalidated : disk_state Scenario.App * Z :=
  or_default (validate_file (Scenario.running []) FILE_SECTOR 0)
    (Scenario.running [], 1).

(** Two rendered rows. *)
Definition rows : list (list Z) :=
  [bytes_of "SSID=net" ++ [0]; bytes_of "PSK=password" ++ [0]].

(** A sector of 512 bytes that is not all zero. *)
Definition sector : list Z := Scenario.sector_of (bytes_of "x").

(** Byte check of a buffer, as a computation. *)
Definition all_bytes (b : list Z) : bool :=
  forallb (fun x => (0 <=? x) && (x <? 256)) b.

End Sample.

(** Case split of an integer variable over the values from [lo] up, [n] of
    them; what is left is closed by [lia]. *)
Ltac split_index j lo n :=
  lazymatch n with
  | O => exfalso; lia
  | S ?n' =>
      let E := fresh "E" in
      destruct (Z.eq_dec j lo) as [E | E];
      [subst j | split_index j (lo + 1) n']
  end.

(** * Properties *)

(** ** Byte buffers *)

Section MemFacts.
Implicit Types (b src : list Z) (off n i v : Z).

Lemma length_memcpy b off src :
  0 <= off -> off + zlen src <= zlen b ->
  length (memcpy b off src) = length b.
Proof.
  intros H0 H1. unfold memcpy.
  rewrite !length_app, length_firstn, length_skipn. lia.
Qed.

Lemma load_memcpy_in b off src i :
  0 <= off -> off + zlen src <= zlen b ->
  off <= i < off + zlen src ->
  load (memcpy b off src) i = load src (i - off).
Proof.
  intros H0 H1 Hi. unfold memcpy, load.
  rewrite app_nth2 by (rewrite length_firstn; lia).
  rewrite length_firstn.
  rewrite app_nth1 by lia.
  f_equal. lia.
Qed.

Lemma load_memcpy_out b off src i :
  0 <= off -> off + zlen src <= zlen b -> 0 <= i ->
  i < off \/ off + zlen src <= i ->
  load (memcpy b off src) i = load b i.
Proof.
  intros H0 H1 Hi [Hlt | Hge]; unfold memcpy, load.
  - rewrite app_nth1 by (rewrite length_firstn; lia).
    rewrite nth_firstn.
    destruct (Nat.ltb_spec (Z.to_nat i) (Z.to_nat off)); [reflexivity | lia].
  - rewrite app_nth2 by (rewrite length_firstn; lia).
    rewrite length_firstn.
    rewrite app_nth2 by lia.
    rewrite nth_skipn. f_equal. lia.
Qed.

Lemma length_slice b off n :
  0 <= off -> 0 <= n -> off + n <= zlen b ->
  zlen (slice b off n) = n.
Proof.
  intros. unfold slice. rewrite length_firstn, length_skipn. lia.
Qed.

Lemma load_slice b off n i :
  0 <= off -> 0 <= i < n ->
  load (slice b off n) i = load b (off + i).
Proof.
  intros H0 Hi. unfold slice, load.
  rewrite nth_firstn.
  destruct (Nat.ltb_spec (Z.to_nat i) (Z.to_nat n)); [| lia].
  rewrite nth_skipn. f_equal. lia.
Qed.

(** Two buffers of the same length with the same bytes are equal. *)
Lemma bytes_ext (a b : list Z) :
  length a = length b ->
  (forall i, 0 <= i < zlen a -> load a i = load b i) ->
  a = b.
Proof.
  intros Hl H. apply (nth_ext a b 0 0 Hl).
  intros k Hk. specialize (H (Z.of_nat k)).
  unfold load in H. rewrite Nat2Z.id in H. apply H. lia.
Qed.

Lemma slice_memcpy_same b off src :
  0 <= off -> off + zlen src <= zlen b ->
  slice (memcpy b off src) off (zlen src) = src.
Proof.
  intros H0 H1. apply bytes_ext.
  - apply Nat2Z.inj. rewrite length_slice; try lia.
    rewrite length_memcpy; lia.
  - intros i Hi. rewrite length_slice in Hi; try lia.
    2: rewrite length_memcpy; lia.
    rewrite load_slice by lia.
    rewrite load_memcpy_in by lia. f_equal. lia.
Qed.

Lemma slice_memcpy_out b off src o n :
  0 <= off -> off + zlen src <= zlen b ->
  0 <= o -> 0 <= n -> o + n <= zlen b ->
  o + n <= off \/ off + zlen src <= o ->
  slice (memcpy b off src) o n = slice b o n.
Proof.
  intros H0 H1 Ho Hn Hb Hd. apply bytes_ext.
  - apply Nat2Z.inj. rewrite !length_slice; try lia.
    rewrite length_memcpy; lia.
  - intros i Hi. rewrite length_slice in Hi; try lia.
    2: rewrite length_memcpy; lia.
    rewrite !load_slice by lia.
    apply load_memcpy_out; lia.
Qed.

Lemma bytes_eqb_refl (a : list Z) : bytes_eqb a a = true.
Proof.
  induction a as [| x a IH]; simpl; [reflexivity |].
  rewrite Z.eqb_refl. exact IH.
Qed.

Lemma bytes_eqb_eq (a b : list Z) : bytes_eqb a b = true <-> a = b.
Proof.
  split.
  - revert b. induction a as [| x a IH]; intros [| y b] H; simpl in H;
      try discriminate; [reflexivity |].
    apply andb_true_iff in H. destruct H as [Hxy Hab].
    apply Z.eqb_eq in Hxy. subst y. f_equal. apply IH, Hab.
  - intros ->. apply bytes_eqb_refl.
Qed.

Lemma length_repeat_Z v n : 0 <= n -> zlen (repeat v (Z.to_nat n)) = n.
Proof. intros. rewrite repeat_length. lia. Qed.

Lemma load_repeat v n i : load (repeat v (Z.to_nat n)) i = v \/ load (repeat v (Z.to_nat n)) i = 0.
Proof.
  unfold load.
  destruct (Nat.lt_ge_cases (Z.to_nat i) (Z.to_nat n)).
  - left. apply nth_repeat_lt. assumption.
  - right. apply nth_overflow. rewrite repeat_length. assumption.
Qed.

Lemma load_repeat_in v n i : 0 <= i < n -> load (repeat v (Z.to_nat n)) i = v.
Proof. intros. unfold load. apply nth_repeat_lt. lia. Qed.

End MemFacts.

(** ** Nibble arithmetic of the packed entries *)

Lemma testbit_15 k : 0 <= k -> Z.testbit 15 k = (k <? 4).
Proof.
  intros Hk. change 15 with (Z.ones 4).
  destruct (Z.ltb_spec k 4).
  - apply Z.ones_spec_low. lia.
  - apply Z.ones_spec_high. lia.
Qed.

Lemma testbit_255 k : 0 <= k -> Z.testbit 255 k = (k <? 8).
Proof.
  intros Hk. change 255 with (Z.ones 8).
  destruct (Z.ltb_spec k 8).
  - apply Z.ones_spec_low. lia.
  - apply Z.ones_spec_high. lia.
Qed.

Lemma testbit_240 k : 0 <= k -> Z.testbit 240 k = (4 <=? k) && (k <? 8).
Proof.
  intros Hk. change 240 with (Z.shiftl (Z.ones 4) 4).
  rewrite Z.shiftl_spec by lia.
  destruct (Z.leb_spec 4 k); simpl.
  - destruct (Z.ltb_spec k 8).
    + apply Z.ones_spec_low. lia.
    + apply Z.ones_spec_high. lia.
  - apply Z.testbit_neg_r. lia.
Qed.

Lemma testbit_above v n k :
  0 <= v < 2 ^ n -> 0 <= n <= k -> Z.testbit v k = false.
Proof.
  intros Hv Hk. destruct (Z.eq_dec v 0) as [-> | Hnz].
  - apply Z.bits_0.
  - apply Z.bits_above_log2; [lia |].
    assert (Z.log2 v < n) by (apply Z.log2_lt_pow2; lia). lia.
Qed.

(** A value whose bits from 8 up are clear is a byte. *)
Lemma byte_of_bits x :
  (forall k, 8 <= k -> Z.testbit x k = false) -> 0 <= x < 256.
Proof.
  intros H.
  assert (E : x = Z.land x 255).
  { apply Z.bits_inj'. intros k Hk.
    rewrite Z.land_spec, testbit_255 by lia.
    destruct (Z.ltb_spec k 8).
    - rewrite andb_true_r. reflexivity.
    - rewrite andb_false_r. apply H. lia. }
  rewrite E. change 255 with (Z.ones 8). rewrite Z.land_ones by lia.
  apply Z.mod_pos_bound. lia.
Qed.

Lemma low_nibble_kept x v :
  Z.land (Z.lor (Z.land x 0x0F) (Z.shiftl (Z.land v 0x0F) 4)) 0x0F
  = Z.land x 0x0F.
Proof.
  apply Z.bits_inj'. intros k Hk.
  rewrite !Z.land_spec, Z.lor_spec, Z.land_spec, Z.shiftl_spec by lia.
  rewrite testbit_15 by lia.
  destruct (Z.ltb_spec k 4).
  - rewrite (Z.testbit_neg_r _ (k - 4)) by lia.
    rewrite orb_false_r, andb_true_r. reflexivity.
  - rewrite !andb_false_r. reflexivity.
Qed.

Lemma high_nibble_kept y w :
  Z.land (Z.lor (Z.land y 0xF0) (Z.land w 0x0F)) 0xF0 = Z.land y 0xF0.
Proof.
  apply Z.bits_inj'. intros k Hk.
  rewrite !Z.land_spec, Z.lor_spec, !Z.land_spec by lia.
  rewrite testbit_15, testbit_240 by lia.
  destruct (Z.leb_spec 4 k); destruct (Z.ltb_spec k 8); simpl;
    destruct (Z.ltb_spec k 4); try lia;
    rewrite ?andb_false_r, ?andb_true_r, ?orb_false_r; reflexivity.
Qed.

Lemma high_nibble_shift y w :
  0 <= y < 256 ->
  Z.shiftr (Z.lor (Z.land y 0xF0) (Z.land w 0x0F)) 4 = Z.shiftr y 4.
Proof.
  intros Hy. apply Z.bits_inj'. intros k Hk.
  rewrite !Z.shiftr_spec, Z.lor_spec, !Z.land_spec by lia.
  rewrite testbit_15, testbit_240 by lia.
  destruct (Z.leb_spec 4 (k + 4)); [| lia].
  destruct (Z.ltb_spec (k + 4) 4); [lia |].
  destruct (Z.ltb_spec (k + 4) 8); simpl.
  - rewrite andb_true_r, andb_false_r, orb_false_r. reflexivity.
  - rewrite !andb_false_r. simpl. symmetry.
    apply (testbit_above y 8); lia.
Qed.

Lemma odd_entry_decoded x v :
  0 <= v < 4096 ->
  Z.lor (Z.shiftr (Z.lor (Z.land x 0x0F) (Z.shiftl (Z.land v 0x0F) 4)) 4)
        (Z.shiftl (Z.land (Z.shiftr v 4) 0xFF) 4) = v.
Proof.
  intros Hv. apply Z.bits_inj'. intros k Hk.
  rewrite Z.lor_spec, Z.shiftr_spec, Z.lor_spec, Z.land_spec, !Z.shiftl_spec,
    Z.land_spec by lia.
  rewrite !testbit_15 by lia.
  replace (k + 4 - 4) with k by lia.
  destruct (Z.ltb_spec (k + 4) 4); [lia |]. rewrite andb_false_r. simpl.
  destruct (Z.ltb_spec k 4).
  - rewrite (Z.testbit_neg_r _ (k - 4)) by lia.
    rewrite andb_true_r, orb_false_r. reflexivity.
  - rewrite andb_false_r. simpl.
    rewrite Z.land_spec, Z.shiftr_spec, testbit_255 by lia.
    replace (k - 4 + 4) with k by lia.
    destruct (Z.ltb_spec (k - 4) 8).
    + apply andb_true_r.
    + rewrite andb_false_r. symmetry. apply (testbit_above v 12); lia.
Qed.

Lemma even_entry_decoded y v :
  0 <= v < 4096 ->
  Z.lor (Z.land v 0xFF)
        (Z.shiftl
           (Z.land (Z.lor (Z.land y 0xF0) (Z.land (Z.shiftr v 8) 0x0F)) 0x0F) 8)
  = v.
Proof.
  intros Hv. apply Z.bits_inj'. intros k Hk.
  rewrite Z.lor_spec, Z.land_spec, Z.shiftl_spec by lia.
  rewrite testbit_255 by lia.
  destruct (Z.ltb_spec k 8).
  - rewrite (Z.testbit_neg_r _ (k - 8)) by lia.
    rewrite andb_true_r, orb_false_r. reflexivity.
  - rewrite andb_false_r. simpl.
    rewrite Z.land_spec, Z.lor_spec, !Z.land_spec, Z.shiftr_spec by lia.
    rewrite testbit_15, testbit_240 by lia.
    replace (k - 8 + 8) with k by lia.
    destruct (Z.ltb_spec (k - 8) 4).
    + destruct (Z.leb_spec 4 (k - 8)); [lia |]. simpl.
      rewrite !andb_false_r, !andb_true_r. reflexivity.
    + rewrite !andb_false_r. symmetry. apply (testbit_above v 12); lia.
Qed.

Lemma odd_low_byte_range x v :
  0 <= Z.lor (Z.land x 0x0F) (Z.shiftl (Z.land v 0x0F) 4) < 256.
Proof.
  apply byte_of_bits. intros k Hk.
  rewrite Z.lor_spec, Z.land_spec, Z.shiftl_spec, Z.land_spec by lia.
  rewrite !testbit_15 by lia.
  destruct (Z.ltb_spec k 4); [lia |].
  destruct (Z.ltb_spec (k - 4) 4); [lia |].
  rewrite !andb_false_r. reflexivity.
Qed.

Lemma land_255_range w : 0 <= Z.land w 0xFF < 256.
Proof.
  apply byte_of_bits. intros k Hk.
  rewrite Z.land_spec, testbit_255 by lia.
  destruct (Z.ltb_spec k 8); [lia |]. apply andb_false_r.
Qed.

Lemma even_high_byte_range y w :
  0 <= Z.lor (Z.land y 0xF0) (Z.land w 0x0F) < 256.
Proof.
  apply byte_of_bits. intros k Hk.
  rewrite Z.lor_spec, !Z.land_spec by lia.
  rewrite testbit_15, testbit_240 by lia.
  destruct (Z.ltb_spec k 4); [lia |].
  destruct (Z.ltb_spec k 8); [lia |].
  rewrite !andb_false_r. reflexivity.
Qed.

Lemma bind_Some {A B : Type} (x : A) (f : A -> option B) :
  bind (Some x) f = f x.
Proof. reflexivity. Qed.

(** ** Single stores *)

Lemma store_opt_some b i v b' :
  store_opt b i v = Some b' -> 0 <= i < zlen b /\ b' = store b i v.
Proof.
  unfold store_opt, in_bounds. intros H.
  destruct (Z.leb_spec 0 i); [| discriminate].
  destruct (Z.leb_spec (i + 1) (zlen b)); [| discriminate].
  simpl in H. injection H as <-. split; [lia | reflexivity].
Qed.

Lemma load_opt_some b i x :
  load_opt b i = Some x -> 0 <= i < zlen b /\ x = load b i.
Proof.
  unfold load_opt, in_bounds. intros H.
  destruct (Z.leb_spec 0 i); [| discriminate].
  destruct (Z.leb_spec (i + 1) (zlen b)); [| discriminate].
  simpl in H. injection H as <-. split; [lia | reflexivity].
Qed.

Lemma length_store b i v : 0 <= i < zlen b -> length (store b i v) = length b.
Proof. intros. apply length_memcpy; simpl; lia. Qed.

Lemma load_store_same b i v : 0 <= i < zlen b -> load (store b i v) i = v.
Proof.
  intros. unfold store. rewrite load_memcpy_in by (simpl; lia).
  replace (i - i) with 0 by lia. reflexivity.
Qed.

Lemma load_store_other b i v k :
  0 <= i < zlen b -> 0 <= k -> k <> i -> load (store b i v) k = load b k.
Proof.
  intros. unfold store. apply load_memcpy_out; simpl; lia.
Qed.

(** ** What one [set_fat12_entry] writes *)

Lemma land_1_even c : (Z.land c 1 =? 0) = Z.even c.
Proof.
  change 1 with (Z.ones 1) at 1. rewrite Z.land_ones by lia.
  symmetry. apply Zeven_mod.
Qed.

Lemma set_fat12_entry_bytes b fat c v b' :
  set_fat12_entry b fat c v = Some b' ->
  let o := fat + (c + c / 2) in
  0 <= o /\ o + 1 < zlen b /\ length b' = length b
  /\ (forall k, 0 <= k -> k <> o -> k <> o + 1 -> load b' k = load b k)
  /\ (Z.even c = false ->
      load b' o = Z.lor (Z.land (load b o) 0x0F) (Z.shiftl (Z.land v 0x0F) 4)
      /\ load b' (o + 1) = Z.land (Z.shiftr v 4) 0xFF)
  /\ (Z.even c = true ->
      load b' o = Z.land v 0xFF
      /\ load b' (o + 1)
         = Z.lor (Z.land (load b (o + 1)) 0xF0) (Z.land (Z.shiftr v 8) 0x0F)).
Proof.
  unfold set_fat12_entry. rewrite land_1_even. cbv zeta.
  replace (fat + (c + c / 2 ) + 1) with (fat + (c + c / 2) + 1) by reflexivity.
  set (o := fat + (c + c / 2)). intros H.
  destruct (Z.even c); simpl negb in H; cbv iota in H.
  - destruct (store_opt b o _) as [b1 |] eqn:H1; [| discriminate].
    rewrite bind_Some in H; cbv beta in H.
    destruct (load_opt b1 (o + 1)) as [y |] eqn:Hy; [| discriminate].
    rewrite bind_Some in H; cbv beta in H.
    apply store_opt_some in H1. destruct H1 as [R1 ->].
    apply load_opt_some in Hy. destruct Hy as [Ry ->].
    apply store_opt_some in H. destruct H as [R2 ->].
    rewrite length_store in Ry, R2 by lia.
    repeat split; try lia.
    + rewrite !length_store; rewrite ?length_store; lia.
    + intros k Hk Hk1 Hk2.
      rewrite load_store_other by (rewrite ?length_store; lia).
      apply load_store_other; lia.
    + rewrite load_store_other by (rewrite ?length_store; lia).
      apply load_store_same; lia.
    + rewrite load_store_same by (rewrite ?length_store; lia).
      rewrite load_store_other by lia. reflexivity.
  - destruct (load_opt b o) as [x |] eqn:Hx; [| discriminate].
    rewrite bind_Some in H; cbv beta in H.
    destruct (store_opt b o _) as [b1 |] eqn:H1; [| discriminate].
    rewrite bind_Some in H; cbv beta in H.
    apply load_opt_some in Hx. destruct Hx as [Rx ->].
    apply store_opt_some in H1. destruct H1 as [R1 ->].
    apply store_opt_some in H. destruct H as [R2 ->].
    rewrite length_store in R2 by lia.
    repeat split; try lia.
    + rewrite !length_store; rewrite ?length_store; lia.
    + intros k Hk Hk1 Hk2.
      rewrite load_store_other by (rewrite ?length_store; lia).
      apply load_store_other; lia.
    + rewrite load_store_other by (rewrite ?length_store; lia).
      apply load_store_same; lia.
    + rewrite load_store_same by (rewrite ?length_store; lia).
      reflexivity.
Qed.


Lemma even_half c : Z.even c = true -> c = 2 * (c / 2).
Proof.
  intros H. apply Z.even_spec in H. destruct H as [k ->]. zdiv.
Qed.

Lemma odd_half c : Z.even c = false -> c = 2 * (c / 2) + 1.
Proof.
  intros H. rewrite <- Z.negb_odd in H. apply negb_false_iff in H.
  apply Z.odd_spec in H. destruct H as [k ->]. zdiv.
Qed.

(** The entry written reads back. *)
Lemma fat12_entry_set_same b fat c v b' :
  set_fat12_entry b fat c v = Some b' -> 0 <= v < 4096 ->
  fat12_entry b' fat c = v.
Proof.
  intros H Hv.
  destruct (set_fat12_entry_bytes _ _ _ _ _ H) as (_ & _ & _ & _ & Hodd & Heven).
  unfold fat12_entry.
  destruct (Z.even c) eqn:Hc.
  - destruct (Heven eq_refl) as [E1 E2]. rewrite E1, E2.
    apply even_entry_decoded, Hv.
  - destruct (Hodd eq_refl) as [E1 E2]. rewrite E1, E2.
    apply odd_entry_decoded, Hv.
Qed.

(** Every other entry keeps its value: the byte it may share with the
    written one keeps the nibble that belongs to it. *)
Lemma fat12_entry_set_other b fat c v b' c' :
  set_fat12_entry b fat c v = Some b' ->
  0 <= fat -> 0 <= c -> 0 <= c' -> c' <> c ->
  0 <= load b (fat + (c + c / 2) + 1) < 256 ->
  fat12_entry b' fat c' = fat12_entry b fat c'.
Proof.
  intros H Hfat Hc Hc' Hne Hrange.
  destruct (set_fat12_entry_bytes _ _ _ _ _ H)
    as (Ho & Hlen & _ & Hother & Hodd & Heven).
  unfold fat12_entry.
  destruct (Z.even c) eqn:Pc; destruct (Z.even c') eqn:Pc'.
  - (* both even: no byte in common *)
    pose proof (even_half _ Pc). pose proof (even_half _ Pc').
    rewrite !Hother by zdiv. reflexivity.
  - (* c even, c' odd: c' = c + 1 starts in the byte at o + 1 *)
    pose proof (even_half _ Pc). pose proof (odd_half _ Pc').
    destruct (Z.eq_dec c' (c + 1)) as [-> | Hn1].
    + replace (fat + (c + 1 + (c + 1) / 2)) with (fat + (c + c / 2) + 1) by zdiv.
      destruct (Heven eq_refl) as [_ E2]. rewrite E2.
      rewrite high_nibble_shift by exact Hrange.
      rewrite Hother by lia. reflexivity.
    + rewrite !Hother by zdiv. reflexivity.
  - (* c odd, c' even: c' = c - 1 ends in the byte at o *)
    pose proof (odd_half _ Pc). pose proof (even_half _ Pc').
    destruct (Z.eq_dec c' (c - 1)) as [-> | Hn1].
    + replace (fat + (c - 1 + (c - 1) / 2) + 1) with (fat + (c + c / 2)) by zdiv.
      destruct (Hodd eq_refl) as [E1 _]. rewrite E1.
      rewrite low_nibble_kept.
      rewrite Hother by zdiv. reflexivity.
    + rewrite !Hother by zdiv. reflexivity.
  - pose proof (odd_half _ Pc). pose proof (odd_half _ Pc').
    rewrite !Hother by zdiv. reflexivity.
Qed.

(** Stored bytes are bytes. *)
Lemma set_fat12_entry_range b fat c v b' lo hi :
  set_fat12_entry b fat c v = Some b' -> 0 <= lo ->
  (forall k, lo <= k < hi -> 0 <= load b k < 256) ->
  forall k, lo <= k < hi -> 0 <= load b' k < 256.
Proof.
  intros H Hlo Hrange k Hk.
  destruct (set_fat12_entry_bytes _ _ _ _ _ H)
    as (Ho & Hlen & Hl & Hother & Hodd & Heven).
  destruct (Z.eq_dec k (fat + (c + c / 2))) as [-> | N1];
    [| destruct (Z.eq_dec k (fat + (c + c / 2) + 1)) as [-> | N2]].
  - destruct (Z.even c).
    + destruct (Heven eq_refl) as [E _]. rewrite E. apply land_255_range.
    + destruct (Hodd eq_refl) as [E _]. rewrite E. apply odd_low_byte_range.
  - destruct (Z.even c).
    + destruct (Heven eq_refl) as [_ E]. rewrite E. apply even_high_byte_range.
    + destruct (Hodd eq_refl) as [_ E]. rewrite E. apply land_255_range.
  - rewrite Hother by lia. apply Hrange. lia.
Qed.

Lemma store_opt_defined b i v :
  0 <= i < zlen b -> store_opt b i v = Some (store b i v).
Proof.
  intros H. unfold store_opt, in_bounds.
  destruct (Z.leb_spec 0 i); [| lia].
  destruct (Z.leb_spec (i + 1) (zlen b)); [| lia]. reflexivity.
Qed.

Lemma load_opt_defined b i :
  0 <= i < zlen b -> load_opt b i = Some (load b i).
Proof.
  intros H. unfold load_opt, in_bounds.
  destruct (Z.leb_spec 0 i); [| lia].
  destruct (Z.leb_spec (i + 1) (zlen b)); [| lia]. reflexivity.
Qed.

Lemma set_fat12_entry_defined b fat c v :
  0 <= fat + (c + c / 2) -> fat + (c + c / 2) + 1 < zlen b ->
  exists b', set_fat12_entry b fat c v = Some b'.
Proof.
  intros H0 H1. unfold set_fat12_entry.
  set (o := fat + (c + c / 2)) in *.
  destruct (negb (Z.land c 1 =? 0)).
  - rewrite load_opt_defined by lia. rewrite bind_Some; cbv beta.
    rewrite store_opt_defined by lia. rewrite bind_Some; cbv beta.
    rewrite store_opt_defined by (rewrite length_store; lia).
    eexists. reflexivity.
  - rewrite store_opt_defined by lia. rewrite bind_Some; cbv beta.
    rewrite load_opt_defined by (rewrite length_store; lia). rewrite bind_Some; cbv beta.
    rewrite store_opt_defined by (rewrite length_store; lia).
    eexists. reflexivity.
Qed.

Lemma clusters_needed_small size :
  0 <= size <= 173568 ->
  clusters_needed_of size = Z.max 1 ((size + 511) / 512)
  /\ 1 <= clusters_needed_of size <= 339.
Proof.
  intros H. unfold clusters_needed_of, u32, SECTOR_SIZE.
  replace (size + 512 - 1) with (size + 511) by lia.
  rewrite Z.mod_small by lia.
  assert (0 <= (size + 511) / 512 <= 339) by zdiv.
  destruct (Z.eqb_spec ((size + 511) / 512) 0); lia.
Qed.

Lemma fat12_entry_ext b1 fat1 b2 fat2 c :
  load b1 (fat1 + (c + c / 2)) = load b2 (fat2 + (c + c / 2)) ->
  load b1 (fat1 + (c + c / 2) + 1) = load b2 (fat2 + (c + c / 2) + 1) ->
  fat12_entry b1 fat1 c = fat12_entry b2 fat2 c.
Proof. intros H1 H2. unfold fat12_entry. rewrite H1, H2. reflexivity. Qed.

(** ** The chaining loop *)

Lemma update_fat_chain_loop_S b fat n i fuel :
  update_fat_chain_loop b fat n i (S fuel)
  = (b1 <- set_fat12_entry b fat (u16 (2 + i))
             (if i =? n - 1 then 0xFFF else u16 (u16 (2 + i) + 1)) ;;
     update_fat_chain_loop b1 fat n (i + 1) fuel).
Proof. reflexivity. Qed.

Lemma update_fat_chain_loop_chain fuel : forall b n i,
  0 <= i -> Z.of_nat fuel = n - i -> n <= 339 -> 512 <= zlen b ->
  (forall k, 3 <= k < 512 -> 0 <= load b k < 256) ->
  (forall c, 2 + i <= c <= 340 -> fat12_entry b 0 c = 0) ->
  (forall k, (2 + i) + (2 + i) / 2 + 1 <= k < 512 -> load b k = 0) ->
  exists b',
    update_fat_chain_loop b 0 n i fuel = Some b'
    /\ length b' = length b
    /\ (forall k, 0 <= k -> k < 3 \/ 512 <= k -> load b' k = load b k)
    /\ (forall c, 2 <= c < 2 + i -> fat12_entry b' 0 c = fat12_entry b 0 c)
    /\ (forall j, i <= j < n ->
        fat12_entry b' 0 (2 + j) = if j =? n - 1 then 0xFFF else 3 + j)
    /\ (forall c, 2 + n <= c <= 340 -> fat12_entry b' 0 c = 0)
    /\ (forall k, (2 + n) + (2 + n) / 2 + 1 <= k < 512 -> load b' k = 0).
Proof.
  induction fuel as [| fuel IH]; intros b n i Hi Hf Hn Hb Hrange Hzero Hclear.
  - exists b. assert (n = i) by lia. subst n. repeat split; auto.
    intros j Hj. lia.
  - rewrite update_fat_chain_loop_S.
    assert (Hcl : u16 (2 + i) = 2 + i) by (unfold u16; apply Z.mod_small; lia).
    rewrite Hcl.
    assert (Hnx : u16 (2 + i + 1) = 3 + i).
    { unfold u16. rewrite Z.mod_small by lia. lia. }
    rewrite Hnx.
    set (next := if i =? n - 1 then 0xFFF else 3 + i).
    assert (Hnext : 0 <= next < 4096) by (unfold next; destruct (i =? n - 1); lia).
    destruct (set_fat12_entry_defined b 0 (2 + i) next) as [b1 H1];
      [zdiv | zdiv |].
    rewrite H1. rewrite bind_Some; cbv beta.
    destruct (set_fat12_entry_bytes _ _ _ _ _ H1)
      as (Ho & Hlen & Hl & Hother & _ & _).
    destruct (IH b1 n (i + 1)) as (b' & E & L' & F' & P' & C' & Z' & K');
      try lia.
    + intros k Hk.
      apply (set_fat12_entry_range _ _ _ _ _ 3 512 H1); auto; lia.
    + intros c Hc.
      rewrite (fat12_entry_set_other _ _ _ _ _ c H1); try lia.
      * apply Hzero. lia.
      * apply Hrange. zdiv.
    + intros k Hk. rewrite Hother by zdiv. apply Hclear. zdiv.
    + exists b'. split; [exact E |].
      split; [congruence |].
      split; [| split; [| split; [| split]]].
      * intros k Hk Hout. rewrite F' by assumption.
        apply Hother; zdiv.
      * intros c Hc. rewrite P' by lia.
        apply (fat12_entry_set_other _ _ _ _ _ c H1); try lia.
        apply Hrange. zdiv.
      * intros j Hj. destruct (Z.eq_dec j i) as [-> | Hne].
        -- rewrite P' by lia.
           apply (fat12_entry_set_same _ _ _ _ _ H1 Hnext).
        -- apply C'. lia.
      * exact Z'.
      * exact K'.
Qed.

Lemma load_memset_in b off v n k :
  0 <= off -> 0 <= n -> off + n <= zlen b -> off <= k < off + n ->
  load (memset b off v n) k = v.
Proof.
  intros. unfold memset.
  rewrite load_memcpy_in by (rewrite ?repeat_length; lia).
  apply load_repeat_in. lia.
Qed.

Lemma load_memset_out b off v n k :
  0 <= off -> 0 <= n -> off + n <= zlen b -> 0 <= k ->
  k < off \/ off + n <= k ->
  load (memset b off v n) k = load b k.
Proof.
  intros. unfold memset.
  apply load_memcpy_out; rewrite ?repeat_length; lia.
Qed.

Lemma length_memset b off v n :
  0 <= off -> 0 <= n -> off + n <= zlen b ->
  length (memset b off v n) = length b.
Proof.
  intros. unfold memset. apply length_memcpy; rewrite ?repeat_length; lia.
Qed.

(** [update_fat_chain] for a size whose chain fits in the FAT1 sector. *)
Lemma update_fat_chain_fits b size :
  0x400 <= zlen b -> 0 <= size <= 173568 ->
  exists b',
    update_fat_chain b size = Some b'
    /\ chain_layout b b' (Z.max 1 ((size + 511) / 512)).
Proof.
  intros Hb Hs. unfold chain_layout.
  set (n := Z.max 1 ((size + 511) / 512)).
  destruct (clusters_needed_small size Hs) as [En Hn].
  fold n in En.
  unfold update_fat_chain. rewrite En.
  change (FAT1_SECTOR + 3) with 3. change (SECTOR_SIZE - 3) with 509.
  change FAT1_SECTOR with 0. change FAT2_SECTOR with 512.
  change SECTOR_SIZE with 512.
  set (b0 := memset b 3 0 509).
  assert (L0 : length b0 = length b) by (apply length_memset; lia).
  destruct (update_fat_chain_loop_chain (Z.to_nat n) b0 n 0)
    as (b1 & E & L1 & F1 & _ & C1 & Z1 & K1); try lia.
  - intros k Hk. unfold b0. rewrite load_memset_in by lia. lia.
  - intros c Hc. unfold fat12_entry, b0.
    rewrite !load_memset_in by zdiv.
    destruct (Z.even c); reflexivity.
  - intros k Hk. unfold b0. apply load_memset_in; zdiv.
  - rewrite E. rewrite bind_Some; cbv beta.
    set (b' := memcpy b1 512 (slice b1 0 512)).
    assert (Ls : zlen (slice b1 0 512) = 512) by (apply length_slice; lia).
    assert (Hlow : forall k, 0 <= k < 512 -> load b' k = load b1 k).
    { intros k Hk. unfold b'. apply load_memcpy_out; lia. }
    exists b'. split; [reflexivity |].
    split; [unfold b'; rewrite length_memcpy; lia |].
    split; [| split; [| split; [| split; [| split]]]].
    + intros k Hk. rewrite Hlow by lia. rewrite F1 by lia.
      unfold b0. apply load_memset_out; lia.
    + intros i Hi. transitivity (fat12_entry b1 0 (2 + i)); [| apply C1; lia].
      apply fat12_entry_ext; apply Hlow; zdiv.
    + intros c Hc. transitivity (fat12_entry b1 0 c); [| apply Z1; lia].
      apply fat12_entry_ext; apply Hlow; zdiv.
    + intros k Hk. rewrite Hlow by zdiv. apply K1. exact Hk.
    + transitivity (slice b1 0 512).
      * pose proof (slice_memcpy_same b1 512 (slice b1 0 512)) as Hs2.
        rewrite Ls in Hs2. apply Hs2; lia.
      * symmetry. apply slice_memcpy_out; lia.
    + intros k Hk. unfold b'. rewrite load_memcpy_out by lia.
      rewrite F1 by lia. unfold b0. apply load_memset_out; lia.
Qed.

(** ** Strings *)

Lemma strlen_range s : 0 <= strlen s <= zlen s.
Proof.
  induction s as [| c s IH].
  - simpl. lia.
  - change (strlen (c :: s)) with (if c =? 0 then 0 else 1 + strlen s).
    change (length (c :: s)) with (S (length s)).
    destruct (c =? 0); lia.
Qed.

(** ** validate_file *)

Section ValidateFacts.
Variable App : Type.
Implicit Types (st : disk_state App) (es : list (FILE_ENTRY App)).

Lemma rebuild_loop_cons e es k pb fcb m :
  rebuild_loop (e :: es) k pb fcb m
  = if registered e then
      if m + strlen (get_row pb k) + strlen (comment e) <? FILE_CHAR_CNT - 1
      then
        rebuild_loop es (k + 1) pb
          (memcpy (memcpy fcb m (slice (get_row pb k) 0 (strlen (get_row pb k))))
             (m + strlen (get_row pb k))
             (slice (comment e) 0 (strlen (comment e))))
          (m + strlen (get_row pb k) + strlen (comment e))
      else rebuild_loop es (k + 1) pb fcb m
    else rebuild_loop es (k + 1) pb fcb m.
Proof. reflexivity. Qed.

(** The rebuilt content never reaches [FILE_CHAR_CNT - 1] bytes and the
    content buffer keeps its size. *)
Lemma rebuild_loop_bounds es : forall k pb fcb m fcb' m',
  rebuild_loop es k pb fcb m = (fcb', m') ->
  zlen fcb = FILE_CHAR_CNT -> 0 <= m < FILE_CHAR_CNT - 1 ->
  zlen fcb' = FILE_CHAR_CNT /\ 0 <= m' < FILE_CHAR_CNT - 1.
Proof.
  induction es as [| e es IH]; intros k pb fcb m fcb' m' H Hl Hm.
  - simpl in H. injection H as <- <-. split; assumption.
  - rewrite rebuild_loop_cons in H.
    destruct (registered e); [| eapply IH; eassumption].
    pose proof (strlen_range (get_row pb k)) as R1.
    pose proof (strlen_range (comment e)) as R2.
    destruct (Z.ltb_spec (m + strlen (get_row pb k) + strlen (comment e))
                (FILE_CHAR_CNT - 1)); [| eapply IH; eassumption].
    assert (L1 : zlen (slice (get_row pb k) 0 (strlen (get_row pb k)))
                 = strlen (get_row pb k)) by (apply length_slice; lia).
    assert (L2 : zlen (slice (comment e) 0 (strlen (comment e)))
                 = strlen (comment e)) by (apply length_slice; lia).
    eapply IH; [eassumption | | lia].
    unfold FILE_CHAR_CNT in *.
    rewrite !length_memcpy; rewrite ?length_memcpy; lia.
Qed.

(** The six stores into the directory entry of index [root_addr]. *)
Lemma write_dir_entry_stores b root_addr m :
  ROOT_SECTOR + SECTOR_SIZE <= zlen b -> 0 <= root_addr < 16 ->
  let d := ROOT_SECTOR + root_addr * 32 in
  exists b',
    write_dir_entry b root_addr m = Some b'
    /\ length b' = length b
    /\ load b' (d + 0x1A) = 0x02 /\ load b' (d + 0x1B) = 0x00
    /\ load b' (d + 0x1C) = Z.land m 0xFF
    /\ load b' (d + 0x1D) = Z.land (Z.shiftr m 8) 0xFF
    /\ load b' (d + 0x1E) = Z.land (Z.shiftr m 16) 0xFF
    /\ load b' (d + 0x1F) = Z.land (Z.shiftr m 24) 0xFF
    /\ (forall k, 0 <= k -> k < d + 0x1A \/ d + 0x20 <= k ->
        load b' k = load b k).
Proof.
  intros Hb Hr. cbv zeta. unfold write_dir_entry.
  set (d := ROOT_SECTOR + root_addr * 32).
  assert (Hd : 1024 <= d /\ d + 32 <= 1536) by (unfold d, ROOT_SECTOR; lia).
  unfold ROOT_SECTOR, SECTOR_SIZE in Hb. clearbody d.
  rewrite store_opt_defined by lia. rewrite bind_Some; cbv beta.
  rewrite store_opt_defined by (rewrite ?length_store; lia). rewrite bind_Some; cbv beta.
  rewrite store_opt_defined
    by (rewrite ?length_store; rewrite ?length_store; lia). rewrite bind_Some; cbv beta.
  set (b1 := store b (d + 28) (Z.land m 255)).
  set (b2 := store b1 (d + 29) (Z.land (Z.shiftr m 8) 255)).
  set (b3 := store b2 (d + 30) (Z.land (Z.shiftr m 16) 255)).
  assert (L1 : length b1 = length b) by (apply length_store; lia).
  assert (L2 : length b2 = length b) by (unfold b2; rewrite length_store; lia).
  assert (L3 : length b3 = length b) by (unfold b3; rewrite length_store; lia).
  rewrite store_opt_defined by lia. rewrite bind_Some; cbv beta.
  set (b4 := store b3 (d + 31) (Z.land (Z.shiftr m 24) 255)).
  assert (L4 : length b4 = length b) by (unfold b4; rewrite length_store; lia).
  rewrite store_opt_defined by lia. rewrite bind_Some; cbv beta.
  set (b5 := store b4 (d + 26) 2).
  assert (L5 : length b5 = length b) by (unfold b5; rewrite length_store; lia).
  rewrite store_opt_defined by lia.
  set (b6 := store b5 (d + 27) 0).
  assert (L6 : length b6 = length b) by (unfold b6; rewrite length_store; lia).
  exists b6. split; [reflexivity |]. split; [exact L6 |].
  repeat split.
  - unfold b6. rewrite load_store_other by lia.
    unfold b5. apply load_store_same. lia.
  - unfold b6. apply load_store_same. lia.
  - unfold b6. rewrite load_store_other by lia.
    unfold b5. rewrite load_store_other by lia.
    unfold b4. rewrite load_store_other by lia.
    unfold b3. rewrite load_store_other by lia.
    unfold b2. rewrite load_store_other by lia.
    unfold b1. apply load_store_same. lia.
  - unfold b6. rewrite load_store_other by lia.
    unfold b5. rewrite load_store_other by lia.
    unfold b4. rewrite load_store_other by lia.
    unfold b3. rewrite load_store_other by lia.
    unfold b2. apply load_store_same. lia.
  - unfold b6. rewrite load_store_other by lia.
    unfold b5. rewrite load_store_other by lia.
    unfold b4. rewrite load_store_other by lia.
    unfold b3. apply load_store_same. lia.
  - unfold b6. rewrite load_store_other by lia.
    unfold b5. rewrite load_store_other by lia.
    unfold b4. apply load_store_same. lia.
  - intros k Hk Hout.
    unfold b6. rewrite load_store_other by lia.
    unfold b5. rewrite load_store_other by lia.
    unfold b4. rewrite load_store_other by lia.
    unfold b3. rewrite load_store_other by lia.
    unfold b2. rewrite load_store_other by lia.
    unfold b1. apply load_store_other; lia.
Qed.

(** The four size bytes are the little-endian encoding of [m]. *)
Lemma le32_bytes m :
  0 <= m < 4294967296 ->
  Z.land m 0xFF + 256 * Z.land (Z.shiftr m 8) 0xFF
  + 65536 * Z.land (Z.shiftr m 16) 0xFF
  + 16777216 * Z.land (Z.shiftr m 24) 0xFF = m.
Proof.
  intros Hm. change 0xFF with (Z.ones 8).
  rewrite !Z.land_ones by lia. rewrite !Z.shiftr_div_pow2 by lia.
  change (2 ^ 8) with 256. change (2 ^ 16) with 65536.
  change (2 ^ 24) with 16777216. zdiv.
Qed.

End ValidateFacts.

Section ValidateFile.
Variable App : Type.
Implicit Types (st : disk_state App).

Lemma select_source_length st p_file b1 rs :
  select_source st p_file = Some (b1, rs) ->
  zlen (disk_buffer st) = sizeof_disk_buffer ->
  sizeof_disk_buffer <= zlen (flash st) ->
  length b1 = length (disk_buffer st).
Proof.
  unfold select_source, sizeof_disk_buffer. intros H Hb Hf.
  destruct (any_label_at (disk_buffer st) FILE_SECTOR (entries st))
    as [v1 |]; [| discriminate].
  rewrite bind_Some in H; cbv beta in H.
  destruct (if p_file =? FILE_SECTOR then Some false
            else any_label_at (disk_buffer st) p_file (entries st))
    as [v2 |]; [| discriminate].
  rewrite bind_Some in H; cbv beta in H.
  destruct v2; [injection H as <- _; reflexivity |].
  destruct v1; [injection H as <- _; reflexivity |].
  destruct (any_label_at _ FILE_SECTOR (entries st)) as [v3 |];
    [| discriminate].
  rewrite bind_Some in H; cbv beta in H. injection H as <- _.
  apply length_memcpy; [unfold FILE_SECTOR; lia |].
  rewrite length_slice; unfold FILE_SECTOR, FILE_SECTOR_SIZE; lia.
Qed.

Lemma file_content_bounds st p_file b1 a illegal fcb m :
  file_content st p_file = Some (b1, a, illegal, fcb, m) ->
  zlen (disk_buffer st) = sizeof_disk_buffer ->
  sizeof_disk_buffer <= zlen (flash st) ->
  length b1 = length (disk_buffer st)
  /\ zlen fcb = FILE_CHAR_CNT /\ 0 <= m < FILE_CHAR_CNT - 1.
Proof.
  unfold file_content. intros H Hb Hf.
  destruct (select_source st p_file) as [[b1' rs] |] eqn:Hs; [| discriminate].
  rewrite bind_Some in H; cbv beta iota in H.
  destruct (slice_opt b1' rs sizeof_file_buffer) as [fb |]; [| discriminate].
  rewrite bind_Some in H; cbv beta in H.
  destruct (split_lines fb _ 0 _) as [pb0 |]; [| discriminate].
  rewrite bind_Some in H; cbv beta in H.
  destruct (resolve_entries (entries st) 0 _) as [[[pb a'] ill'] |];
    [| discriminate].
  rewrite bind_Some in H; cbv beta iota in H.
  destruct (rebuild_loop (entries st) 0 pb _ 0) as [fcb' m'] eqn:Hr.
  injection H as <- <- <- <- <-.
  split; [eapply select_source_length; eassumption |].
  eapply rebuild_loop_bounds; [exact Hr | | unfold FILE_CHAR_CNT; lia].
  rewrite repeat_length. unfold FILE_CHAR_CNT. lia.
Qed.

(** C2.  After a run of [validate_file] on the directory entry of index
    [root_addr] (an index [find_file] can return), the entry's starting
    cluster is 2 (low byte 2, high byte 0), its four size bytes encode
    little-endian the length [m] of the content rebuilt from the registry,
    [FILE_SECTOR] holds those [m] bytes from offset 0, and the rest of the
    file region is zero.  [file_content] is the part of the run that
    reads the source and rebuilds the content; the hypothesis on it says
    that this part stays inside its buffers. *)
Theorem validate_file_canonical st p_file root_addr b1 a illegal fcb m :
  zlen (disk_buffer st) = sizeof_disk_buffer ->
  sizeof_disk_buffer <= zlen (flash st) ->
  0 <= root_addr < 16 ->
  file_content st p_file = Some (b1, a, illegal, fcb, m) ->
  exists st',
    validate_file st p_file root_addr = Some (st', illegal)
    /\ 0 <= m < FILE_CHAR_CNT - 1
    /\ canonical_layout (disk_buffer st') root_addr fcb m.
Proof.
  intros Hb Hf Hr Hc.
  destruct (file_content_bounds _ _ _ _ _ _ _ Hc Hb Hf) as (L1 & Lf & Hm).
  unfold validate_file. rewrite Hc. rewrite bind_Some; cbv beta iota.
  unfold sizeof_disk_buffer, FILE_CHAR_CNT in *.
  destruct (write_dir_entry_stores b1 root_addr m)
    as (b2 & E2 & L2 & D1 & D2 & D3 & D4 & D5 & D6 & _);
    [unfold ROOT_SECTOR, SECTOR_SIZE; lia | exact Hr |].
  rewrite E2. rewrite bind_Some; cbv beta.
  destruct (update_fat_chain_fits b2 m) as (b3 & E3 & L3 & _ & _ & _ & _ & _ & F3);
    [lia | lia |].
  unfold canonical_layout.
  rewrite E3. rewrite bind_Some; cbv beta.
  assert (Ls : zlen (slice fcb 0 m) = m) by (apply length_slice; lia).
  set (b4 := memcpy b3 FILE_SECTOR (slice fcb 0 m)).
  assert (L4 : length b4 = length b3)
    by (apply length_memcpy; unfold FILE_SECTOR; lia).
  unfold FILE_SECTOR_SIZE.
  destruct (Z.ltb_spec m (0x4000 - 0x600)); [| lia].
  set (b5 := memset b4 (FILE_SECTOR + m) 0 (0x4000 - 0x600 - m)).
  assert (Hroot : forall k, 0x400 <= k < 0x600 -> load b5 k = load b2 k).
  { intros k Hk. unfold b5.
    rewrite load_memset_out by (unfold FILE_SECTOR; lia).
    unfold b4. rewrite load_memcpy_out by (unfold FILE_SECTOR; lia).
    apply F3. lia. }
  eexists. split; [reflexivity |].
  simpl disk_buffer. unfold ROOT_SECTOR in *.
  split; [lia |].
  rewrite !Hroot by lia.
  split; [exact D1 |]. split; [exact D2 |].
  split; [rewrite D3, D4, D5, D6; apply le32_bytes; lia |].
  split.
  - unfold b5, memset. rewrite slice_memcpy_out;
      rewrite ?repeat_length; unfold FILE_SECTOR; try lia.
    unfold b4. rewrite <- Ls at 2.
    apply slice_memcpy_same; unfold FILE_SECTOR; lia.
  - intros k Hk. unfold b5. apply load_memset_in; unfold FILE_SECTOR in *; lia.
Qed.

End ValidateFile.

(** ** read_sector *)

Lemma slice_BOOT_SEC : slice BOOT_SEC 0 SECTOR_SIZE = BOOT_SEC.
Proof. reflexivity. Qed.

(** [read_sector] against the table: the state comes back as it was. *)
Lemma read_sector_view (App : Type) (st : disk_state App) (s : Z) :
  read_sector st s = (st, sector_view st s).
Proof.
  unfold read_sector, sector_view, SECTOR_CNT, FILE_SECTOR_SIZE.
  rewrite slice_BOOT_SEC.
  destruct (Z.eqb_spec s 0); [reflexivity |].
  destruct (Z.eqb_spec s 8); [subst; reflexivity |].
  destruct (Z.eqb_spec s 20); [subst; reflexivity |].
  destruct (Z.eqb_spec s 32); [subst; reflexivity |].
  unfold SECTOR_SIZE.
  assert (Hs : s < 0 \/ 1 <= s <= 7 \/ 9 <= s <= 19 \/ 21 <= s <= 31
               \/ 33 <= s <= 63 \/ 64 <= s <= 92 \/ 93 <= s <= 4095
               \/ 4096 <= s) by lia.
  repeat (destruct Hs as [Hs | Hs]; [decide_order; reflexivity |]).
  decide_order; reflexivity.
Qed.

(** C3 (amended).  [read_sector] returns the state it was given and fills
    the buffer according to the table of section 4.1: the boot sector at 0,
    the FAT1, FAT2 and root mirrors at 8, 20 and 32, the file data for the
    sectors from 64 that lie inside the file region, zeros everywhere
    else.  The boot sector's BPB has 512-byte sectors, one sector per
    cluster, 8 reserved sectors, 2 FATs of 12 sectors, 512 root entries,
    media byte 0xF8 and type "FAT12   "; its 16-bit total-sector field is
    80 and its 32-bit one is 0. *)
Theorem read_sector_contents (App : Type) (st : disk_state App) (s : Z) :
  read_sector st s = (st, sector_view st s)
  /\ le16 BOOT_SEC 11 = 512
  /\ load BOOT_SEC 13 = 1
  /\ le16 BOOT_SEC 14 = 8
  /\ load BOOT_SEC 16 = 2
  /\ le16 BOOT_SEC 17 = 512
  /\ le16 BOOT_SEC 19 = 80
  /\ load BOOT_SEC 21 = 0xF8
  /\ le16 BOOT_SEC 22 = 12
  /\ slice BOOT_SEC 32 4 = [0; 0; 0; 0]
  /\ slice BOOT_SEC 54 8 = bytes_of "FAT12   ".
Proof.
  split; [apply read_sector_view |].
  repeat (split; [reflexivity |]). reflexivity.
Qed.

(** The boot sector that sector 0 reads as does not carry 4096 as its
    total-sector count. *)
Lemma boot_sector_total_is_not_4096 :
  le16 (snd (read_sector Scenario.registered_state 0)) 19 <> SECTOR_CNT
  /\ slice (snd (read_sector Scenario.registered_state 0)) 32 4 = [0; 0; 0; 0].
Proof. split; [vm_compute; discriminate | reflexivity]. Qed.

(** ** Directory scan of find_file *)

Lemma find_file_loop_none b fuel : forall i,
  (forall j, i <= j < i + Z.of_nat fuel -> ~ is_config_entry b j) ->
  find_file_loop b CONFIG_FILENAME i fuel = None.
Proof.
  induction fuel as [| fuel IH]; intros i H; [reflexivity |].
  cbn [find_file_loop].
  destruct (bytes_eqb _ _) eqn:E.
  - apply bytes_eqb_eq in E. exfalso. apply (H i); [lia | exact E].
  - apply IH. intros j Hj. apply H. lia.
Qed.

Lemma find_file_loop_first b fuel : forall i k,
  i <= k < i + Z.of_nat fuel -> is_config_entry b k ->
  (forall j, i <= j < k -> ~ is_config_entry b j) ->
  find_file_loop b CONFIG_FILENAME i fuel
  = Some (FILE_SECTOR + (le16 b (ROOT_SECTOR + 32 * k + 0x1A) - 2) * SECTOR_SIZE,
          le16 b (ROOT_SECTOR + 32 * k + 0x1C), k).
Proof.
  induction fuel as [| fuel IH]; intros i k Hk Hm Hfirst; [lia |].
  cbn [find_file_loop].
  destruct (bytes_eqb _ _) eqn:E.
  - apply bytes_eqb_eq in E.
    destruct (Z.eq_dec i k) as [-> | Hne]; [reflexivity |].
    exfalso. apply (Hfirst i); [lia | exact E].
  - destruct (Z.eq_dec i k) as [-> | Hne].
    + unfold is_config_entry in Hm. rewrite Hm, bytes_eqb_refl in E.
      discriminate.
    + apply IH; [lia | exact Hm |]. intros j Hj. apply Hfirst. lia.
Qed.

(** ** The flash commit *)

Section CommitFacts.
Variable App : Type.
Implicit Types (st : disk_state App).

Lemma same_ram_refl st : same_ram st st.
Proof. repeat split. Qed.

Lemma same_ram_trans st1 st2 st3 :
  same_ram st1 st2 -> same_ram st2 st3 -> same_ram st1 st3.
Proof.
  unfold same_ram. intros (A1 & A2 & A3 & A4 & A5 & A6 & A7 & A8 & A9)
    (B1 & B2 & B3 & B4 & B5 & B6 & B7 & B8 & B9).
  repeat split; congruence.
Qed.

Lemma same_ram_set_flash st f s : same_ram st (set_flash st f s).
Proof. repeat split. Qed.

Lemma program_loop_ram fuel : forall st base j,
  same_ram st (program_loop st base j fuel).
Proof.
  induction fuel as [| fuel IH]; intros st base j; [apply same_ram_refl |].
  cbn [program_loop]. unfold write_flash_halfword, HAL_FLASH_Program.
  destruct (hal_next (hal_script st)) as [s r].
  eapply same_ram_trans; [| apply IH]. apply same_ram_set_flash.
Qed.

Lemma erase_flash_page_ram tgt st address :
  same_ram st (fst (erase_flash_page tgt st address)).
Proof.
  unfold erase_flash_page, HAL_FLASHEx_Erase.
  destruct tgt; destruct (hal_next (hal_script st)) as [s r];
    apply same_ram_set_flash.
Qed.

Lemma rewrite_dirty_flash_pages_ram tgt st :
  let st' := fst (rewrite_dirty_flash_pages tgt st) in
  snd (rewrite_dirty_flash_pages tgt st) = 0
  /\ disk_buffer st' = disk_buffer st
  /\ page_dirty_mask st' = flags_after_commit tgt (page_dirty_mask st)
  /\ last_write_tick st' = last_write_tick st
  /\ pending_flash_write st' = pending_flash_write st
  /\ entries st' = entries st
  /\ app st' = app st
  /\ Config_flag st' = Config_flag st
  /\ txt_flag st' = txt_flag st
  /\ entry_usage_mask st' = entry_usage_mask st.
Proof.
  cbv zeta. unfold rewrite_dirty_flash_pages, flags_after_commit,
    HAL_FLASH_Unlock, HAL_FLASH_Lock.
  destruct (hal_next (hal_script st)) as [s0 r0].
  set (st1 := set_flash st (flash st) r0).
  change (page_dirty_mask st1) with (page_dirty_mask st).
  destruct tgt.
  - destruct (first_dirty (page_dirty_mask st) 0 16) as [i |].
    + set (sta := set_page_dirty_mask st1 (store (page_dirty_mask st) i 0)).
      pose proof (erase_flash_page_ram STM32F103xB sta (i * FLASH_PAGE_SIZE STM32F103xB)) as He.
      destruct (erase_flash_page STM32F103xB sta _) as [stb sb].
      pose proof (program_loop_ram (Z.to_nat (FLASH_PAGE_SIZE STM32F103xB / 2))
                    stb (i * FLASH_PAGE_SIZE STM32F103xB) 0) as Hp.
      set (stc := program_loop stb _ 0 _) in *. clearbody stc.
      destruct (hal_next (hal_script stc)) as [s3 r3].
      destruct (same_ram_trans _ _ _ He Hp)
        as (A1 & A2 & A3 & A4 & A5 & A6 & A7 & A8 & A9).
      cbn [fst snd set_flash disk_buffer page_dirty_mask entry_usage_mask
           last_write_tick pending_flash_write entries Config_flag txt_flag
           app sta st1 set_page_dirty_mask] in *.
      repeat split; assumption.
    + destruct (hal_next (hal_script st1)) as [s3 r3]. repeat split.
  - destruct (first_dirty (page_dirty_mask st) 0 _) as [i |].
    + set (sta := set_page_dirty_mask st1
                    (memset (page_dirty_mask st) 0 0 sizeof_page_dirty_mask)).
      pose proof (erase_flash_page_ram STM32F411xE sta 0) as He.
      destruct (erase_flash_page STM32F411xE sta 0) as [stb sb].
      pose proof (program_loop_ram (Z.to_nat (sizeof_disk_buffer / 2)) stb 0 0)
        as Hp.
      set (stc := program_loop stb 0 0 _) in *. clearbody stc.
      destruct (hal_next (hal_script stc)) as [s3 r3].
      destruct (same_ram_trans _ _ _ He Hp)
        as (A1 & A2 & A3 & A4 & A5 & A6 & A7 & A8 & A9).
      cbn [fst snd set_flash disk_buffer page_dirty_mask entry_usage_mask
           last_write_tick pending_flash_write entries Config_flag txt_flag
           app sta st1 set_page_dirty_mask] in *.
      repeat split; assumption.
    + destruct (hal_next (hal_script st1)) as [s3 r3]. repeat split.
Qed.

End CommitFacts.

(** ** process and init *)

Section ProcessFacts.
Variable App : Type.
Implicit Types (st : disk_state App).

Lemma bind_inv {A B : Type} (m : option A) (f : A -> option B) (r : B) :
  bind m f = Some r -> exists x, m = Some x /\ f x = Some r.
Proof.
  destruct m as [x |]; [| discriminate]. intros H. exists x.
  split; [reflexivity | exact H].
Qed.

(** What [validate_file] leaves alone, and the two flags it sets. *)
Lemma validate_file_frame st p_file root_addr st' illegal :
  validate_file st p_file root_addr = Some (st', illegal) ->
  page_dirty_mask st' = store (store (page_dirty_mask st) 0 1) 1 1
  /\ pending_flash_write st' = pending_flash_write st
  /\ last_write_tick st' = last_write_tick st
  /\ flash st' = flash st
  /\ hal_script st' = hal_script st
  /\ entries st' = entries st.
Proof.
  unfold validate_file. intros H.
  destruct (file_content st p_file) as [[[[[b1 a] ill] fcb] m] |];
    [| discriminate].
  rewrite bind_Some in H; cbv beta iota in H.
  destruct (write_dir_entry b1 root_addr m) as [b2 |]; [| discriminate].
  rewrite bind_Some in H; cbv beta in H.
  destruct (update_fat_chain b2 m) as [b3 |]; [| discriminate].
  rewrite bind_Some in H; cbv beta in H.
  set (b5 := if m <? FILE_SECTOR_SIZE then _ else _) in H. clearbody b5.
  injection H as <- <-.
  cbn [page_dirty_mask pending_flash_write last_write_tick flash hal_script
       entries set_app set_page_dirty_mask set_disk_buffer].
  repeat split.
Qed.

Lemma commit_due_not_pending st now :
  pending_flash_write st = false -> commit_due st now = false.
Proof. unfold commit_due. intros ->. reflexivity. Qed.


Lemma first_dirty_range mask fuel : forall i k,
  first_dirty mask i fuel = Some k -> i <= k < i + Z.of_nat fuel.
Proof.
  induction fuel as [| fuel IH]; intros i k H; [discriminate |].
  cbn [first_dirty] in H.
  destruct (negb (load mask i =? 0)).
  - injection H as <-. lia.
  - apply IH in H. lia.
Qed.

(** C6 (amended).  The dirty flag is cleared before the erase and no HAL
    status is looked at afterwards: whatever the flash calls return,
    [rewrite_dirty_flash_pages] returns 0 with the flag of the page it
    handled clear, and [process] then clears the pending flag, so that a
    further [process] changes nothing. *)
Theorem commit_clears_flag_whatever_hal_returns tgt st i :
  zlen (page_dirty_mask st) = sizeof_page_dirty_mask ->
  first_dirty (page_dirty_mask st) 0
    (match tgt with
     | STM32F103xB => 16%nat
     | STM32F411xE => Z.to_nat sizeof_page_dirty_mask
     end) = Some i ->
  snd (rewrite_dirty_flash_pages tgt st) = 0
  /\ load (page_dirty_mask (fst (rewrite_dirty_flash_pages tgt st))) i = 0
  /\ forall now st',
       commit_due st now = true -> process tgt st now = Some st' ->
       pending_flash_write st' = false
       /\ forall now', process tgt st' now' = Some st'.
Proof.
  unfold sizeof_page_dirty_mask. intros Hlen Hfirst.
  destruct (rewrite_dirty_flash_pages_ram App tgt st) as (R & _ & M & _).
  split; [exact R |]. split.
  - rewrite M. unfold flags_after_commit, sizeof_page_dirty_mask.
    pose proof (first_dirty_range _ _ _ _ Hfirst) as Hr.
    destruct tgt; rewrite Hfirst.
    + apply load_store_same. lia.
    + apply load_memset_in; lia.
  - intros now st' Hdue Hp. unfold process in Hp. rewrite Hdue in Hp.
    apply bind_inv in Hp. destruct Hp as (st1 & _ & Hp).
    destruct (rewrite_dirty_flash_pages tgt st1) as [st2 rc].
    injection Hp as <-.
    split; [reflexivity |].
    intros now'. unfold process.
    rewrite commit_due_not_pending by reflexivity. reflexivity.
Qed.

(** C7 (amended).  When the image loaded from flash has a [CONFIG  TXT]
    entry and [validate_file] finds every registered entry valid in it
    ([illegal] is 0), [init] schedules no flash write: the pending flag
    and the tick keep their values and the flash is untouched.  The dirty
    flags of the FAT page and of the root-directory page are set all the
    same; the others are clear. *)
Theorem init_on_valid_image st now p_file file_len root_addr st1 :
  zlen (page_dirty_mask st) = sizeof_page_dirty_mask ->
  find_file (disk_buffer (load_from_flash st)) CONFIG_FILENAME
    = Some (p_file, file_len, root_addr) ->
  validate_file (load_from_flash st) p_file root_addr = Some (st1, 0) ->
  init st now = Some st1
  /\ pending_flash_write st1 = pending_flash_write st
  /\ last_write_tick st1 = last_write_tick st
  /\ flash st1 = flash st
  /\ page_dirty_mask st1 = 1 :: 1 :: repeat 0 30.
Proof.
  intros Hlen Hfind Hval.
  unfold init, flush_file. rewrite Hfind, Hval.
  rewrite bind_Some; cbv beta iota.
  destruct (validate_file_frame _ _ _ _ _ Hval) as (M & P & T & F & _).
  split; [reflexivity |].
  split; [exact P |]. split; [exact T |]. split; [exact F |].
  rewrite M. unfold load_from_flash. cbn [page_dirty_mask set_page_dirty_mask].
  assert (E : memset (page_dirty_mask st) 0 0 sizeof_page_dirty_mask
              = repeat 0 32).
  { unfold memset, memcpy, sizeof_page_dirty_mask in *.
    rewrite repeat_length.
    rewrite skipn_all2 by lia. cbn [firstn Z.to_nat]. rewrite app_nil_r.
    reflexivity. }
  rewrite E. reflexivity.
Qed.

End ProcessFacts.

(** ** write_sector *)

Lemma slice_all b n : zlen b = n -> slice b 0 n = b.
Proof.
  intros H. unfold slice. cbn [Z.to_nat skipn].
  apply firstn_all2. lia.
Qed.

Lemma slice_slice b off n o m :
  0 <= off -> 0 <= o -> 0 <= m -> o + m <= n -> off + n <= zlen b ->
  slice (slice b off n) o m = slice b (off + o) m.
Proof.
  intros. apply bytes_ext.
  - apply Nat2Z.inj. rewrite !length_slice; try lia.
    rewrite length_slice; lia.
  - intros i Hi. rewrite length_slice in Hi; try lia.
    2: rewrite length_slice; lia.
    rewrite !load_slice by lia. f_equal. lia.
Qed.

Lemma slice_memcpy_in b off src o m :
  0 <= off -> off + zlen src <= zlen b ->
  0 <= o -> 0 <= m -> o + m <= zlen src ->
  slice (memcpy b off src) (off + o) m = slice src o m.
Proof.
  intros. apply bytes_ext.
  - apply Nat2Z.inj. rewrite !length_slice; try lia.
    rewrite length_memcpy; lia.
  - intros i Hi. rewrite length_slice in Hi; try lia.
    2: rewrite length_memcpy; lia.
    rewrite !load_slice by lia.
    rewrite load_memcpy_in by lia. f_equal. lia.
Qed.

Section WriteFacts.
Variable App : Type.
Implicit Types (st : disk_state App) (es : list (FILE_ENTRY App)).

Lemma label_at_defined b off (e : FILE_ENTRY App) :
  0 <= off -> off + MAX_ENTRY_LABEL_LENGTH < zlen b ->
  zlen (entry e) <= MAX_ENTRY_LABEL_LENGTH ->
  exists v, label_at b off e = Some v.
Proof.
  unfold MAX_ENTRY_LABEL_LENGTH. intros H0 H1 H2.
  pose proof (strlen_range (entry e)) as Hs.
  unfold label_at, slice_opt, in_bounds.
  destruct (Z.leb_spec 0 off); [| lia].
  destruct (Z.leb_spec (off + strlen (entry e)) (zlen b)); [| lia].
  cbn [andb]. rewrite bind_Some; cbv beta.
  destruct (bytes_eqb _ _); [| eexists; reflexivity].
  rewrite load_opt_defined by lia. rewrite bind_Some; cbv beta.
  eexists; reflexivity.
Qed.

Lemma any_label_at_defined b off es :
  0 <= off -> off + MAX_ENTRY_LABEL_LENGTH < zlen b -> labels_fit es ->
  exists v, any_label_at b off es = Some v.
Proof.
  intros H0 H1 Hfit. induction Hfit as [| e es He Hes IH].
  - exists false. reflexivity.
  - cbn [any_label_at]. destruct (registered e); [| exact IH].
    destruct (label_at_defined b off e H0 H1 He) as [v Hv].
    rewrite Hv. rewrite bind_Some; cbv beta.
    destruct v; [exists true; reflexivity | exact IH].
Qed.

Lemma write_rejected_defined st sector data :
  zlen (disk_buffer st) = sizeof_disk_buffer -> zlen data = SECTOR_SIZE ->
  labels_fit (entries st) ->
  exists r, write_rejected st sector data = Some r.
Proof.
  unfold sizeof_disk_buffer, SECTOR_SIZE. intros Hb Hd Hfit.
  unfold write_rejected.
  destruct (any_label_at_defined (disk_buffer st) FILE_SECTOR (entries st))
    as [v Hv]; [unfold FILE_SECTOR; lia
               | unfold FILE_SECTOR, MAX_ENTRY_LABEL_LENGTH; lia
               | exact Hfit |].
  rewrite Hv. rewrite bind_Some; cbv beta.
  destruct (_ && _); [eexists; reflexivity |].
  destruct (_ =? 2).
  - destruct (any_label_at_defined data 0 (entries st)) as [w Hw];
      [lia | unfold MAX_ENTRY_LABEL_LENGTH; lia | exact Hfit |].
    rewrite Hw. rewrite bind_Some; cbv beta. eexists; reflexivity.
  - destruct (_ && _ && _); eexists; reflexivity.
Qed.

Lemma sector_view_length st s :
  zlen (disk_buffer st) = sizeof_disk_buffer ->
  zlen (sector_view st s) = SECTOR_SIZE.
Proof.
  unfold sizeof_disk_buffer, sector_view, SECTOR_SIZE, FILE_SECTOR_SIZE.
  intros Hb.
  destruct (s =? 0); [reflexivity |].
  destruct (s =? 8); [apply length_slice; unfold FAT1_SECTOR; lia |].
  destruct (s =? 20); [apply length_slice; unfold FAT2_SECTOR; lia |].
  destruct (s =? 32); [apply length_slice; unfold ROOT_SECTOR; lia |].
  destruct (Z.leb_spec 64 s); cbn [andb]; [| reflexivity].
  destruct (Z.leb_spec ((s - 64) * 512 + 512) (16384 - 1536));
    [| reflexivity].
  apply length_slice; unfold FILE_SECTOR; lia.
Qed.

(** A sector written with the very bytes it reads as leaves the state as
    it is. *)
Lemma write_sector_body_same tgt st s :
  zlen (disk_buffer st) = sizeof_disk_buffer -> labels_fit (entries st) ->
  write_sector_body tgt st s (sector_view st s) = Some st.
Proof.
  intros Hb Hfit.
  pose proof (sector_view_length st s Hb) as Hl.
  unfold write_sector_body.
  destruct (Z.leb_spec 8 s); destruct (Z.leb_spec s 19); cbn [andb].
  { destruct (Z.eqb_spec s 8) as [-> | _]; [| reflexivity].
    change (sector_view st 8) with (slice (disk_buffer st) FAT1_SECTOR SECTOR_SIZE).
    rewrite bytes_eqb_refl. reflexivity. }
  2: { destruct (Z.leb_spec 20 s); [lia |].
       destruct (Z.leb_spec 32 s); [lia |].
       destruct (Z.leb_spec 64 s); [lia |]. reflexivity. }
  2: { destruct (Z.leb_spec 20 s); [lia |].
       destruct (Z.leb_spec 32 s); [lia |].
       destruct (Z.leb_spec 64 s); [lia |]. reflexivity. }
  destruct (Z.leb_spec 20 s); [| lia].
  destruct (Z.leb_spec s 31); cbn [andb].
  { destruct (Z.eqb_spec s 20) as [-> | _]; [| reflexivity].
    change (sector_view st 20) with (slice (disk_buffer st) FAT2_SECTOR SECTOR_SIZE).
    rewrite bytes_eqb_refl. reflexivity. }
  destruct (Z.leb_spec 32 s); [| lia].
  destruct (Z.leb_spec s 63); cbn [andb].
  { destruct (Z.eqb_spec s 32) as [-> | _]; [| reflexivity].
    change (sector_view st 32) with (slice (disk_buffer st) ROOT_SECTOR SECTOR_SIZE).
    rewrite bytes_eqb_refl. reflexivity. }
  destruct (Z.leb_spec 64 s); [| lia].
  destruct (Z.ltb_spec s SECTOR_CNT); cbn [andb]; [| reflexivity].
  unfold FILE_SECTOR_SIZE, SECTOR_SIZE in *.
  destruct (Z.ltb_spec (16384 - 1536) ((s - 64) * 512 + 512));
    [reflexivity |].
  destruct (write_rejected_defined st s (sector_view st s) Hb Hl Hfit)
    as [r Hr].
  rewrite Hr. rewrite bind_Some; cbv beta.
  destruct r; [reflexivity |].
  assert (E : sector_view st s
              = slice (disk_buffer st) (FILE_SECTOR + (s - 64) * 512) 512).
  { unfold sector_view, FILE_SECTOR_SIZE, SECTOR_SIZE.
    destruct (Z.eqb_spec s 0); [lia |].
    destruct (Z.eqb_spec s 8); [lia |].
    destruct (Z.eqb_spec s 20); [lia |].
    destruct (Z.eqb_spec s 32); [lia |].
    destruct (Z.leb_spec 64 s); [| lia].
    destruct (Z.leb_spec ((s - 64) * 512 + 512) (16384 - 1536)); [| lia].
    reflexivity. }
  rewrite E, bytes_eqb_refl. reflexivity.
Qed.

(** Writing back, one sector per call, the bytes that [read_sector]
    returned for that sector changes neither the mirror nor the dirty
    flags, the flash or the handlers' state: the call only sets the
    pending flag and records the tick. *)
Lemma write_back_only_sets_pending tgt st s now :
  zlen (disk_buffer st) = sizeof_disk_buffer ->
  labels_fit (entries st) ->
  0 <= s < 4294967296 ->
  write_sector tgt st (snd (read_sector st s)) s 1 now
  = Some (set_pending st true now, 0).
Proof.
  intros Hb Hfit Hs.
  rewrite (read_sector_view App st s). cbn [snd].
  pose proof (sector_view_length st s Hb) as Hl.
  unfold write_sector. unfold SECTOR_SIZE in *. rewrite Hl.
  change ((0 <=? 1) && (1 * 512 <=? sizeof_disk_buffer_temp) && (1 * 512 <=? 512))
    with true. cbv iota.
  change (1 * 512) with 512. rewrite (slice_all _ 512 Hl).
  change (Z.to_nat 1) with 1%nat. cbn [write_sector_loop].
  unfold u32. rewrite Z.add_0_r, Z.mod_small by lia.
  change (0 * SECTOR_SIZE) with 0. unfold SECTOR_SIZE.
  rewrite (slice_all _ 512 Hl).
  rewrite write_sector_body_same by assumption.
  reflexivity.
Qed.

End WriteFacts.

(** ** The root-directory write *)

Lemma u8_lor_shift lo hi :
  0 <= lo < 256 -> u8 (Z.lor lo (Z.shiftl hi 8)) = lo.
Proof.
  intros Hlo. unfold u8. change 256 with (2 ^ 8).
  rewrite <- Z.land_ones by lia. change (Z.ones 8) with 255.
  apply Z.bits_inj'. intros k Hk.
  rewrite Z.land_spec, Z.lor_spec, Z.shiftl_spec, testbit_255 by lia.
  destruct (Z.ltb_spec k 8).
  - rewrite (Z.testbit_neg_r _ (k - 8)) by lia.
    rewrite orb_false_r, andb_true_r. reflexivity.
  - rewrite andb_false_r. symmetry. apply (testbit_above lo 8); lia.
Qed.

Lemma scan_config_entry_none b fuel : forall i,
  scan_config_entry b i fuel = None ->
  forall j, i <= j < i + Z.of_nat fuel ->
  slice (slice b (ROOT_SECTOR + 32 * j) 12) 0 11 <> slice CONFIG_FILENAME 0 11.
Proof.
  induction fuel as [| fuel IH]; intros i H j Hj; [lia |].
  cbn [scan_config_entry] in H.
  destruct (bytes_eqb _ _) eqn:E; [discriminate |].
  destruct (Z.eq_dec j i) as [-> | Hne].
  - intros Heq. rewrite Heq, bytes_eqb_refl in E. discriminate.
  - apply (IH (i + 1)); [exact H | lia].
Qed.

Lemma scan_config_entry_some b fuel : forall i e,
  scan_config_entry b i fuel = Some e ->
  exists k, i <= k < i + Z.of_nat fuel /\ e = ROOT_SECTOR + 32 * k
    /\ slice (slice b (ROOT_SECTOR + 32 * k) 12) 0 11 = slice CONFIG_FILENAME 0 11
    /\ forall j, i <= j < k ->
       slice (slice b (ROOT_SECTOR + 32 * j) 12) 0 11 <> slice CONFIG_FILENAME 0 11.
Proof.
  induction fuel as [| fuel IH]; intros i e H; [discriminate |].
  cbn [scan_config_entry] in H.
  destruct (bytes_eqb _ _) eqn:E.
  - injection H as <-. exists i. apply bytes_eqb_eq in E.
    repeat split; try lia. exact E.
  - destruct (IH _ _ H) as (k & Hk & He & Hm & Hf).
    exists k. repeat split; try lia; try assumption.
    intros j Hj. destruct (Z.eq_dec j i) as [-> | Hne].
    + intros Heq. rewrite Heq, bytes_eqb_refl in E. discriminate.
    + apply Hf. lia.
Qed.

(** The name bytes the scan looks at are those of the sector just written. *)
Lemma root_name_after_write b data k :
  zlen b = sizeof_disk_buffer -> zlen data = SECTOR_SIZE -> 0 <= k < 16 ->
  slice (slice (memcpy b ROOT_SECTOR data) (ROOT_SECTOR + 32 * k) 12) 0 11
  = slice data (32 * k) 11.
Proof.
  unfold sizeof_disk_buffer, SECTOR_SIZE, ROOT_SECTOR. intros Hb Hd Hk.
  rewrite slice_slice; try lia.
  - rewrite Z.add_0_r. apply slice_memcpy_in; lia.
  - rewrite length_memcpy; lia.
Qed.

Lemma first_config_name_unique data i k :
  first_config_name data i -> first_config_name data k -> i = k.
Proof.
  intros (Hi & Mi & Fi) (Hk & Mk & Fk).
  destruct (Z.lt_trichotomy i k) as [Hlt | [Heq | Hgt]]; [| exact Heq |].
  - exfalso. apply (Fk i); [lia | exact Mi].
  - exfalso. apply (Fi k); [lia | exact Mk].
Qed.

Section RootWrite.
Variable App : Type.
Implicit Types (st : disk_state App).

(** C5 (amended).  A write to sector 32 whose bytes differ from the
    root-directory mirror overwrites the mirror.  With [i] the first
    entry of the written sector named exactly [CONFIG  TXT]: when its
    size field is zero, the dirty flags of the FAT page and of the
    root-directory page are both cleared, whether or not the file was
    seen before; when the low byte of its size is not zero, both flags
    are set.  When no entry has that name, both flags are cleared if an
    earlier root write had seen the entry ([txt_flag] is 1), and both are
    set otherwise. *)
Theorem root_write_dirty_flags tgt st data :
  zlen (disk_buffer st) = sizeof_disk_buffer ->
  zlen (page_dirty_mask st) = sizeof_page_dirty_mask ->
  zlen data = SECTOR_SIZE ->
  data <> slice (disk_buffer st) ROOT_SECTOR SECTOR_SIZE ->
  exists st',
    write_sector_body tgt st 32 data = Some st'
    /\ slice (disk_buffer st') ROOT_SECTOR SECTOR_SIZE = data
    /\ (forall i, first_config_name data i ->
        load data (32 * i + 0x1C) = 0 -> load data (32 * i + 0x1D) = 0 ->
        load data (32 * i + 0x1E) = 0 -> load data (32 * i + 0x1F) = 0 ->
        load (page_dirty_mask st') 0 = 0 /\ load (page_dirty_mask st') 1 = 0
        /\ txt_flag st' = 0)
    /\ (forall i, first_config_name data i ->
        0 < load data (32 * i + 0x1C) < 256 ->
        load (page_dirty_mask st') 0 = 1 /\ load (page_dirty_mask st') 1 = 1
        /\ txt_flag st' = 1)
    /\ (no_config_name data -> txt_flag st = 1 ->
        load (page_dirty_mask st') 0 = 0 /\ load (page_dirty_mask st') 1 = 0
        /\ txt_flag st' = 0)
    /\ (no_config_name data -> txt_flag st <> 1 ->
        load (page_dirty_mask st') 0 = 1 /\ load (page_dirty_mask st') 1 = 1
        /\ txt_flag st' = txt_flag st).
Proof.
  intros Hb Hm Hd Hdiff.
  assert (Hne : bytes_eqb data (slice (disk_buffer st) ROOT_SECTOR SECTOR_SIZE)
                = false).
  { destruct (bytes_eqb _ _) eqn:E; [| reflexivity].
    apply bytes_eqb_eq in E. contradiction. }
  unfold write_sector_body.
  change ((8 <=? 32) && (32 <=? 19)) with false.
  change ((20 <=? 32) && (32 <=? 31)) with false.
  change ((32 <=? 32) && (32 <=? 63)) with true.
  change (32 =? 32) with true. cbv iota.
  rewrite Hne. cbn [negb].
  set (b' := memcpy (disk_buffer st) ROOT_SECTOR data).
  assert (Hslice : slice b' ROOT_SECTOR SECTOR_SIZE = data).
  { unfold b'. rewrite <- Hd.
    apply slice_memcpy_same; unfold ROOT_SECTOR, sizeof_disk_buffer,
      SECTOR_SIZE in *; lia. }
  assert (Hload : forall k o, 0 <= k < 16 -> 0 <= o < 32 ->
            load b' (ROOT_SECTOR + 32 * k + o) = load data (32 * k + o)).
  { intros k o Hk Ho. unfold b'.
    unfold ROOT_SECTOR, sizeof_disk_buffer, SECTOR_SIZE in *.
    rewrite load_memcpy_in by lia. f_equal. lia. }
  unfold sizeof_page_dirty_mask in Hm.
  set (mask := page_dirty_mask st) in *.
  assert (C0 : load (store (store (store mask 1 1) 1 0) 0 0) 0 = 0)
    by (apply load_store_same; rewrite !length_store;
        rewrite ?length_store; lia).
  assert (C1 : load (store (store (store mask 1 1) 1 0) 0 0) 1 = 0).
  { rewrite load_store_other by (rewrite ?length_store; rewrite ?length_store; lia).
    apply load_store_same. rewrite length_store; lia. }
  assert (S0 : load (store (store mask 1 1) 0 1) 0 = 1)
    by (apply load_store_same; rewrite length_store; lia).
  assert (S1 : load (store (store mask 1 1) 0 1) 1 = 1).
  { rewrite load_store_other by (rewrite ?length_store; lia).
    apply load_store_same. lia. }
  destruct (scan_config_entry b' 0 16) as [e |] eqn:Hscan.
  - destruct (scan_config_entry_some _ _ _ _ Hscan) as (k & Hk & -> & Mk & Fk).
    assert (Fk' : first_config_name data k).
    { split; [lia |]. split.
      - unfold config_name_at. rewrite <- (root_name_after_write (disk_buffer st))
          by (assumption || lia). exact Mk.
      - intros j Hj. unfold config_name_at.
        rewrite <- (root_name_after_write (disk_buffer st))
          by (assumption || lia). apply Fk. lia. }
    rewrite !Hload by lia.
    change (1 =? 1) with true. rewrite andb_true_r.
    destruct (Z.eqb_spec
                (u8 (Z.lor (load data (32 * k + 28))
                       (Z.shiftl (load data (32 * k + 29)) 8))) 0) as [Hz | Hnz].
    + eexists. split; [reflexivity |].
      cbn [disk_buffer page_dirty_mask txt_flag set_flags set_page_dirty_mask
           set_disk_buffer].
      split; [exact Hslice |].
      split; [intros; repeat split; assumption |].
      split.
      * intros i Hi Hlow. rewrite (first_config_name_unique _ _ _ Hi Fk') in Hlow.
        rewrite u8_lor_shift in Hz by lia. lia.
      * split; intros Hnone; exfalso;
          destruct Fk' as (Hk' & Mk' & _); apply (Hnone k Hk' Mk').
    + eexists. split; [reflexivity |].
      cbn [disk_buffer page_dirty_mask txt_flag set_flags set_page_dirty_mask
           set_disk_buffer].
      split; [exact Hslice |].
      split.
      * intros i Hi Z0 Z1 _ _.
        rewrite (first_config_name_unique _ _ _ Hi Fk') in Z0, Z1.
        rewrite Z0, Z1 in Hnz. exfalso. apply Hnz. reflexivity.
      * split; [intros; repeat split; assumption |].
        split; intros Hnone; exfalso;
          destruct Fk' as (Hk' & Mk' & _); apply (Hnone k Hk' Mk').
  - assert (Hnone : no_config_name data).
    { intros j Hj. unfold config_name_at.
      rewrite <- (root_name_after_write (disk_buffer st)) by (assumption || lia).
      apply (scan_config_entry_none _ _ _ Hscan). lia. }
    change (0 =? 0) with true. cbn [andb].
    destruct (Z.eqb_spec (txt_flag st) 1) as [Ht | Ht].
    + eexists. split; [reflexivity |].
      cbn [disk_buffer page_dirty_mask txt_flag set_flags set_page_dirty_mask
           set_disk_buffer].
      split; [exact Hslice |].
      split; [intros i (Hi & Mi & _); exfalso; apply (Hnone i Hi Mi) |].
      split; [intros i (Hi & Mi & _); exfalso; apply (Hnone i Hi Mi) |].
      split; [intros; repeat split; assumption |].
      intros _ Hc. contradiction.
    + eexists. split; [reflexivity |].
      cbn [disk_buffer page_dirty_mask txt_flag set_flags set_page_dirty_mask
           set_disk_buffer].
      split; [exact Hslice |].
      split; [intros i (Hi & Mi & _); exfalso; apply (Hnone i Hi Mi) |].
      split; [intros i (Hi & Mi & _); exfalso; apply (Hnone i Hi Mi) |].
      split; [intros _ Hc; contradiction |].
      intros; repeat split; assumption.
Qed.

End RootWrite.

(** ** The data-sector write *)

Section DataWrite.
Variable App : Type.
Implicit Types (st : disk_state App) (es : list (FILE_ENTRY App)).

Lemma label_at_spec b off (e : FILE_ENTRY App) r :
  label_at b off e = Some r ->
  (r = true <->
   slice b off (strlen (entry e)) = slice (entry e) 0 (strlen (entry e))
   /\ load b (off + strlen (entry e)) = 61).
Proof.
  unfold label_at, slice_opt. intros H.
  destruct (in_bounds b off (strlen (entry e))); [| discriminate].
  rewrite bind_Some in H; cbv beta in H.
  destruct (bytes_eqb _ _) eqn:E.
  - apply bytes_eqb_eq in E.
    apply bind_inv in H. destruct H as (c & Hc & Hr).
    apply load_opt_some in Hc. destruct Hc as [_ ->].
    injection Hr as <-. rewrite Z.eqb_eq. tauto.
  - injection H as <-. split; [discriminate |].
    intros [Hs _]. rewrite Hs, bytes_eqb_refl in E. discriminate.
Qed.

Lemma any_label_at_spec b off es : forall v,
  any_label_at b off es = Some v ->
  (v = true <-> begins_with_label b off es).
Proof.
  induction es as [| e es IH]; intros v H; cbn [any_label_at] in H.
  - injection H as <-. split; [discriminate |]. intros (e & [] & _).
  - destruct (registered e) eqn:R.
    + apply bind_inv in H. destruct H as (r & Hr & H).
      pose proof (label_at_spec _ _ _ _ Hr) as Hspec.
      destruct r.
      * injection H as <-. split; [| reflexivity]. intros _.
        exists e. split; [left; reflexivity |]. split; [exact R |].
        apply Hspec. reflexivity.
      * rewrite (IH _ H). split.
        -- intros (e' & Hin & Hrest). exists e'.
           split; [right; exact Hin | exact Hrest].
        -- intros (e' & [<- | Hin] & R' & Hrest).
           ++ apply Hspec in Hrest. discriminate.
           ++ exists e'. split; [exact Hin |]. split; assumption.
    + rewrite (IH _ H). split.
      * intros (e' & Hin & Hrest). exists e'.
        split; [right; exact Hin | exact Hrest].
      * intros (e' & [<- | Hin] & R' & Hrest).
        -- rewrite R in R'. discriminate.
        -- exists e'. split; [exact Hin |]. split; assumption.
Qed.

(** The part of C1 that the code satisfies: how a data sector inside the
    file region is classified, and what an accepted or a rejected sector
    does to the state.  The flag that an accepted sector sets is
    [page_dirty_mask[data_offset / FLASH_PAGE_SIZE + 1]]. *)
Lemma data_sector_write tgt st s data :
  zlen (disk_buffer st) = sizeof_disk_buffer ->
  zlen data = SECTOR_SIZE -> labels_fit (entries st) ->
  64 <= s < SECTOR_CNT -> (s - 64) * 512 + 512 <= FILE_SECTOR_SIZE ->
  let cluster := s - 64 + 2 in
  let config_cluster := get_config_start_cluster (disk_buffer st) in
  let is_config := 0 < config_cluster /\ cluster = config_cluster in
  exists rejected,
    write_rejected st s data = Some rejected
    /\ (is_config -> rejected = false)
    /\ (~ is_config -> cluster = 2 ->
        (rejected = false <-> begins_with_label data 0 (entries st)))
    /\ (~ is_config -> 2 < cluster ->
        begins_with_label (disk_buffer st) FILE_SECTOR (entries st) ->
        (rejected = true <-> dot_file_start data))
    /\ (~ is_config -> 2 < cluster ->
        ~ begins_with_label (disk_buffer st) FILE_SECTOR (entries st) ->
        rejected = false)
    /\ (rejected = true -> write_sector_body tgt st s data = Some st)
    /\ (rejected = false ->
        data = slice (disk_buffer st) (FILE_SECTOR + (s - 64) * 512) SECTOR_SIZE ->
        write_sector_body tgt st s data = Some st)
    /\ (rejected = false ->
        data <> slice (disk_buffer st) (FILE_SECTOR + (s - 64) * 512) SECTOR_SIZE ->
        write_sector_body tgt st s data
        = Some (set_page_dirty_mask
                  (set_disk_buffer st
                     (memcpy (disk_buffer st) (FILE_SECTOR + (s - 64) * 512) data))
                  (store (page_dirty_mask st)
                     ((s - 64) * 512 / FLASH_PAGE_SIZE tgt + 1) 1))).
Proof.
  unfold SECTOR_CNT, FILE_SECTOR_SIZE. intros Hb Hd Hfit Hs Hin. cbv zeta.
  destruct (write_rejected_defined App st s data Hb Hd Hfit) as [rejected Hr].
  exists rejected. split; [exact Hr |].
  assert (Hbody : write_sector_body tgt st s data
            = if rejected then Some st
              else if negb (bytes_eqb data
                              (slice (disk_buffer st)
                                 (FILE_SECTOR + (s - 64) * SECTOR_SIZE) SECTOR_SIZE))
                   then Some (set_page_dirty_mask
                                (set_disk_buffer st
                                   (memcpy (disk_buffer st)
                                      (FILE_SECTOR + (s - 64) * SECTOR_SIZE) data))
                                (store (page_dirty_mask st)
                                   ((s - 64) * SECTOR_SIZE / FLASH_PAGE_SIZE tgt + 1) 1))
                   else Some st).
  { unfold write_sector_body, SECTOR_CNT, FILE_SECTOR_SIZE, SECTOR_SIZE.
    decide_order. rewrite Hr. rewrite bind_Some; cbv beta. reflexivity. }
  unfold SECTOR_SIZE in Hbody.
  unfold write_rejected in Hr.
  destruct (any_label_at (disk_buffer st) FILE_SECTOR (entries st))
    as [fsc |] eqn:Hfsc; [| discriminate].
  rewrite bind_Some in Hr; cbv beta in Hr.
  pose proof (any_label_at_spec _ _ _ _ Hfsc) as Sfsc.
  unfold SECTOR_TO_CLUSTER, DATA_FIRST_SECTOR, u16 in Hr.
  rewrite Z.mod_small in Hr by lia.
  unfold FILE_SECTOR_SIZE, SECTOR_SIZE in Hr.
  set (cc := get_config_start_cluster (disk_buffer st)) in *.
  split; [| split; [| split; [| split; [| split; [| split]]]]].
  - intros [H0 Hc]. rewrite <- Hc in Hr.
    rewrite (proj2 (Z.ltb_lt 0 (s - 64 + 2))) in Hr by lia.
    rewrite Z.eqb_refl in Hr. injection Hr as <-. reflexivity.
  - intros Hnc Hc2.
    assert (Hf : (0 <? cc) && (s - 64 + 2 =? cc) = false).
    { destruct (Z.ltb_spec 0 cc); destruct (Z.eqb_spec (s - 64 + 2) cc);
        try reflexivity. exfalso. apply Hnc. split; assumption. }
    rewrite Hf, Hc2 in Hr. change (2 =? 2) with true in Hr. cbv iota in Hr.
    apply bind_inv in Hr. destruct Hr as (lc & Hlc & Hr). injection Hr as <-.
    rewrite <- (any_label_at_spec _ _ _ _ Hlc).
    destruct lc; split; intros; try reflexivity; discriminate.
  - intros Hnc H2 Hfs.
    assert (Hf : (0 <? cc) && (s - 64 + 2 =? cc) = false).
    { destruct (Z.ltb_spec 0 cc); destruct (Z.eqb_spec (s - 64 + 2) cc);
        try reflexivity. exfalso. apply Hnc. split; assumption. }
    rewrite Hf in Hr.
    rewrite (proj2 (Z.eqb_neq (s - 64 + 2) 2)) in Hr by lia.
    rewrite (proj2 (Z.ltb_lt 2 (s - 64 + 2))) in Hr by lia.
    rewrite (proj2 (Z.leb_le (s - 64 + 2) (2 + (16384 - 1536) / 512))) in Hr
      by (change ((16384 - 1536) / 512) with 29; lia).
    rewrite (proj2 Sfsc Hfs) in Hr. cbn [andb] in Hr.
    injection Hr as <-. unfold dot_file_start.
    destruct (Z.eqb_spec (load data 0) 0); [split; [tauto | reflexivity] |].
    destruct (Z.eqb_spec (load data 0) 5); [split; [tauto | reflexivity] |].
    destruct (Z.eqb_spec (load data 0) 46);
      destruct (Z.eqb_spec (load data 1) 0); cbn [orb andb negb];
      split; try discriminate; try tauto; try reflexivity.
  - intros Hnc H2 Hfs.
    assert (Hf : (0 <? cc) && (s - 64 + 2 =? cc) = false).
    { destruct (Z.ltb_spec 0 cc); destruct (Z.eqb_spec (s - 64 + 2) cc);
        try reflexivity. exfalso. apply Hnc. split; assumption. }
    rewrite Hf in Hr.
    rewrite (proj2 (Z.eqb_neq (s - 64 + 2) 2)) in Hr by lia.
    destruct fsc; [exfalso; apply Hfs, Sfsc; reflexivity |].
    rewrite andb_false_r in Hr. injection Hr as <-. reflexivity.
  - intros ->. exact Hbody.
  - intros -> ->. rewrite Hbody, bytes_eqb_refl. reflexivity.
  - intros -> Hdiff. rewrite Hbody.
    destruct (bytes_eqb _ _) eqn:E; [| reflexivity].
    apply bytes_eqb_eq in E. contradiction.
Qed.

End DataWrite.

(** ** When validate_file stays inside its buffers *)

Lemma length_slice_le b off n : 0 <= n -> zlen (slice b off n) <= n.
Proof.
  intros H. unfold slice.
  pose proof (firstn_le_length (Z.to_nat n) (skipn (Z.to_nat off) b)). lia.
Qed.

Lemma last_cons_cons (x y : Z) (l : list Z) :
  last (x :: y :: l) 0 = last (y :: l) 0.
Proof. reflexivity. Qed.

Lemma last_load (l : list Z) : l <> [] -> last l 0 = load l (zlen l - 1).
Proof.
  induction l as [| x l IH]; [congruence | intros _].
  destruct l as [| y l]; [reflexivity |].
  rewrite last_cons_cons, IH by congruence.
  unfold load. cbn [length].
  replace (Z.to_nat (Z.of_nat (S (S (length l))) - 1)) with (S (length l)) by lia.
  replace (Z.to_nat (Z.of_nat (S (length l)) - 1)) with (length l) by lia.
  reflexivity.
Qed.

(** The inner scan only fails on a CR in the last byte of the buffer. *)
Lemma scan_line_defined rest : forall row j,
  last rest 0 <> 0x0D -> zlen row = FILE_ROW_CNT -> 0 <= j < FILE_ROW_CNT ->
  exists row' j' rest' stop,
    scan_line rest row j = Some (row', j', rest', stop)
    /\ zlen row' = FILE_ROW_CNT /\ 0 <= j' < FILE_ROW_CNT
    /\ last rest' 0 <> 0x0D.
Proof.
  unfold FILE_ROW_CNT.
  induction rest as [| c rest IH]; intros row j Hlast Hrow Hj.
  - exists row, j, [], true. repeat split; try assumption; try lia.
  - cbn [scan_line].
    destruct (Z.eqb_spec c 0).
    { exists row, j, (c :: rest), true. repeat split; try assumption; lia. }
    assert (Hrest : rest <> [] -> last rest 0 <> 13).
    { destruct rest as [| d rest']; [congruence |].
      intros _. rewrite last_cons_cons in Hlast. exact Hlast. }
    assert (Hstep : exists row' j' rest' stop,
              (if j <? FILE_ROW_CNT - 1
               then scan_line rest (store row j c) (j + 1)
               else scan_line rest row j) = Some (row', j', rest', stop)
              /\ zlen row' = 2048 /\ 0 <= j' < 2048 /\ last rest' 0 <> 13).
    { unfold FILE_ROW_CNT.
      assert (Hl : last rest 0 <> 13).
      { destruct rest as [| d rest']; [cbn; lia | apply Hrest; congruence]. }
      destruct (Z.ltb_spec j (2048 - 1)).
      - apply IH; [exact Hl | rewrite length_store; lia | lia].
      - apply IH; [exact Hl | exact Hrow | lia]. }
    destruct (Z.eqb_spec c 13).
    + destruct rest as [| d rest'].
      * subst c. cbn in Hlast. congruence.
      * destruct (Z.eqb_spec d 10).
        -- exists row, j, rest', false.
           repeat split; try assumption; try lia.
           destruct rest' as [| x rest'']; [cbn; lia |].
           rewrite !last_cons_cons in Hlast. exact Hlast.
        -- exact Hstep.
    + destruct (Z.eqb_spec c 10).
      * exists row, j, rest, false. repeat split; try assumption; try lia.
        destruct rest as [| d rest']; [cbn; lia | apply Hrest; congruence].
      * exact Hstep.
Qed.

Lemma Forall_firstn_skipn {A : Type} (P : A -> Prop) n (l : list A) :
  Forall P l -> Forall P (firstn n l) /\ Forall P (skipn n l).
Proof.
  intros H. rewrite <- (firstn_skipn n l) in H.
  apply Forall_app in H. exact H.
Qed.

Lemma get_row_ok pb k :
  rows_ok pb -> 0 <= k < FILE_ENTRY_CNT -> zlen (get_row pb k) = FILE_ROW_CNT.
Proof.
  intros [Hn Hall] Hk. unfold get_row.
  rewrite Forall_forall in Hall. apply Hall. apply nth_In. lia.
Qed.

Lemma set_row_ok pb k row :
  rows_ok pb -> 0 <= k < FILE_ENTRY_CNT -> zlen row = FILE_ROW_CNT ->
  rows_ok (set_row pb k row).
Proof.
  intros [Hn Hall] Hk Hrow. unfold set_row. split.
  - rewrite length_app, length_firstn. cbn [length]. rewrite length_skipn. lia.
  - apply Forall_app. split; [apply Forall_firstn_skipn; exact Hall |].
    constructor; [exact Hrow | apply Forall_firstn_skipn; exact Hall].
Qed.

Lemma split_lines_defined fuel : forall rest pb line_idx,
  last rest 0 <> 0x0D -> rows_ok pb ->
  0 <= line_idx -> line_idx + Z.of_nat fuel <= FILE_ENTRY_CNT ->
  exists pb', split_lines rest pb line_idx fuel = Some pb' /\ rows_ok pb'.
Proof.
  induction fuel as [| fuel IH]; intros rest pb line_idx Hlast Hpb Hi Hf.
  - exists pb. split; [reflexivity | exact Hpb].
  - cbn [split_lines].
    destruct (scan_line_defined rest (get_row pb line_idx) 0 Hlast)
      as (row' & j' & rest' & stop & E & Hrow & Hj & Hl);
      [apply get_row_ok; [exact Hpb | lia] | unfold FILE_ROW_CNT; lia |].
    rewrite E. rewrite bind_Some; cbv beta iota.
    assert (Hpb' : rows_ok (set_row pb line_idx (store row' j' 0))).
    { apply set_row_ok; [exact Hpb | lia |].
      rewrite length_store; [exact Hrow | lia]. }
    destruct stop.
    + eexists. split; [reflexivity | exact Hpb'].
    + apply IH; [exact Hl | exact Hpb' | lia | lia].
Qed.

Section Defined.
Variable App : Type.
Implicit Types (st : disk_state App) (es : list (FILE_ENTRY App)).

Lemma find_line_defined (e : FILE_ENTRY App) pb :
  Forall (fun row => zlen row = FILE_ROW_CNT) pb ->
  zlen (entry e) <= MAX_ENTRY_LABEL_LENGTH ->
  exists r, find_line pb e = Some r.
Proof.
  intros Hall He. induction Hall as [| row pb Hrow Hpb IH].
  - exists None. reflexivity.
  - cbn [find_line]. destruct (load row 0 =? 0); [exact IH |].
    destruct (label_at_defined App row 0 e) as [v Hv];
      [lia | rewrite Hrow; unfold FILE_ROW_CNT, MAX_ENTRY_LABEL_LENGTH; lia
       | exact He |].
    rewrite Hv. rewrite bind_Some; cbv beta.
    destruct v; [eexists; reflexivity | exact IH].
Qed.

Lemma snprintf_row_length row s :
  zlen row = FILE_ROW_CNT -> zlen (snprintf row 0 FILE_ROW_CNT s) = FILE_ROW_CNT.
Proof.
  unfold FILE_ROW_CNT. intros Hrow. unfold snprintf.
  change (2048 <=? 0) with false. cbv iota.
  pose proof (length_slice_le s 0 (2048 - 1)) as Hs.
  rewrite length_memcpy; [exact Hrow | lia |].
  rewrite length_app. cbn [length]. lia.
Qed.

Lemma memcpy_row_length row s :
  zlen row = FILE_ROW_CNT ->
  zlen (memcpy row 0 (slice s 0 FILE_ROW_CNT)) = FILE_ROW_CNT.
Proof.
  unfold FILE_ROW_CNT. intros Hrow.
  pose proof (length_slice_le s 0 2048) as Hs.
  rewrite length_memcpy; [exact Hrow | lia | lia].
Qed.

Lemma resolve_entry_defined k (e : FILE_ENTRY App) pb (a : App) illegal :
  rows_ok pb -> 0 <= k < FILE_ENTRY_CNT ->
  zlen (entry e) <= MAX_ENTRY_LABEL_LENGTH ->
  exists pb' a' illegal',
    resolve_entry k e (pb, a, illegal) = Some (pb', a', illegal')
    /\ rows_ok pb'.
Proof.
  intros Hpb Hk He. unfold resolve_entry.
  destruct (find_line_defined e pb (proj2 Hpb) He) as [r Hr].
  rewrite Hr. rewrite bind_Some; cbv beta.
  pose proof (get_row_ok pb k Hpb Hk) as Hrow.
  assert (Hdef : rows_ok
                   (set_row pb k
                      (snprintf (get_row pb k) 0 FILE_ROW_CNT (default_line e)))).
  { apply set_row_ok; [exact Hpb | exact Hk |].
    apply snprintf_row_length. exact Hrow. }
  destruct r as [row |].
  - destruct (match validate e with
              | Some v => _
              | None => true
              end).
    + eexists _, _, _. split; [reflexivity |].
      destruct (print e) as [p |]; [| exact Hpb].
      apply set_row_ok; [exact Hpb | exact Hk |].
      apply memcpy_row_length. exact Hrow.
    + eexists _, _, _. split; [reflexivity | exact Hdef].
  - eexists _, _, _. split; [reflexivity | exact Hdef].
Qed.

Lemma resolve_entries_defined es : forall k pb (a : App) illegal,
  rows_ok pb -> 0 <= k -> k + zlen es <= FILE_ENTRY_CNT -> labels_fit es ->
  exists acc, resolve_entries es k (pb, a, illegal) = Some acc.
Proof.
  induction es as [| e es IH]; intros k pb a illegal Hpb Hk Hn Hfit.
  - eexists. reflexivity.
  - cbn [resolve_entries]. cbn [length] in Hn.
    inversion Hfit as [| e' es' He Hes]; subst.
    destruct (registered e).
    + destruct (resolve_entry_defined k e pb a illegal Hpb) as
        (pb' & a' & illegal' & E & Hpb'); [lia | exact He |].
      rewrite E. rewrite bind_Some; cbv beta.
      apply IH; [exact Hpb' | lia | lia | exact Hes].
    + apply IH; [exact Hpb | lia | lia | exact Hes].
Qed.

(** [file_content] is defined, and with it [validate_file] (see
    [validate_file_canonical]), when the pointer has [sizeof file_buffer]
    readable bytes inside [disk_buffer] and no candidate source has a CR
    in the last byte that is copied: the line splitter reads
    [file_buffer[i + 1]] after a CR, which for the last byte is one past
    the array. *)
Lemma file_content_defined st p_file :
  zlen (disk_buffer st) = sizeof_disk_buffer ->
  zlen (flash st) = sizeof_disk_buffer ->
  zlen (entries st) = FILE_ENTRY_CNT -> labels_fit (entries st) ->
  0 <= p_file -> p_file + sizeof_file_buffer <= sizeof_disk_buffer ->
  load (disk_buffer st) (p_file + sizeof_file_buffer - 1) <> 0x0D ->
  load (disk_buffer st) (FILE_SECTOR + sizeof_file_buffer - 1) <> 0x0D ->
  load (flash st) (p_file + sizeof_file_buffer - 1) <> 0x0D ->
  load (flash st) (FILE_SECTOR + sizeof_file_buffer - 1) <> 0x0D ->
  exists c, file_content st p_file = Some c.
Proof.
  unfold sizeof_disk_buffer, sizeof_file_buffer, SECTOR_SIZE, FILE_SECTOR.
  intros Hb Hfl Hn Hfit Hp0 Hp1 C1 C2 C3 C4.
  assert (Hsel : exists b1 rs,
            select_source st p_file = Some (b1, rs)
            /\ zlen b1 = 16384 /\ 0 <= rs /\ rs + 8192 <= 16384
            /\ load b1 (rs + 8191) <> 13).
  { unfold select_source.
    destruct (any_label_at_defined App (disk_buffer st) FILE_SECTOR (entries st))
      as [v1 E1]; [unfold FILE_SECTOR; lia
                  | unfold FILE_SECTOR, MAX_ENTRY_LABEL_LENGTH; lia
                  | exact Hfit |].
    rewrite E1. rewrite bind_Some; cbv beta.
    assert (E2 : exists v2,
              (if p_file =? FILE_SECTOR then Some false
               else any_label_at (disk_buffer st) p_file (entries st)) = Some v2).
    { destruct (p_file =? FILE_SECTOR); [eexists; reflexivity |].
      apply any_label_at_defined;
        [lia | unfold MAX_ENTRY_LABEL_LENGTH; lia | exact Hfit]. }
    destruct E2 as [v2 E2]. rewrite E2. rewrite bind_Some; cbv beta.
    destruct v2.
    { exists (disk_buffer st), p_file. repeat split; try lia.
      replace (p_file + 8191) with (p_file + 8192 - 1) by lia. exact C1. }
    destruct v1.
    { exists (disk_buffer st), FILE_SECTOR. unfold FILE_SECTOR.
      repeat split; try lia. exact C2. }
    set (b' := memcpy (disk_buffer st) FILE_SECTOR
                 (slice (flash st) 1536 FILE_SECTOR_SIZE)).
    assert (Ls : zlen (slice (flash st) 1536 FILE_SECTOR_SIZE) = 14848).
    { apply length_slice; unfold FILE_SECTOR_SIZE; lia. }
    assert (Lb : zlen b' = 16384).
    { unfold b'. rewrite length_memcpy; unfold FILE_SECTOR; lia. }
    assert (Hfl' : forall k, 1536 <= k < 16384 -> load b' k = load (flash st) k).
    { intros k Hk. unfold b'.
      rewrite load_memcpy_in by (unfold FILE_SECTOR; lia).
      unfold FILE_SECTOR, FILE_SECTOR_SIZE.
      rewrite load_slice by lia. f_equal. lia. }
    destruct (any_label_at_defined App b' FILE_SECTOR (entries st))
      as [v3 E3]; [unfold FILE_SECTOR; lia
                  | unfold FILE_SECTOR, MAX_ENTRY_LABEL_LENGTH; lia
                  | exact Hfit |].
    rewrite E3. rewrite bind_Some; cbv beta.
    destruct v3.
    - exists b', FILE_SECTOR. unfold FILE_SECTOR.
      repeat split; try lia. rewrite Hfl' by lia. exact C4.
    - exists b', p_file. repeat split; try lia.
      rewrite Hfl' by lia.
      replace (p_file + 8191) with (p_file + 8192 - 1) by lia. exact C3. }
  destruct Hsel as (b1 & rs & Es & Lb1 & Hr0 & Hr1 & Hcr).
  unfold file_content. rewrite Es. rewrite bind_Some; cbv beta iota.
  set (fb := slice b1 rs 8192).
  assert (Esl : slice_opt b1 rs sizeof_file_buffer = Some fb).
  { unfold slice_opt, in_bounds, sizeof_file_buffer, SECTOR_SIZE.
    change (512 * 16) with 8192.
    rewrite (proj2 (Z.leb_le 0 rs)) by lia.
    rewrite (proj2 (Z.leb_le (rs + 8192) (zlen b1))) by lia.
    reflexivity. }
  rewrite Esl. rewrite bind_Some; cbv beta.
  assert (Lfb : zlen fb = 8192) by (apply length_slice; lia).
  assert (Hlast : last fb 0 <> 13).
  { rewrite last_load by (intros E0; rewrite E0 in Lfb; cbn in Lfb; lia).
    rewrite Lfb. unfold fb. rewrite load_slice by lia.
    replace (rs + (8192 - 1)) with (rs + 8191) by lia. exact Hcr. }
  set (pb0 := repeat (repeat 0 (Z.to_nat FILE_ROW_CNT)) (Z.to_nat FILE_ENTRY_CNT)).
  assert (Hpb0 : rows_ok pb0).
  { unfold rows_ok, pb0. split.
    - rewrite repeat_length. unfold FILE_ENTRY_CNT. lia.
    - apply Forall_forall. intros row Hin. apply repeat_spec in Hin.
      subst row. rewrite repeat_length. unfold FILE_ROW_CNT. lia. }
  destruct (split_lines_defined (Z.to_nat FILE_ENTRY_CNT) fb pb0 0 Hlast Hpb0)
    as (pb1 & E1 & Hpb1); [lia | unfold FILE_ENTRY_CNT; lia |].
  rewrite E1. rewrite bind_Some; cbv beta.
  destruct (resolve_entries_defined (entries st) 0 pb1 (app st) 0 Hpb1)
    as ([[pb2 a2] ill2] & E2); [lia | lia | exact Hfit |].
  rewrite E2. rewrite bind_Some; cbv beta iota.
  destruct (rebuild_loop (entries st) 0 pb2 (repeat 0 (Z.to_nat FILE_CHAR_CNT)) 0)
    as [fcb m].
  eexists. reflexivity.
Qed.

End Defined.

(** ** The FAT chain: the claim and where it stops holding *)

(** C4 (amended).  For a size of at most 339 clusters (173568 bytes, the
    longest chain from cluster 2 that fits in the 512-byte FAT1 mirror),
    [update_fat_chain] keeps bytes 0..2 of FAT1, gives the entry of cluster
    [2 + i] the value [3 + i] for [i < n - 1] and 0xFFF for [i = n - 1],
    where [n = max 1 (ceil (size / 512))], leaves every later entry of the
    sector zero, makes FAT2 equal to FAT1 and touches nothing outside the
    two FATs.  Each [set_fat12_entry] changes only the two bytes of its
    entry and keeps the neighbour's nibble of the shared one. *)
Theorem update_fat_chain_builds_chain (b : list Z) (size : Z) :
  0x400 <= zlen b -> 0 <= size <= 173568 ->
  (exists b',
     update_fat_chain b size = Some b'
     /\ chain_layout b b' (Z.max 1 ((size + 511) / 512)))
  /\ (forall buf fat c v buf',
        set_fat12_entry buf fat c v = Some buf' -> nibble_write buf buf' fat c).
Proof.
  intros Hb Hs. split; [apply update_fat_chain_fits; assumption |].
  intros buf fat c v buf' H.
  destruct (set_fat12_entry_bytes _ _ _ _ _ H) as (_ & _ & _ & Hother & Hodd & Heven).
  unfold nibble_write. split; [exact Hother |]. split.
  - intros Hc. destruct (Hodd Hc) as [E _]. rewrite E. apply low_nibble_kept.
  - intros Hc. destruct (Heven Hc) as [_ E]. rewrite E. apply high_nibble_kept.
Qed.

Lemma update_fat_chain_builds_chain_witness :
  0x400 <= zlen Scenario.image /\ 0 <= 1000 <= 173568
  /\ (exists b',
        update_fat_chain Scenario.image 1000 = Some b'
        /\ chain_layout Scenario.image b' (Z.max 1 ((1000 + 511) / 512)))
  /\ (forall buf fat c v buf',
        set_fat12_entry buf fat c v = Some buf' -> nibble_write buf buf' fat c).
Proof.
  assert (H1 : 0x400 <= zlen Scenario.image) by (vm_compute; discriminate).
  assert (H2 : 0 <= 1000 <= 173568) by lia.
  split; [exact H1 |]. split; [exact H2 |].
  exact (update_fat_chain_builds_chain Scenario.image 1000 H1 H2).
Defined.

(** With 340 clusters the last entry, that of cluster 341, straddles the end
    of the FAT1 sector: its second byte lands in FAT2 and is overwritten by
    the copy of FAT1, so the entry does not read 0xFFF. *)
Lemma update_fat_chain_340_clusters :
  Z.max 1 ((174080 + 511) / 512) = 340
  /\ exists b',
       update_fat_chain Scenario.image 174080 = Some b'
       /\ fat12_entry b' FAT1_SECTOR (2 + 339) <> 0xFFF.
Proof.
  split; [reflexivity |].
  eexists. split; [vm_compute; reflexivity |].
  vm_compute. discriminate.
Qed.

(** ** The claims on the concrete device *)



Lemma validate_file_canonical_witness :
  zlen (disk_buffer (Scenario.running [])) = sizeof_disk_buffer
  /\ sizeof_disk_buffer <= zlen (flash (Scenario.running []))
  /\ 0 <= 0 < 16
  /\ file_content (Scenario.running []) FILE_SECTOR
     = Some (Scenario.rebuilt_buffer, Scenario.rebuilt_app,
             Scenario.rebuilt_illegal, Scenario.rebuilt_content,
             Scenario.rebuilt_length)
  /\ exists st',
       validate_file (Scenario.running []) FILE_SECTOR 0
       = Some (st', Scenario.rebuilt_illegal)
       /\ 0 <= Scenario.rebuilt_length < FILE_CHAR_CNT - 1
       /\ canonical_layout (disk_buffer st') 0 Scenario.rebuilt_content
            Scenario.rebuilt_length.
Proof.
  assert (H1 : zlen (disk_buffer (Scenario.running [])) = sizeof_disk_buffer)
    by (vm_compute; reflexivity).
  assert (H2 : sizeof_disk_buffer <= zlen (flash (Scenario.running [])))
    by (vm_compute; discriminate).
  assert (H3 : 0 <= 0 < 16) by lia.
  assert (H4 : file_content (Scenario.running []) FILE_SECTOR
               = Some (Scenario.rebuilt_buffer, Scenario.rebuilt_app,
                       Scenario.rebuilt_illegal, Scenario.rebuilt_content,
                       Scenario.rebuilt_length))
    by (vm_compute; reflexivity).
  split; [exact H1 |]. split; [exact H2 |]. split; [exact H3 |].
  split; [exact H4 |].
  exact (validate_file_canonical Scenario.App (Scenario.running []) FILE_SECTOR 0
           _ _ _ _ _ H1 H2 H3 H4).
Defined.

(** C1, at the input where the code departs from it.  On the F103 build,
    with the device running and its file at cluster 2, the host writes
    sector 65.  The sector is accepted and copied to offset 0x800 of
    [disk_buffer], which lies in flash page 2 (bytes 0x800..0xBFF); the
    flag that is set is the one of page 1, and the flag of page 2 stays
    clear. *)
Theorem data_write_marks_wrong_page :
  exists st',
    write_sector STM32F103xB (Scenario.running [])
      (Scenario.sector_of (bytes_of "AAAA")) 65 1 10 = Some (st', 0)
    /\ slice (disk_buffer st') 0x800 SECTOR_SIZE
       = Scenario.sector_of (bytes_of "AAAA")
    /\ slice (disk_buffer (Scenario.running [])) 0x800 SECTOR_SIZE
       <> Scenario.sector_of (bytes_of "AAAA")
    /\ (FILE_SECTOR + (65 - 64) * SECTOR_SIZE) / FLASH_PAGE_SIZE STM32F103xB = 2
    /\ load (page_dirty_mask st') 2 = 0
    /\ load (page_dirty_mask st') 1 = 1.
Proof.
  eexists. split; [vm_compute; reflexivity |].
  split_all; try (vm_compute; reflexivity). vm_compute. discriminate.
Qed.

(** C10, at the input where the code departs from it.  The host places the
    file at cluster 16 (directory entry and first data sector, sector 78,
    both accepted).  [find_file] then returns [FILE_SECTOR + 14 * 512 =
    0x2200]; the block of [sizeof file_buffer] bytes from there ends 512
    bytes past the end of [disk_buffer], [validate_file] chooses that
    pointer as its source since the bytes there start with a label, and its
    copy leaves the buffer. *)
Theorem find_file_pointer_leaves_disk_buffer :
  find_file (disk_buffer Scenario.moved_to_cluster_16) CONFIG_FILENAME
  = Some (0x2200, 10, 0)
  /\ 0x2200 + sizeof_file_buffer = sizeof_disk_buffer + 512
  /\ select_source Scenario.moved_to_cluster_16 0x2200
     = Some (disk_buffer Scenario.moved_to_cluster_16, 0x2200)
  /\ validate_file Scenario.moved_to_cluster_16 0x2200 0 = None
  /\ process STM32F103xB Scenario.moved_to_cluster_16 1000 = None.
Proof. split_all; vm_compute; reflexivity. Qed.

(** From reset, before any root write was seen and with no file in the
    mirror, a root sector whose [CONFIG  TXT] entry has size 0 clears both
    dirty flags. *)
Lemma root_write_clears_flags_on_first_sight :
  txt_flag Scenario.registered_state = 0
  /\ slice (disk_buffer Scenario.registered_state) ROOT_SECTOR SECTOR_SIZE
     = repeat 0 512
  /\ exists st',
       write_sector_body STM32F103xB Scenario.registered_state 32
         (Scenario.root_with 2 0) = Some st'
       /\ slice (disk_buffer st') ROOT_SECTOR SECTOR_SIZE = Scenario.root_with 2 0
       /\ load (page_dirty_mask st') 0 = 0
       /\ load (page_dirty_mask st') 1 = 0.
Proof.
  split; [reflexivity |]. split; [vm_compute; reflexivity |].
  eexists. split; [vm_compute; reflexivity |].
  split_all; vm_compute; reflexivity.
Qed.

Lemma root_write_dirty_flags_witness :
  zlen (disk_buffer (Scenario.running [])) = sizeof_disk_buffer
  /\ zlen (page_dirty_mask (Scenario.running [])) = sizeof_page_dirty_mask
  /\ zlen (Scenario.root_with 5 700) = SECTOR_SIZE
  /\ Scenario.root_with 5 700
     <> slice (disk_buffer (Scenario.running [])) ROOT_SECTOR SECTOR_SIZE
  /\ exists st',
       write_sector_body STM32F103xB (Scenario.running []) 32
         (Scenario.root_with 5 700) = Some st'
       /\ slice (disk_buffer st') ROOT_SECTOR SECTOR_SIZE = Scenario.root_with 5 700.
Proof.
  assert (H1 : zlen (disk_buffer (Scenario.running [])) = sizeof_disk_buffer)
    by (vm_compute; reflexivity).
  assert (H2 : zlen (page_dirty_mask (Scenario.running [])) = sizeof_page_dirty_mask)
    by (vm_compute; reflexivity).
  assert (H3 : zlen (Scenario.root_with 5 700) = SECTOR_SIZE)
    by (vm_compute; reflexivity).
  assert (H4 : Scenario.root_with 5 700
               <> slice (disk_buffer (Scenario.running [])) ROOT_SECTOR SECTOR_SIZE)
    by (vm_compute; discriminate).
  split; [exact H1 |]. split; [exact H2 |]. split; [exact H3 |].
  split; [exact H4 |].
  destruct (root_write_dirty_flags Scenario.App STM32F103xB (Scenario.running [])
              (Scenario.root_with 5 700) H1 H2 H3 H4) as (st' & E & S & _).
  exists st'. split; [exact E | exact S].
Defined.

(** A commit in which the erase and every program operation fail: the
    flag of page 0, dirty before, is clear afterwards, nothing was written
    to flash, the pending flag is off and a later [process] does nothing. *)
Lemma failed_commit_is_not_retried :
  load (page_dirty_mask (Scenario.pending_state Scenario.failing_script)) 0 = 1
  /\ commit_due (Scenario.pending_state Scenario.failing_script) 600 = true
  /\ exists st',
       process STM32F103xB (Scenario.pending_state Scenario.failing_script) 600
       = Some st'
       /\ flash st' = flash (Scenario.pending_state Scenario.failing_script)
       /\ load (page_dirty_mask st') 0 = 0
       /\ pending_flash_write st' = false
       /\ process STM32F103xB st' 2000 = Some st'.
Proof.
  split; [vm_compute; reflexivity |]. split; [vm_compute; reflexivity |].
  eexists. split; [vm_compute; reflexivity |].
  split_all; vm_compute; reflexivity.
Qed.

Lemma commit_clears_flag_whatever_hal_returns_witness :
  zlen (page_dirty_mask (Scenario.pending_state Scenario.failing_script))
  = sizeof_page_dirty_mask
  /\ first_dirty (page_dirty_mask (Scenario.pending_state Scenario.failing_script))
       0 16 = Some 0
  /\ snd (rewrite_dirty_flash_pages STM32F103xB
            (Scenario.pending_state Scenario.failing_script)) = 0
  /\ load (page_dirty_mask
             (fst (rewrite_dirty_flash_pages STM32F103xB
                     (Scenario.pending_state Scenario.failing_script)))) 0 = 0.
Proof.
  assert (H1 : zlen (page_dirty_mask (Scenario.pending_state Scenario.failing_script))
               = sizeof_page_dirty_mask) by (vm_compute; reflexivity).
  assert (H2 : first_dirty
                 (page_dirty_mask (Scenario.pending_state Scenario.failing_script))
                 0 16 = Some 0) by (vm_compute; reflexivity).
  split; [exact H1 |]. split; [exact H2 |].
  destruct (commit_clears_flag_whatever_hal_returns Scenario.App STM32F103xB
              (Scenario.pending_state Scenario.failing_script) 0 H1 H2)
    as (R & M & _).
  split; [exact R | exact M].
Defined.

(** The flash holds the image that [init] itself synthesised; after [init]
    the mirror is that image again and nothing is pending, yet the FAT and
    root-directory pages are flagged dirty. *)
Lemma init_flags_pages_on_valid_image :
  init (Scenario.flashed []) 0 = Some (Scenario.running [])
  /\ disk_buffer (Scenario.running []) = Scenario.image
  /\ flash (Scenario.running []) = Scenario.image
  /\ pending_flash_write (Scenario.running []) = false
  /\ load (page_dirty_mask (Scenario.running [])) 0 = 1
  /\ load (page_dirty_mask (Scenario.running [])) 1 = 1.
Proof. split_all; vm_compute; reflexivity. Qed.

Lemma init_on_valid_image_witness :
  zlen (page_dirty_mask (Scenario.flashed [])) = sizeof_page_dirty_mask
  /\ find_file (disk_buffer (load_from_flash (Scenario.flashed []))) CONFIG_FILENAME
     = Some (FILE_SECTOR, 33, 0)
  /\ validate_file (load_from_flash (Scenario.flashed [])) FILE_SECTOR 0
     = Some (Scenario.running [], 0)
  /\ init (Scenario.flashed []) 7 = Some (Scenario.running [])
  /\ pending_flash_write (Scenario.running [])
     = pending_flash_write (Scenario.flashed [])
  /\ page_dirty_mask (Scenario.running []) = 1 :: 1 :: repeat 0 30.
Proof.
  assert (H1 : zlen (page_dirty_mask (Scenario.flashed [])) = sizeof_page_dirty_mask)
    by (vm_compute; reflexivity).
  assert (H2 : find_file (disk_buffer (load_from_flash (Scenario.flashed [])))
                 CONFIG_FILENAME = Some (FILE_SECTOR, 33, 0))
    by (vm_compute; reflexivity).
  assert (H3 : validate_file (load_from_flash (Scenario.flashed [])) FILE_SECTOR 0
               = Some (Scenario.running [], 0))
    by (vm_compute; reflexivity).
  split; [exact H1 |]. split; [exact H2 |]. split; [exact H3 |].
  destruct (init_on_valid_image Scenario.App (Scenario.flashed []) 7
              FILE_SECTOR 33 0 (Scenario.running []) H1 H2 H3)
    as (I & P & _ & _ & M).
  split; [exact I |]. split; [exact P | exact M].
Defined.

(** * Properties of the codec, the registry and the flash interface *)

(** ** Strings *)

Lemma load_cons_0 (c : Z) (l : list Z) : load (c :: l) 0 = c.
Proof. reflexivity. Qed.

Lemma load_cons_S (c : Z) (l : list Z) i :
  0 < i -> load (c :: l) i = load l (i - 1).
Proof.
  intros H. unfold load.
  replace (Z.to_nat i) with (S (Z.to_nat (i - 1))) by lia. reflexivity.
Qed.

Lemma strlen_cons c s : strlen (c :: s) = if c =? 0 then 0 else 1 + strlen s.
Proof. reflexivity. Qed.

Lemma find_comment_start_spec value : forall p,
  match find_comment_start value p with
  | Some q =>
      exists n, q = p + n /\ 0 <= n < strlen value /\ tab_hash_at value n
        /\ forall i, 0 <= i < n -> ~ tab_hash_at value i
  | None => forall i, 0 <= i < strlen value -> ~ tab_hash_at value i
  end.
Proof.
  unfold tab_hash_at.
  induction value as [| c value IH]; intros p.
  - cbn. intros i Hi. lia.
  - cbn [find_comment_start]. rewrite strlen_cons.
    destruct (Z.eqb_spec c 0) as [E0 | E0].
    + intros i Hi. lia.
    + pose proof (strlen_range value) as Hs.
      destruct ((c =? 9) && (hd 0 value =? 35)) eqn:Eth.
      * apply andb_prop in Eth. destruct Eth as [E1 E2].
        apply Z.eqb_eq in E1. apply Z.eqb_eq in E2.
        exists 0. split; [lia |]. split; [lia |]. split.
        -- split; [rewrite load_cons_0; exact E1 |].
           rewrite load_cons_S by lia. change (0 + 1 - 1) with 0.
           destruct value; exact E2.
        -- intros i Hi. lia.
      * assert (Hno : ~ (load (c :: value) 0 = 9 /\ load (c :: value) (0 + 1) = 35)).
        { intros [A B]. rewrite load_cons_0 in A.
          rewrite load_cons_S in B by lia. change (0 + 1 - 1) with 0 in B.
          assert (hd 0 value = 35) by (destruct value; exact B).
          subst c. rewrite H in Eth. cbn in Eth. discriminate. }
        specialize (IH (p + 1)).
        destruct (find_comment_start value (p + 1)) as [q |].
        -- destruct IH as (n & Hq & Hn & [A B] & Hfirst).
           exists (n + 1). split; [lia |]. split; [lia |]. split.
           ++ rewrite !load_cons_S by lia.
              replace (n + 1 - 1) with n by lia.
              replace (n + 1 + 1 - 1) with (n + 1) by lia. tauto.
           ++ intros i Hi. destruct (Z.eq_dec i 0) as [-> | Hi0]; [exact Hno |].
              rewrite !load_cons_S by lia.
              replace (i + 1 - 1) with (i - 1 + 1) by lia.
              apply Hfirst. lia.
        -- intros i Hi. destruct (Z.eq_dec i 0) as [-> | Hi0]; [exact Hno |].
           rewrite !load_cons_S by lia.
           replace (i + 1 - 1) with (i - 1 + 1) by lia.
           apply IH. lia.
Qed.

(** X1.  [find_comment_start] returns the offset of the first TAB that is
    immediately followed by '#' before the terminating NUL, and NULL
    exactly when the string holds no such pair. *)
Theorem find_comment_start_first_tab_hash (value : list Z) :
  (forall n, find_comment_start value 0 = Some n ->
     0 <= n < strlen value /\ tab_hash_at value n
     /\ forall i, 0 <= i < n -> ~ tab_hash_at value i)
  /\ (find_comment_start value 0 = None <->
      forall i, 0 <= i < strlen value -> ~ tab_hash_at value i).
Proof.
  pose proof (find_comment_start_spec value 0) as H.
  destruct (find_comment_start value 0) as [q |].
  - destruct H as (n & Hq & Hn & Ht & Hfirst). split.
    + intros n' E. injection E as <-. replace q with n by lia. tauto.
    + split; [discriminate |]. intros Hnone. exfalso.
      exact (Hnone n Hn Ht).
  - split; [discriminate |]. split; [intros _; exact H | reflexivity].
Qed.

Lemma memcpy_nil b off : 0 <= off <= zlen b -> memcpy b off [] = b.
Proof.
  intros H. unfold memcpy. cbn [length Datatypes.app]. rewrite Nat.add_0_r.
  apply firstn_skipn.
Qed.

Lemma memcpy_store_cons row j c l :
  0 <= j -> j + 1 + zlen l <= zlen row ->
  memcpy (store row j c) (j + 1) l = memcpy row j (c :: l).
Proof.
  intros Hj Hl.
  assert (L1 : length (store row j c) = length row) by (apply length_store; lia).
  apply bytes_ext.
  - rewrite !length_memcpy; cbn [length]; lia.
  - intros i Hi. rewrite length_memcpy in Hi by lia. rewrite L1 in Hi.
    destruct (Z_lt_dec i j) as [H1 | H1].
    + rewrite !load_memcpy_out by (cbn [length]; lia).
      apply load_store_other; lia.
    + destruct (Z.eq_dec i j) as [-> | H2].
      * rewrite load_memcpy_out by lia.
        rewrite load_memcpy_in by (cbn [length]; lia).
        rewrite Z.sub_diag. rewrite load_store_same by lia. reflexivity.
      * destruct (Z_lt_dec i (j + 1 + zlen l)) as [H3 | H3].
        -- rewrite !load_memcpy_in by (cbn [length]; lia).
           unfold load. replace (Z.to_nat (i - j)) with (S (Z.to_nat (i - (j + 1)))) by lia.
           reflexivity.
        -- rewrite !load_memcpy_out by (cbn [length]; lia).
           apply load_store_other; lia.
Qed.

Lemma scan_line_run line : forall row j tail,
  Forall line_byte line -> 0 <= j -> j + zlen line <= FILE_ROW_CNT - 1 ->
  zlen row = FILE_ROW_CNT ->
  scan_line (line ++ tail) row j
  = scan_line tail (memcpy row j line) (j + zlen line).
Proof.
  unfold FILE_ROW_CNT.
  induction line as [| c line IH]; intros row j tail Hall Hj Hfit Hrow.
  - cbn [app length]. rewrite memcpy_nil by lia. f_equal. lia.
  - inversion Hall as [| c' l' (H0 & H10 & H13) Hall']; subst.
    cbn [length] in Hfit.
    change ((c :: line) ++ tail) with (c :: (line ++ tail)).
    cbn [scan_line].
    rewrite (proj2 (Z.eqb_neq c 0)) by exact H0.
    rewrite (proj2 (Z.eqb_neq c 13)) by exact H13.
    rewrite (proj2 (Z.eqb_neq c 10)) by exact H10.
    unfold FILE_ROW_CNT.
    rewrite (proj2 (Z.ltb_lt j (2048 - 1))) by lia.
    rewrite IH; [| exact Hall' | lia | lia | rewrite length_store; lia].
    rewrite memcpy_store_cons by lia.
    f_equal. cbn [length]. lia.
Qed.

(** X2.  Line splitting in [validate_file]: a run of bytes free of NUL, LF
    and CR that fits a row is copied to the row; a following LF or CR LF is
    consumed and the scan goes on behind it, a following NUL ends the
    parse and is left in place. *)
Theorem scan_line_terminators (line rest row : list Z) :
  Forall line_byte line -> zlen line <= FILE_ROW_CNT - 1 ->
  zlen row = FILE_ROW_CNT ->
  scan_line (line ++ 10 :: rest) row 0
  = Some (memcpy row 0 line, zlen line, rest, false)
  /\ scan_line (line ++ 13 :: 10 :: rest) row 0
     = Some (memcpy row 0 line, zlen line, rest, false)
  /\ scan_line (line ++ 0 :: rest) row 0
     = Some (memcpy row 0 line, zlen line, 0 :: rest, true)
  /\ scan_line line row 0 = Some (memcpy row 0 line, zlen line, [], true).
Proof.
  intros Hall Hfit Hrow.
  repeat split.
  - rewrite scan_line_run by (assumption || lia). reflexivity.
  - rewrite scan_line_run by (assumption || lia). reflexivity.
  - rewrite scan_line_run by (assumption || lia). reflexivity.
  - rewrite <- (app_nil_r line) at 1.
    rewrite scan_line_run by (assumption || lia). reflexivity.
Qed.

Lemma length_cstr s : zlen (cstr s) = strlen s.
Proof.
  pose proof (strlen_range s). unfold cstr. apply length_slice; lia.
Qed.

Lemma zlen_app (a b : list Z) : zlen (a ++ b) = zlen a + zlen b.
Proof. rewrite length_app. lia. Qed.

Lemma memcpy_memcpy_app b off x y :
  0 <= off -> off + zlen x + zlen y <= zlen b ->
  memcpy (memcpy b off x) (off + zlen x) y = memcpy b off (x ++ y).
Proof.
  intros H0 H1.
  assert (L1 : length (memcpy b off x) = length b) by (apply length_memcpy; lia).
  apply bytes_ext.
  - rewrite !length_memcpy; rewrite ?length_app; lia.
  - intros i Hi. rewrite length_memcpy in Hi by lia. rewrite L1 in Hi.
    destruct (Z_lt_dec i off) as [A | A].
    + rewrite !load_memcpy_out by (rewrite ?length_app; lia). reflexivity.
    + destruct (Z_lt_dec i (off + zlen x)) as [B | B].
      * rewrite load_memcpy_out by lia.
        rewrite !load_memcpy_in by (rewrite ?length_app; lia).
        unfold load. rewrite app_nth1 by lia. reflexivity.
      * destruct (Z_lt_dec i (off + zlen x + zlen y)) as [C | C].
        -- rewrite !load_memcpy_in by (rewrite ?length_app; lia).
           unfold load. rewrite app_nth2 by lia. f_equal. lia.
        -- rewrite !load_memcpy_out by (rewrite ?length_app; lia). reflexivity.
Qed.

Lemma memcpy_three b m x y z lx ly :
  zlen x = lx -> zlen y = ly -> 0 <= m -> m + lx + ly + zlen z <= zlen b ->
  memcpy (memcpy (memcpy b m x) (m + lx) y) (m + lx + ly) z
  = memcpy b m (x ++ y ++ z).
Proof.
  intros <- <- Hm Hfit.
  rewrite (memcpy_memcpy_app b m x y) by lia.
  replace (m + zlen x + zlen y) with (m + zlen (x ++ y))
    by (rewrite ?zlen_app; lia).
  rewrite (memcpy_memcpy_app b m (x ++ y) z) by (rewrite ?zlen_app; lia).
  rewrite <- app_assoc. reflexivity.
Qed.

Section Rebuild.
Variable App : Type.
Implicit Types (es : list (FILE_ENTRY App)).

Lemma rebuild_loop_rendered es : forall k pb fcb m,
  zlen fcb = FILE_CHAR_CNT -> 0 <= m ->
  m + zlen (rendered es k pb) < FILE_CHAR_CNT - 1 ->
  rebuild_loop es k pb fcb m
  = (memcpy fcb m (rendered es k pb), m + zlen (rendered es k pb)).
Proof.
  unfold FILE_CHAR_CNT.
  induction es as [| e es IH]; intros k pb fcb m Hf Hm Hfit.
  - cbn [rebuild_loop rendered length]. rewrite memcpy_nil by lia.
    f_equal. lia.
  - rewrite rebuild_loop_cons. cbn [rendered] in *.
    destruct (registered e); cbv iota in Hfit |- *.
    + rewrite !zlen_app, !length_cstr in Hfit.
      pose proof (strlen_range (get_row pb k)) as R1.
      pose proof (strlen_range (comment e)) as R2.
      unfold FILE_CHAR_CNT.
      rewrite (proj2 (Z.ltb_lt _ _)) by lia.
      fold (cstr (get_row pb k)). fold (cstr (comment e)).
      rewrite IH; [| | lia | lia].
      * rewrite !zlen_app, !length_cstr.
        f_equal; [| lia].
        apply memcpy_three; rewrite ?length_cstr; lia.
      * rewrite !length_memcpy; rewrite ?length_cstr; try lia.
        rewrite length_memcpy; rewrite ?length_cstr; lia.
    + apply IH; assumption.
Qed.

(** X3.  The rebuild loop of [validate_file]: when the rendered lines and
    comments of the registered entries fit the content buffer, the buffer
    receives their concatenation in slot order from offset 0, [m] is its
    length, and the bytes behind it are left as they were. *)
Theorem rebuild_loop_concatenates es pb fcb :
  zlen fcb = FILE_CHAR_CNT ->
  zlen (rendered es 0 pb) < FILE_CHAR_CNT - 1 ->
  let '(fcb', m) := rebuild_loop es 0 pb fcb 0 in
  m = zlen (rendered es 0 pb)
  /\ slice fcb' 0 m = rendered es 0 pb
  /\ length fcb' = length fcb
  /\ forall i, m <= i -> load fcb' i = load fcb i.
Proof.
  intros Hf Hfit.
  rewrite rebuild_loop_rendered by (assumption || lia).
  unfold FILE_CHAR_CNT in *.
  cbn [Z.add]. split_all.
  - reflexivity.
  - apply slice_memcpy_same; lia.
  - apply length_memcpy; lia.
  - intros i Hi. apply load_memcpy_out; lia.
Qed.

End Rebuild.

(** ** Root-directory scans *)

Lemma scans_agree b fuel : forall i,
  match find_file_loop b CONFIG_FILENAME i fuel with
  | Some (p, len, n) =>
      i <= n < i + Z.of_nat fuel
      /\ get_config_start_cluster_loop b i fuel = le16 b (ROOT_SECTOR + 32 * n + 0x1A)
      /\ p = FILE_SECTOR + (le16 b (ROOT_SECTOR + 32 * n + 0x1A) - 2) * SECTOR_SIZE
      /\ len = le16 b (ROOT_SECTOR + 32 * n + 0x1C)
  | None => get_config_start_cluster_loop b i fuel = 0
  end.
Proof.
  induction fuel as [| fuel IH]; intros i.
  - reflexivity.
  - cbn [find_file_loop get_config_start_cluster_loop].
    destruct (bytes_eqb (Upper (slice b (ROOT_SECTOR + 32 * i) 11) 11)
                (slice CONFIG_FILENAME 0 11)).
    + split; [lia |]. split; [| split; reflexivity].
      unfold le16. do 3 f_equal. lia.
    + specialize (IH (i + 1)).
      destruct (find_file_loop b CONFIG_FILENAME (i + 1) fuel) as [[[p len] n] |].
      * destruct IH as (A & B & C & D). split; [lia |]. tauto.
      * exact IH.
Qed.

(** X4.  The write gate and the validator look at the same directory
    entry.  [get_config_start_cluster] and [find_file] stop at the same
    entry of the root directory, the first of the sixteen whose name is
    CONFIG.TXT apart from letter case: the cluster that the gate compares
    a data sector with is the one from which [find_file] computes the
    pointer it returns, and the gate reads 0 when [find_file] returns
    NULL. *)
Theorem config_cluster_is_find_file_cluster (b : list Z) :
  match find_file b CONFIG_FILENAME with
  | Some (p, len, n) =>
      0 <= n < 16
      /\ get_config_start_cluster b = le16 b (ROOT_SECTOR + 32 * n + 0x1A)
      /\ p = FILE_SECTOR + (get_config_start_cluster b - 2) * SECTOR_SIZE
      /\ len = le16 b (ROOT_SECTOR + 32 * n + 0x1C)
  | None => get_config_start_cluster b = 0
  end.
Proof.
  unfold find_file, get_config_start_cluster.
  pose proof (scans_agree b 16 0) as H.
  destruct (find_file_loop b CONFIG_FILENAME 0 16) as [[[p len] n] |].
  - destruct H as (A & B & C & D). rewrite B. split; [lia |]. tauto.
  - exact H.
Qed.

(** ** The registry *)

Lemma cstr_nonzero s : Forall (fun c => c <> 0) (cstr s).
Proof.
  unfold cstr, slice. cbn [Z.to_nat skipn].
  induction s as [| c s IH]; [constructor |].
  rewrite strlen_cons. destruct (Z.eqb_spec c 0) as [E | E].
  - constructor.
  - pose proof (strlen_range s).
    replace (Z.to_nat (1 + strlen s)) with (S (Z.to_nat (strlen s))) by lia.
    cbn [firstn]. constructor; assumption.
Qed.

Lemma strlen_prefix x y :
  Forall (fun c => c <> 0) x -> strlen (x ++ 0 :: y) = zlen x.
Proof.
  induction 1 as [| c x Hc Hx IH]; [reflexivity |].
  cbn [Datatypes.app]. rewrite strlen_cons.
  rewrite (proj2 (Z.eqb_neq c 0)) by exact Hc.
  rewrite IH. cbn [length]. lia.
Qed.

Lemma cstr_prefix x y : Forall (fun c => c <> 0) x -> cstr (x ++ 0 :: y) = x.
Proof.
  intros H. unfold cstr. rewrite strlen_prefix by exact H.
  unfold slice. cbn [Z.to_nat skipn]. rewrite Nat2Z.id.
  rewrite firstn_app, Nat.sub_diag, firstn_all. cbn [firstn].
  apply app_nil_r.
Qed.

Lemma padded_tail k n : exists y, firstn k (repeat 0 (S n)) ++ [0] = 0 :: y.
Proof.
  destruct k as [| k]; [exists []; reflexivity |].
  cbn [repeat firstn Datatypes.app]. eexists. reflexivity.
Qed.

(** [strncpy(dst, src, 63); dst[63] = 0] leaves in [dst] the first 63
    characters of the string [src]. *)
Lemma strncpy_label old entry_s :
  zlen old = MAX_ENTRY_LABEL_LENGTH ->
  let label :=
    store
      (memcpy old 0
         (slice (cstr entry_s ++ repeat 0 (Z.to_nat MAX_ENTRY_LABEL_LENGTH))
            0 (MAX_ENTRY_LABEL_LENGTH - 1)))
      (MAX_ENTRY_LABEL_LENGTH - 1) 0 in
  zlen label = MAX_ENTRY_LABEL_LENGTH
  /\ cstr label = slice (cstr entry_s) 0 (MAX_ENTRY_LABEL_LENGTH - 1).
Proof.
  unfold MAX_ENTRY_LABEL_LENGTH. intros Hold. cbv zeta.
  change (64 - 1) with 63.
  set (c := cstr entry_s).
  set (X := slice (c ++ repeat 0 (Z.to_nat 64)) 0 63).
  assert (LX : zlen X = 63).
  { unfold X. apply length_slice; try lia.
    rewrite zlen_app, repeat_length. lia. }
  assert (LM : length (memcpy old 0 X) = length old)
    by (apply length_memcpy; lia).
  assert (E : store (memcpy old 0 X) 63 0 = X ++ [0]).
  { apply bytes_ext.
    - rewrite length_store by lia. rewrite LM, length_app. cbn [length]. lia.
    - intros i Hi. rewrite length_store in Hi by lia. rewrite LM in Hi.
      destruct (Z.eq_dec i 63) as [-> | Hn].
      + rewrite load_store_same by lia.
        unfold load. rewrite app_nth2 by lia.
        replace (Z.to_nat 63 - length X)%nat with 0%nat by lia. reflexivity.
      + rewrite load_store_other by lia.
        rewrite load_memcpy_in by lia.
        unfold load. rewrite app_nth1 by lia. f_equal. lia. }
  rewrite E. split.
  - rewrite zlen_app. cbn [length]. lia.
  - unfold X, slice. cbn [Z.to_nat skipn].
    rewrite firstn_app.
    destruct (padded_tail (Pos.to_nat 63 - length c) 63) as [y Hy].
    rewrite <- app_assoc.
    change (Pos.to_nat 64) with 64%nat. rewrite Hy.
    apply cstr_prefix.
    pose proof (cstr_nonzero entry_s) as Hc. fold c in Hc.
    rewrite <- (firstn_skipn (Pos.to_nat 63) c) in Hc.
    apply Forall_app in Hc. tauto.
Qed.

(** [snprintf(dst, 64, "\t%s\r\n", comment)]. *)
Lemma snprintf_comment old comment_s :
  zlen old = MAX_ENTRY_COMMENT_LENGTH ->
  let cmt :=
    snprintf old 0 MAX_ENTRY_COMMENT_LENGTH ([9] ++ cstr comment_s ++ [13; 10]) in
  zlen cmt = MAX_ENTRY_COMMENT_LENGTH
  /\ cstr cmt
     = slice ([9] ++ cstr comment_s ++ [13; 10]) 0 (MAX_ENTRY_COMMENT_LENGTH - 1).
Proof.
  unfold MAX_ENTRY_COMMENT_LENGTH. intros Hold. cbv zeta.
  unfold snprintf. change (64 <=? 0) with false. cbv iota.
  change (64 - 1) with 63.
  set (text := [9] ++ cstr comment_s ++ [13; 10]).
  pose proof (length_slice_le text 0 63) as Hs.
  split.
  - rewrite length_memcpy; [exact Hold | lia |].
    rewrite zlen_app. cbn [length]. lia.
  - unfold memcpy. cbn [Z.to_nat firstn Datatypes.app]. rewrite <- app_assoc.
    cbn [Datatypes.app]. apply cstr_prefix.
    assert (Ht : Forall (fun c => c <> 0) text).
    { unfold text. apply Forall_app. split; [repeat constructor; lia |].
      apply Forall_app. split; [apply cstr_nonzero |].
      repeat constructor; lia. }
    unfold slice. cbn [Z.to_nat skipn].
    rewrite <- (firstn_skipn (Pos.to_nat 63) text) in Ht.
    apply Forall_app in Ht. tauto.
Qed.

Lemma get_unused_idx_loop_spec fuel : forall mask i,
  0 <= i ->
  match get_unused_idx_loop mask i fuel with
  | Some (k, um) =>
      i <= k < i + Z.of_nat fuel /\ Z.testbit mask k = false
      /\ (forall j, i <= j < k -> Z.testbit mask j = true)
      /\ um = Z.lor mask (Z.shiftl 1 k)
  | None => forall j, i <= j < i + Z.of_nat fuel -> Z.testbit mask j = true
  end.
Proof.
  induction fuel as [| fuel IH]; intros mask i Hi.
  - cbn [get_unused_idx_loop]. intros j Hj. lia.
  - cbn [get_unused_idx_loop].
    destruct (Z.testbit mask i) eqn:Eb.
    + specialize (IH mask (i + 1) ltac:(lia)).
      destruct (get_unused_idx_loop mask (i + 1) fuel) as [[k um] |].
      * destruct IH as (A & B & C & D). split; [lia |]. split; [exact B |].
        split; [| exact D].
        intros j Hj. destruct (Z.eq_dec j i) as [-> | N]; [exact Eb |].
        apply C. lia.
      * intros j Hj. destruct (Z.eq_dec j i) as [-> | N]; [exact Eb |].
        apply IH. lia.
    + split; [lia |]. split; [exact Eb |]. split; [| reflexivity].
      intros j Hj. lia.
Qed.

Lemma first_free_unique mask k k' :
  first_free mask k -> first_free mask k' -> k = k'.
Proof.
  intros (A & B & C) (A' & B' & C').
  destruct (Z_lt_dec k k') as [H | H].
  - specialize (C' k ltac:(lia)). congruence.
  - destruct (Z_lt_dec k' k) as [H' | H']; [| lia].
    specialize (C k' ltac:(lia)). congruence.
Qed.

Lemma testbit_set_bit mask k j :
  0 <= k -> 0 <= j ->
  Z.testbit (Z.lor mask (Z.shiftl 1 k)) j = Z.testbit mask j || (j =? k).
Proof.
  intros Hk Hj. rewrite Z.lor_spec. f_equal.
  rewrite Z.shiftl_spec by lia.
  destruct (Z.eqb_spec j k) as [-> | N].
  - rewrite Z.sub_diag. reflexivity.
  - remember (j - k) as d eqn:Ed.
    destruct d as [| p | p]; [lia | destruct p; reflexivity | reflexivity].
Qed.

Section Registry.
Variable App : Type.
Implicit Types (st : disk_state App).

(** X5.  [register_entry] takes the lowest free slot of the eight: it
    marks the slot used, stores the first 63 characters of the label and
    of the text TAB, comment, CR, LF as NUL-terminated strings in the
    64-byte arrays, stores the default pointer and the three handlers,
    and leaves the other slots and the rest of the state alone. *)
Theorem register_entry_takes_first_free_slot st k entry_s default_val
  comment_s validator updater printer :
  registry_shape (entries st) ->
  first_free (entry_usage_mask st) k ->
  exists st' e,
    register_entry st entry_s default_val comment_s validator updater printer
    = (st', true)
    /\ slot st' k = Some e
    /\ zlen (entry e) = MAX_ENTRY_LABEL_LENGTH
    /\ cstr (entry e) = slice (cstr entry_s) 0 (MAX_ENTRY_LABEL_LENGTH - 1)
    /\ zlen (comment e) = MAX_ENTRY_COMMENT_LENGTH
    /\ cstr (comment e)
       = slice ([9] ++ cstr comment_s ++ [13; 10]) 0
           (MAX_ENTRY_COMMENT_LENGTH - 1)
    /\ default_value e = default_val /\ validate e = validator
    /\ update e = updater /\ print e = printer
    /\ (forall j, 0 <= j -> j <> k -> slot st' j = slot st j)
    /\ registry_shape (entries st')
    /\ (forall j, 0 <= j ->
        Z.testbit (entry_usage_mask st') j
        = Z.testbit (entry_usage_mask st) j || (j =? k))
    /\ disk_buffer st' = disk_buffer st
    /\ page_dirty_mask st' = page_dirty_mask st
    /\ pending_flash_write st' = pending_flash_write st
    /\ flash st' = flash st /\ app st' = app st.
Proof.
  intros [Hn Hall] Hfree.
  unfold register_entry.
  pose proof (get_unused_idx_loop_spec (Z.to_nat FILE_ENTRY_CNT)
                (entry_usage_mask st) 0 ltac:(lia)) as Hspec.
  destruct (get_unused_idx_loop (entry_usage_mask st) 0 (Z.to_nat FILE_ENTRY_CNT))
    as [[idx um] |].
  2: { destruct Hfree as (A & B & C).
       rewrite Hspec in B by (unfold FILE_ENTRY_CNT in *; lia). discriminate. }
  destruct Hspec as (A & B & C & D).
  assert (idx = k).
  { apply (first_free_unique (entry_usage_mask st)); [| exact Hfree].
    unfold first_free. unfold FILE_ENTRY_CNT in *. split; [lia |].
    split; [exact B |]. intros j Hj. apply C. lia. }
  subst idx. unfold FILE_ENTRY_CNT in *.
  set (blank := {| entry := []; comment := []; default_value := None;
                   validate := None; update := None; print := None |}).
  set (old := nth (Z.to_nat k) (entries st) blank).
  assert (Hold : zlen (entry old) = MAX_ENTRY_LABEL_LENGTH
                 /\ zlen (comment old) = MAX_ENTRY_COMMENT_LENGTH).
  { rewrite Forall_forall in Hall. apply Hall. apply nth_In. lia. }
  destruct (strncpy_label (entry old) entry_s (proj1 Hold)) as [L1 L2].
  destruct (snprintf_comment (comment old) comment_s (proj2 Hold)) as [C1 C2].
  cbv zeta in L1, L2, C1, C2.
  eexists _, _. split; [reflexivity |].
  cbn [entries entry_usage_mask disk_buffer page_dirty_mask
       pending_flash_write flash app set_entries].
  assert (Lf : length (firstn (Z.to_nat k) (entries st)) = Z.to_nat k)
    by (rewrite length_firstn; lia).
  split.
  { unfold slot. cbn [entries set_entries].
    rewrite nth_error_app2 by lia.
    rewrite Lf, Nat.sub_diag. reflexivity. }
  cbn [entry comment default_value validate update print].
  split; [exact L1 |]. split; [exact L2 |].
  split; [exact C1 |]. split; [exact C2 |].
  split; [reflexivity |]. split; [reflexivity |].
  split; [reflexivity |]. split; [reflexivity |].
  split.
  { intros j Hj Hjk. unfold slot. cbn [entries set_entries].
    destruct (Z_lt_dec j k) as [Hlt | Hge].
    - rewrite nth_error_app1 by lia.
      rewrite nth_error_firstn.
      rewrite (proj2 (Nat.ltb_lt _ _)) by lia. reflexivity.
    - rewrite nth_error_app2 by lia. rewrite Lf.
      replace (Z.to_nat j - Z.to_nat k)%nat
        with (S (Z.to_nat j - Z.to_nat k - 1))%nat by lia.
      cbn [nth_error]. rewrite nth_error_skipn. f_equal. lia. }
  split.
  { split.
    - rewrite length_app, Lf. cbn [length]. rewrite length_skipn.
      unfold FILE_ENTRY_CNT. lia.
    - apply Forall_app.
      split; [apply Forall_firstn_skipn; exact Hall |].
      constructor; [cbn [entry comment]; split; assumption |].
      apply Forall_firstn_skipn; exact Hall. }
  split.
  { intros j Hj. rewrite D. apply testbit_set_bit; lia. }
  repeat split; reflexivity.
Qed.

(** X6.  With the eight slots taken [register_entry] returns false and
    changes nothing. *)
Theorem register_entry_full st entry_s default_val comment_s validator
  updater printer :
  (forall j, 0 <= j < FILE_ENTRY_CNT ->
     Z.testbit (entry_usage_mask st) j = true) ->
  register_entry st entry_s default_val comment_s validator updater printer
  = (st, false).
Proof.
  intros Hfull. unfold register_entry.
  pose proof (get_unused_idx_loop_spec (Z.to_nat FILE_ENTRY_CNT)
                (entry_usage_mask st) 0 ltac:(lia)) as Hspec.
  destruct (get_unused_idx_loop (entry_usage_mask st) 0 (Z.to_nat FILE_ENTRY_CNT))
    as [[idx um] |]; [| reflexivity].
  destruct Hspec as (A & B & _).
  rewrite Hfull in B by (unfold FILE_ENTRY_CNT in *; lia). discriminate.
Qed.

End Registry.

(** ** Sector writes *)

Section SectorWrites.
Variable App : Type.
Variable tgt : target.
Implicit Types (st : disk_state App).

Lemma write_frame_refl st : write_frame st st.
Proof. unfold write_frame. tauto. Qed.

Lemma bytes_eqb_false a b : bytes_eqb a b = false -> a <> b.
Proof.
  intros H E. apply bytes_eqb_eq in E. congruence.
Qed.

(** A call for one sector is one pass of the loop body. *)
Lemma write_sector_one st data s now :
  zlen data = SECTOR_SIZE -> 0 <= s < 4294967296 ->
  write_sector tgt st data s 1 now
  = (st' <- write_sector_body tgt st s data ;;
     Some (set_pending st' true now, 0)).
Proof.
  intros Hl Hs.
  unfold write_sector. unfold SECTOR_SIZE in *. rewrite Hl.
  change ((0 <=? 1) && (1 * 512 <=? sizeof_disk_buffer_temp) && (1 * 512 <=? 512))
    with true. cbv iota.
  change (1 * 512) with 512. rewrite (slice_all _ 512 Hl).
  change (Z.to_nat 1) with 1%nat. cbn [write_sector_loop].
  unfold u32. rewrite Z.add_0_r, Z.mod_small by lia.
  change (0 * SECTOR_SIZE) with 0. unfold SECTOR_SIZE.
  rewrite (slice_all _ 512 Hl).
  destruct (write_sector_body tgt st s data); reflexivity.
Qed.

Lemma write_sector_body_effect st s data :
  zlen (disk_buffer st) = sizeof_disk_buffer ->
  zlen (page_dirty_mask st) = sizeof_page_dirty_mask ->
  zlen data = SECTOR_SIZE -> labels_fit (entries st) ->
  exists st',
    write_sector_body tgt st s data = Some st'
    /\ write_frame st st' /\ sector_outcome st s data st'.
Proof.
  unfold sizeof_disk_buffer, sizeof_page_dirty_mask, SECTOR_SIZE.
  intros Hb Hm Hl Hfit.
  assert (Hsame : exists st',
            Some st = Some st' /\ write_frame st st'
            /\ (mirror_offset s = None -> sector_outcome st s data st')
            /\ (forall off, mirror_offset s = Some off ->
                data = slice (disk_buffer st) off SECTOR_SIZE ->
                sector_outcome st s data st')
            /\ (forall off, mirror_offset s = Some off -> 64 <= s ->
                write_rejected st s data = Some true ->
                sector_outcome st s data st')).
  { exists st. split; [reflexivity |]. split; [apply write_frame_refl |].
    split; [intros; apply sector_ignored; auto |].
    split; [intros; eapply sector_same; eauto |].
    intros; eapply sector_rejected; eauto. }
  destruct Hsame as (st0 & E0 & F0 & I0 & S0 & R0).
  injection E0 as <-.
  unfold write_sector_body.
  destruct (Z.leb_spec 8 s); destruct (Z.leb_spec s 19); cbn [andb].
  { destruct (Z.eqb_spec s 8) as [-> | N].
    - destruct (bytes_eqb data (slice (disk_buffer st) FAT1_SECTOR SECTOR_SIZE))
        eqn:Eq; cbn [negb].
      + exists st. split; [reflexivity |]. split; [exact F0 |].
        apply (S0 FAT1_SECTOR); [reflexivity |].
        apply bytes_eqb_eq. exact Eq.
      + eexists. split; [reflexivity |]. split.
        * unfold write_frame.
          cbn [flash hal_script entries entry_usage_mask app
               pending_flash_write last_write_tick disk_buffer page_dirty_mask
               set_page_dirty_mask set_disk_buffer].
          split_all; try reflexivity.
          -- apply length_memcpy; unfold FAT1_SECTOR; lia.
          -- apply length_store; lia.
        * apply (sector_stored _ _ _ _ FAT1_SECTOR); [reflexivity | | lia |].
          -- apply bytes_eqb_false. exact Eq.
          -- reflexivity.
    - exists st. split; [reflexivity |]. split; [exact F0 |].
      apply I0. unfold mirror_offset.
      destruct (Z.eqb_spec s 8); [lia |].
      destruct (Z.eqb_spec s 20); [lia |].
      destruct (Z.eqb_spec s 32); [lia |].
      destruct (Z.leb_spec 64 s); [lia |]. reflexivity. }
  2: { destruct (Z.leb_spec 20 s); [lia |].
       destruct (Z.leb_spec 32 s); [lia |].
       destruct (Z.leb_spec 64 s); [lia |]. cbn [andb].
       exists st. split; [reflexivity |]. split; [exact F0 |].
       apply I0. unfold mirror_offset.
       destruct (Z.eqb_spec s 8); [lia |].
       destruct (Z.eqb_spec s 20); [lia |].
       destruct (Z.eqb_spec s 32); [lia |].
       destruct (Z.leb_spec 64 s); [lia |]. reflexivity. }
  2: { destruct (Z.leb_spec 20 s); [lia |].
       destruct (Z.leb_spec 32 s); [lia |].
       destruct (Z.leb_spec 64 s); [lia |]. cbn [andb].
       exists st. split; [reflexivity |]. split; [exact F0 |].
       apply I0. unfold mirror_offset.
       destruct (Z.eqb_spec s 8); [lia |].
       destruct (Z.eqb_spec s 20); [lia |].
       destruct (Z.eqb_spec s 32); [lia |].
       destruct (Z.leb_spec 64 s); [lia |]. reflexivity. }
  destruct (Z.leb_spec 20 s); [| lia].
  destruct (Z.leb_spec s 31); cbn [andb].
  { destruct (Z.eqb_spec s 20) as [-> | N].
    - destruct (bytes_eqb data (slice (disk_buffer st) FAT2_SECTOR SECTOR_SIZE))
        eqn:Eq; cbn [negb].
      + exists st. split; [reflexivity |]. split; [exact F0 |].
        apply (S0 FAT2_SECTOR); [reflexivity |].
        apply bytes_eqb_eq. exact Eq.
      + eexists. split; [reflexivity |]. split.
        * unfold write_frame.
          cbn [flash hal_script entries entry_usage_mask app
               pending_flash_write last_write_tick disk_buffer page_dirty_mask
               set_page_dirty_mask set_disk_buffer].
          split_all; try reflexivity.
          -- apply length_memcpy; unfold FAT2_SECTOR; lia.
          -- apply length_store; lia.
        * apply (sector_stored _ _ _ _ FAT2_SECTOR); [reflexivity | | lia |].
          -- apply bytes_eqb_false. exact Eq.
          -- reflexivity.
    - exists st. split; [reflexivity |]. split; [exact F0 |].
      apply I0. unfold mirror_offset.
      destruct (Z.eqb_spec s 8); [lia |].
      destruct (Z.eqb_spec s 20); [lia |].
      destruct (Z.eqb_spec s 32); [lia |].
      destruct (Z.leb_spec 64 s); [lia |]. reflexivity. }
  destruct (Z.leb_spec 32 s); [| lia].
  destruct (Z.leb_spec s 63); cbn [andb].
  { destruct (Z.eqb_spec s 32) as [-> | N].
    - destruct (bytes_eqb data (slice (disk_buffer st) ROOT_SECTOR SECTOR_SIZE))
        eqn:Eq; cbn [negb].
      + exists st. split; [reflexivity |]. split; [exact F0 |].
        apply (S0 ROOT_SECTOR); [reflexivity |].
        apply bytes_eqb_eq. exact Eq.
      + cbv zeta.
        set (b' := memcpy (disk_buffer st) ROOT_SECTOR data).
        destruct (match scan_config_entry b' 0 16 with
                  | Some entry =>
                      (load b' (entry + 26),
                       u8 (Z.lor (load b' (entry + 28))
                             (Z.shiftl (load b' (entry + 29)) 8)), 1)
                  | None => (Config_flag st, 0, txt_flag st)
                  end) as [[cf fs] tf].
        assert (Lb : length b' = length (disk_buffer st))
          by (apply length_memcpy; unfold ROOT_SECTOR; lia).
        assert (L1 : length (store (page_dirty_mask st) 1 1)
                     = length (page_dirty_mask st))
          by (apply length_store; lia).
        destruct ((fs =? 0) && (tf =? 1)).
        * eexists. split; [reflexivity |]. split.
          -- unfold write_frame.
             cbn [flash hal_script entries entry_usage_mask app
                  pending_flash_write last_write_tick disk_buffer
                  page_dirty_mask set_page_dirty_mask set_disk_buffer
                  set_flags].
             split_all; try reflexivity; [exact Lb |].
             rewrite !length_store; rewrite ?length_store; lia.
          -- apply (sector_stored _ _ _ _ ROOT_SECTOR); [reflexivity | | lia |].
             ++ apply bytes_eqb_false. exact Eq.
             ++ reflexivity.
        * eexists. split; [reflexivity |]. split.
          -- unfold write_frame.
             cbn [flash hal_script entries entry_usage_mask app
                  pending_flash_write last_write_tick disk_buffer
                  page_dirty_mask set_page_dirty_mask set_disk_buffer
                  set_flags].
             split_all; try reflexivity; [exact Lb |].
             rewrite !length_store; rewrite ?length_store; lia.
          -- apply (sector_stored _ _ _ _ ROOT_SECTOR); [reflexivity | | lia |].
             ++ apply bytes_eqb_false. exact Eq.
             ++ reflexivity.
    - exists st. split; [reflexivity |]. split; [exact F0 |].
      apply I0. unfold mirror_offset.
      destruct (Z.eqb_spec s 8); [lia |].
      destruct (Z.eqb_spec s 20); [lia |].
      destruct (Z.eqb_spec s 32); [lia |].
      destruct (Z.leb_spec 64 s); [lia |]. reflexivity. }
  destruct (Z.leb_spec 64 s); [| lia].
  destruct (Z.ltb_spec s SECTOR_CNT); cbn [andb].
  2: { exists st. split; [reflexivity |]. split; [exact F0 |].
       apply I0. unfold mirror_offset, FILE_SECTOR_SIZE, SECTOR_CNT in *.
       destruct (Z.eqb_spec s 8); [lia |].
       destruct (Z.eqb_spec s 20); [lia |].
       destruct (Z.eqb_spec s 32); [lia |].
       destruct (Z.leb_spec 64 s); [| lia].
       destruct (Z.leb_spec ((s - 64) * 512 + 512) (16384 - 1536)); [lia |].
       reflexivity. }
  unfold FILE_SECTOR_SIZE, SECTOR_SIZE in *.
  destruct (Z.ltb_spec (16384 - 1536) ((s - 64) * 512 + 512)).
  { exists st. split; [reflexivity |]. split; [exact F0 |].
    apply I0. unfold mirror_offset, FILE_SECTOR_SIZE.
    destruct (Z.eqb_spec s 8); [lia |].
    destruct (Z.eqb_spec s 20); [lia |].
    destruct (Z.eqb_spec s 32); [lia |].
    destruct (Z.leb_spec 64 s); [| lia].
    destruct (Z.leb_spec ((s - 64) * 512 + 512) (16384 - 1536)); [lia |].
    reflexivity. }
  assert (Hoff : mirror_offset s = Some (FILE_SECTOR + (s - 64) * 512)).
  { unfold mirror_offset, FILE_SECTOR_SIZE.
    destruct (Z.eqb_spec s 8); [lia |].
    destruct (Z.eqb_spec s 20); [lia |].
    destruct (Z.eqb_spec s 32); [lia |].
    destruct (Z.leb_spec 64 s); [| lia].
    destruct (Z.leb_spec ((s - 64) * 512 + 512) (16384 - 1536)); [| lia].
    reflexivity. }
  destruct (write_rejected_defined App st s data Hb Hl Hfit) as [r Hr].
  rewrite Hr. rewrite bind_Some; cbv beta.
  destruct r.
  { exists st. split; [reflexivity |]. split; [exact F0 |].
    eapply R0; [exact Hoff | lia | exact Hr]. }
  destruct (bytes_eqb data
              (slice (disk_buffer st) (FILE_SECTOR + (s - 64) * 512) 512))
    eqn:Eq; cbn [negb].
  - exists st. split; [reflexivity |]. split; [exact F0 |].
    apply (S0 _ Hoff). apply bytes_eqb_eq. exact Eq.
  - eexists. split; [reflexivity |]. split.
    + unfold write_frame.
      cbn [flash hal_script entries entry_usage_mask app
           pending_flash_write last_write_tick disk_buffer page_dirty_mask
           set_page_dirty_mask set_disk_buffer].
      split_all; try reflexivity.
      * apply length_memcpy; unfold FILE_SECTOR; lia.
      * apply length_store.
        destruct tgt; unfold FLASH_PAGE_SIZE; zdiv.
    + apply (sector_stored _ _ _ _ _ Hoff).
      * apply bytes_eqb_false. exact Eq.
      * intros _. exact Hr.
      * reflexivity.
Qed.

End SectorWrites.

Section SectorWriteProperties.
Variable App : Type.
Variable tgt : target.
Implicit Types (st : disk_state App).

Lemma mirror_offset_range s off :
  mirror_offset s = Some off ->
  0 <= off /\ off + SECTOR_SIZE <= sizeof_disk_buffer /\ s <> 0.
Proof.
  unfold mirror_offset, FILE_SECTOR_SIZE, SECTOR_SIZE, sizeof_disk_buffer,
    FAT1_SECTOR, FAT2_SECTOR, ROOT_SECTOR, FILE_SECTOR.
  destruct (Z.eqb_spec s 8); [intros [= <-]; lia |].
  destruct (Z.eqb_spec s 20); [intros [= <-]; lia |].
  destruct (Z.eqb_spec s 32); [intros [= <-]; lia |].
  destruct (Z.leb_spec 64 s); unfold andb; cbv iota; [| discriminate].
  destruct (Z.leb_spec ((s - 64) * 512 + 512) (16384 - 1536));
    [| discriminate].
  intros E. assert (off = 1536 + (s - 64) * 512) by congruence. lia.
Qed.

Lemma sector_view_mirror st s off :
  mirror_offset s = Some off ->
  sector_view st s = slice (disk_buffer st) off SECTOR_SIZE.
Proof.
  intros H. pose proof (mirror_offset_range s off H) as (_ & _ & Hs).
  revert H. unfold mirror_offset, sector_view.
  destruct (Z.eqb_spec s 0); [lia |].
  destruct (s =? 8); [intros [= <-]; reflexivity |].
  destruct (s =? 20); [intros [= <-]; reflexivity |].
  destruct (s =? 32); [intros [= <-]; reflexivity |].
  destruct ((64 <=? s) && ((s - 64) * 512 + 512 <=? FILE_SECTOR_SIZE));
    [intros [= <-]; reflexivity | discriminate].
Qed.

(** X7.  Sectors that are not mirrored (the boot and reserved sectors,
    the FAT and root-directory sectors after the first of each, the data
    sectors behind the file region and everything from [SECTOR_CNT] on)
    are accepted and dropped: the call reports success and only arms the
    deferred commit. *)
Theorem write_sector_drops_unmapped_sectors st data s now :
  zlen data = SECTOR_SIZE -> 0 <= s < 4294967296 ->
  s <> 8 -> s <> 20 -> s <> 32 -> ~ 64 <= s <= 92 ->
  write_sector tgt st data s 1 now = Some (set_pending st true now, 0).
Proof.
  intros Hl Hs H8 H20 H32 Hdata.
  rewrite write_sector_one by assumption.
  assert (E : write_sector_body tgt st s data = Some st).
  { unfold write_sector_body, FILE_SECTOR_SIZE, SECTOR_SIZE, SECTOR_CNT.
    destruct (Z.eqb_spec s 8); [lia |].
    destruct (Z.eqb_spec s 20); [lia |].
    destruct (Z.eqb_spec s 32); [lia |].
    destruct ((8 <=? s) && (s <=? 19)); [reflexivity |].
    destruct ((20 <=? s) && (s <=? 31)); [reflexivity |].
    destruct ((32 <=? s) && (s <=? 63)); [reflexivity |].
    destruct ((64 <=? s) && (s <? 4096)) eqn:E; [| reflexivity].
    apply andb_prop in E. destruct E as [E1 E2].
    apply Z.leb_le in E1.
    destruct (Z.ltb_spec (16384 - 1536) ((s - 64) * 512 + 512));
      [reflexivity | lia]. }
  rewrite E. reflexivity.
Qed.

(** X8.  A one-sector [write_sector] on a well-formed device always
    succeeds, sets the pending flag and records the tick; it never
    touches the flash, the registry or the handlers' state, keeps the
    sizes of the mirror and of the flag array, and changes no byte of the
    mirror outside the 512 bytes that mirror the sector written. *)
Theorem write_sector_touches_one_sector st data s now :
  zlen (disk_buffer st) = sizeof_disk_buffer ->
  zlen (page_dirty_mask st) = sizeof_page_dirty_mask ->
  zlen data = SECTOR_SIZE -> labels_fit (entries st) ->
  0 <= s < 4294967296 ->
  exists st',
    write_sector tgt st data s 1 now = Some (st', 0)
    /\ pending_flash_write st' = true /\ last_write_tick st' = now
    /\ flash st' = flash st /\ hal_script st' = hal_script st
    /\ entries st' = entries st
    /\ entry_usage_mask st' = entry_usage_mask st
    /\ app st' = app st
    /\ length (disk_buffer st') = length (disk_buffer st)
    /\ length (page_dirty_mask st') = length (page_dirty_mask st)
    /\ forall k, 0 <= k ->
         (forall off, mirror_offset s = Some off ->
            k < off \/ off + SECTOR_SIZE <= k) ->
         load (disk_buffer st') k = load (disk_buffer st) k.
Proof.
  intros Hb Hm Hl Hfit Hs.
  rewrite write_sector_one by assumption.
  destruct (write_sector_body_effect App tgt st s data Hb Hm Hl Hfit)
    as (st1 & E & (F1 & F2 & F3 & F4 & F5 & F6 & F7 & F8 & F9) & Hout).
  rewrite E. rewrite bind_Some; cbv beta.
  eexists. split; [reflexivity |].
  cbn [pending_flash_write last_write_tick flash hal_script entries
       entry_usage_mask app disk_buffer page_dirty_mask set_pending].
  split_all; try assumption; try reflexivity.
  intros k Hk Hoff.
  destruct Hout as [_ -> | off _ _ -> | off _ _ _ -> | off Ho _ _ ->];
    try reflexivity.
  pose proof (mirror_offset_range s off Ho) as (R1 & R2 & _).
  unfold sizeof_disk_buffer, SECTOR_SIZE in *.
  apply load_memcpy_out; try lia.
  rewrite Hl. exact (Hoff off Ho).
Qed.

(** X9.  Read after write: a sector of the first FAT, second FAT or root
    directory, and a data sector that the write gate lets through, reads
    back as the 512 bytes just written; a data sector that the gate
    rejects reads back as before. *)
Theorem read_after_write st data s now :
  zlen (disk_buffer st) = sizeof_disk_buffer ->
  zlen (page_dirty_mask st) = sizeof_page_dirty_mask ->
  zlen data = SECTOR_SIZE -> labels_fit (entries st) ->
  0 <= s < 4294967296 ->
  exists st',
    write_sector tgt st data s 1 now = Some (st', 0)
    /\ (s = 8 \/ s = 20 \/ s = 32
        \/ (64 <= s <= 92 /\ write_rejected st s data = Some false) ->
        snd (read_sector st' s) = data)
    /\ (64 <= s <= 92 -> write_rejected st s data = Some true ->
        snd (read_sector st' s) = snd (read_sector st s)).
Proof.
  intros Hb Hm Hl Hfit Hs.
  rewrite write_sector_one by assumption.
  destruct (write_sector_body_effect App tgt st s data Hb Hm Hl Hfit)
    as (st1 & E & _ & Hout).
  rewrite E. rewrite bind_Some; cbv beta.
  eexists. split; [reflexivity |].
  rewrite !read_sector_view. cbn [snd].
  assert (V : forall x : disk_state App,
            sector_view (set_pending x true now) s = sector_view x s)
    by reflexivity.
  rewrite V.
  split.
  - intros Hcase.
    assert (exists off, mirror_offset s = Some off) as [off Ho].
    { unfold mirror_offset, FILE_SECTOR_SIZE.
      destruct Hcase as [-> | [-> | [-> | [Hr _]]]];
        try (eexists; reflexivity).
      destruct (Z.eqb_spec s 8); [lia |].
      destruct (Z.eqb_spec s 20); [lia |].
      destruct (Z.eqb_spec s 32); [lia |].
      destruct (Z.leb_spec 64 s); [| lia].
      destruct (Z.leb_spec ((s - 64) * 512 + 512) (16384 - 1536)); [| lia].
      eexists. reflexivity. }
    pose proof (mirror_offset_range s off Ho) as (R1 & R2 & _).
    rewrite (sector_view_mirror st1 s off Ho).
    destruct Hout as [Hn _ | off' Ho' Hd -> | off' Ho' H64 Hrej _
                      | off' Ho' _ _ Hbuf].
    + congruence.
    + congruence.
    + exfalso. destruct Hcase as [-> | [-> | [-> | [_ Hacc]]]];
        try lia. congruence.
    + rewrite Hbuf. replace off' with off by congruence.
      unfold sizeof_disk_buffer, SECTOR_SIZE in *.
      transitivity (slice (memcpy (disk_buffer st) off data) off (zlen data));
        [rewrite Hl; reflexivity | apply slice_memcpy_same; lia].
  - intros H64 Hrej.
    destruct Hout as [_ -> | off' _ _ -> | off' _ _ _ ->
                      | off' _ _ Hacc _]; try reflexivity.
    rewrite Hacc in Hrej by lia. discriminate.
Qed.

End SectorWriteProperties.

(** ** Flash contents after a commit *)

Lemma is_bytes_load b i : is_bytes b -> 0 <= load b i < 256.
Proof.
  intros H. unfold load.
  destruct (Nat.lt_ge_cases (Z.to_nat i) (length b)) as [Hlt | Hge].
  - unfold is_bytes in H. rewrite Forall_forall in H.
    apply H. apply nth_In. exact Hlt.
  - rewrite nth_overflow by exact Hge. lia.
Qed.

Lemma land_255 x : Z.land x 0xFF = x mod 256.
Proof. change 0xFF with (Z.ones 8). apply Z.land_ones. lia. Qed.

Lemma le16_low b o : is_bytes b -> Z.land (le16 b o) 0xFF = load b o.
Proof.
  intros H. unfold le16. rewrite land_255.
  apply (u8_lor_shift (load b o) (load b (o + 1))).
  apply is_bytes_load. exact H.
Qed.

Lemma le16_high b o :
  is_bytes b -> Z.land (Z.shiftr (le16 b o) 8) 0xFF = load b (o + 1).
Proof.
  intros H. unfold le16.
  pose proof (is_bytes_load b o H) as H0.
  pose proof (is_bytes_load b (o + 1) H) as H1.
  rewrite Z.shiftr_lor, Z.shiftr_shiftl_l by lia.
  rewrite Z.sub_diag, Z.shiftl_0_r.
  rewrite Z.shiftr_div_pow2 by lia.
  change (2 ^ 8) with 256. rewrite Z.div_small by lia.
  rewrite Z.lor_0_l, land_255. apply Z.mod_small. lia.
Qed.

Lemma hal_next_ok s :
  hal_ok s -> fst (hal_next s) = HAL_OK /\ hal_ok (snd (hal_next s)).
Proof.
  intros H. destruct H as [| x r Hx Hr]; cbn [hal_next fst snd].
  - split; [reflexivity | constructor].
  - split; assumption.
Qed.

Section FlashFacts.
Variable App : Type.
Implicit Types (st : disk_state App).

(** One successful halfword: the two bytes of the mirror at [o] are in
    flash at [o]. *)
Lemma write_flash_halfword_ok st o :
  hal_ok (hal_script st) -> is_bytes (disk_buffer st) ->
  0 <= o -> o + 2 <= zlen (flash st) ->
  let r := write_flash_halfword st o (le16 (disk_buffer st) o) in
  snd r = HAL_OK /\ hal_ok (hal_script (fst r))
  /\ same_ram st (fst r)
  /\ length (flash (fst r)) = length (flash st)
  /\ load (flash (fst r)) o = load (disk_buffer st) o
  /\ load (flash (fst r)) (o + 1) = load (disk_buffer st) (o + 1)
  /\ forall k, 0 <= k -> k < o \/ o + 2 <= k ->
       load (flash (fst r)) k = load (flash st) k.
Proof.
  intros Hs Hb Ho Hf. cbv zeta.
  unfold write_flash_halfword, HAL_FLASH_Program.
  destruct (hal_next_ok _ Hs) as [E1 E2].
  destruct (hal_next (hal_script st)) as [s r]. cbn [fst snd] in *.
  subst s. cbn [is_HAL_OK flash hal_script set_flash].
  rewrite le16_low, le16_high by exact Hb.
  split; [reflexivity |]. split; [exact E2 |].
  split; [apply same_ram_set_flash |].
  split; [apply length_memcpy; cbn [length]; lia |].
  split; [rewrite load_memcpy_in by (cbn [length]; lia);
          rewrite Z.sub_diag; reflexivity |].
  split; [rewrite load_memcpy_in by (cbn [length]; lia);
          replace (o + 1 - o) with 1 by lia; reflexivity |].
  intros k Hk Hout. apply load_memcpy_out; cbn [length]; lia.
Qed.

Lemma program_loop_flash fuel : forall st base j,
  hal_ok (hal_script st) -> is_bytes (disk_buffer st) ->
  0 <= base + j -> base + j + 2 * Z.of_nat fuel <= zlen (flash st) ->
  let st' := program_loop st base j fuel in
  hal_ok (hal_script st')
  /\ length (flash st') = length (flash st)
  /\ (forall k, base + j <= k < base + j + 2 * Z.of_nat fuel ->
      load (flash st') k = load (disk_buffer st) k)
  /\ (forall k, 0 <= k -> k < base + j \/ base + j + 2 * Z.of_nat fuel <= k ->
      load (flash st') k = load (flash st) k).
Proof.
  induction fuel as [| fuel IH]; intros st base j Hs Hb H0 Hf; cbv zeta.
  - cbn [program_loop]. split; [exact Hs |]. split; [reflexivity |].
    split; [intros k Hk; lia | intros; reflexivity].
  - cbn [program_loop].
    destruct (write_flash_halfword_ok st (base + j) Hs Hb H0 ltac:(lia))
      as (_ & W2 & W3 & W4 & W5 & W6 & W7).
    destruct (write_flash_halfword st (base + j)
                (le16 (disk_buffer st) (base + j))) as [st1 r1].
    cbn [fst snd] in *.
    assert (Eb : disk_buffer st1 = disk_buffer st) by apply W3.
    specialize (IH st1 base (j + 2) W2).
    rewrite Eb, W4 in IH.
    specialize (IH Hb ltac:(lia) ltac:(lia)). cbv zeta in IH.
    destruct IH as (I1 & I2 & I3 & I4).
    split; [exact I1 |]. split; [exact I2 |]. split.
    + intros k Hk.
      destruct (Z_lt_dec k (base + j + 2)) as [Hlt | Hge].
      * rewrite I4 by lia.
        destruct (Z.eq_dec k (base + j)) as [-> | Hne]; [exact W5 |].
        replace k with (base + j + 1) by lia. exact W6.
      * apply I3. lia.
    + intros k Hk Hout. rewrite I4 by lia. apply W7; lia.
Qed.

Lemma program_checked_loop_flash fuel : forall st i,
  hal_ok (hal_script st) -> is_bytes (disk_buffer st) ->
  0 <= i -> i + 2 * Z.of_nat fuel <= zlen (flash st) ->
  let r := program_checked_loop st i fuel in
  snd r = HAL_OK /\ hal_ok (hal_script (fst r))
  /\ same_ram st (fst r)
  /\ length (flash (fst r)) = length (flash st)
  /\ (forall k, i <= k < i + 2 * Z.of_nat fuel ->
      load (flash (fst r)) k = load (disk_buffer st) k)
  /\ (forall k, 0 <= k -> k < i \/ i + 2 * Z.of_nat fuel <= k ->
      load (flash (fst r)) k = load (flash st) k).
Proof.
  induction fuel as [| fuel IH]; intros st i Hs Hb H0 Hf; cbv zeta.
  - cbn [program_checked_loop fst snd]. split; [reflexivity |].
    split; [exact Hs |]. split; [apply same_ram_refl |].
    split; [reflexivity |].
    split; [intros k Hk; lia | intros; reflexivity].
  - cbn [program_checked_loop].
    destruct (write_flash_halfword_ok st i Hs Hb H0 ltac:(lia))
      as (W1 & W2 & W3 & W4 & W5 & W6 & W7).
    destruct (write_flash_halfword st i (le16 (disk_buffer st) i))
      as [st1 r1].
    cbn [fst snd] in *. subst r1. cbn [is_HAL_OK].
    assert (Eb : disk_buffer st1 = disk_buffer st) by apply W3.
    specialize (IH st1 (i + 2) W2).
    rewrite Eb, W4 in IH.
    specialize (IH Hb ltac:(lia) ltac:(lia)). cbv zeta in IH.
    destruct IH as (I0 & I1 & I1' & I2 & I3 & I4).
    split; [exact I0 |]. split; [exact I1 |].
    split; [eapply same_ram_trans; [exact W3 | exact I1'] |].
    split; [exact I2 |]. split.
    + intros k Hk.
      destruct (Z_lt_dec k (i + 2)) as [Hlt | Hge].
      * rewrite I4 by lia.
        destruct (Z.eq_dec k i) as [-> | Hne]; [exact W5 |].
        replace k with (i + 1) by lia. exact W6.
      * apply I3. lia.
    + intros k Hk Hout. rewrite I4 by lia. apply W7; lia.
Qed.

(** A successful erase: 0xFF in the erased unit, the rest as it was. *)
Lemma HAL_FLASHEx_Erase_ok st start len :
  hal_ok (hal_script st) -> 0 <= start -> 0 <= len ->
  start + len <= zlen (flash st) ->
  let r := HAL_FLASHEx_Erase st start len in
  snd r = HAL_OK /\ hal_ok (hal_script (fst r))
  /\ same_ram st (fst r)
  /\ length (flash (fst r)) = length (flash st)
  /\ (forall k, start <= k < start + len -> load (flash (fst r)) k = 0xFF)
  /\ (forall k, 0 <= k -> k < start \/ start + len <= k ->
      load (flash (fst r)) k = load (flash st) k).
Proof.
  intros Hs H0 H1 Hf. cbv zeta. unfold HAL_FLASHEx_Erase.
  destruct (hal_next_ok _ Hs) as [E1 E2].
  destruct (hal_next (hal_script st)) as [s r]. cbn [fst snd] in *.
  subst s. cbn [is_HAL_OK flash hal_script set_flash].
  split; [reflexivity |]. split; [exact E2 |].
  split; [apply same_ram_set_flash |].
  split; [apply length_memset; lia |].
  split; [intros k Hk; apply load_memset_in; lia |].
  intros k Hk Hout. apply load_memset_out; lia.
Qed.

(** Whatever the HAL answers, a halfword program changes at most its
    two bytes. *)
Lemma write_flash_halfword_frame st o data :
  0 <= o -> o + 2 <= zlen (flash st) ->
  let st' := fst (write_flash_halfword st o data) in
  length (flash st') = length (flash st)
  /\ forall k, 0 <= k -> k < o \/ o + 2 <= k ->
       load (flash st') k = load (flash st) k.
Proof.
  intros Ho Hf. cbv zeta. unfold write_flash_halfword, HAL_FLASH_Program.
  destruct (hal_next (hal_script st)) as [s r].
  cbn [fst flash set_flash].
  destruct (is_HAL_OK s); [| split; [reflexivity | intros; reflexivity]].
  split; [apply length_memcpy; cbn [length]; lia |].
  intros k Hk Hout. apply load_memcpy_out; cbn [length]; lia.
Qed.

Lemma program_loop_frame fuel : forall st base j,
  0 <= base + j -> base + j + 2 * Z.of_nat fuel <= zlen (flash st) ->
  let st' := program_loop st base j fuel in
  length (flash st') = length (flash st)
  /\ forall k, 0 <= k -> k < base + j \/ base + j + 2 * Z.of_nat fuel <= k ->
       load (flash st') k = load (flash st) k.
Proof.
  induction fuel as [| fuel IH]; intros st base j H0 Hf; cbv zeta.
  - cbn [program_loop]. split; [reflexivity | intros; reflexivity].
  - cbn [program_loop].
    destruct (write_flash_halfword_frame st (base + j)
                (le16 (disk_buffer st) (base + j)) H0 ltac:(lia))
      as (W1 & W2).
    destruct (write_flash_halfword st (base + j)
                (le16 (disk_buffer st) (base + j))) as [st1 r1].
    cbn [fst] in *.
    specialize (IH st1 base (j + 2) ltac:(lia)).
    rewrite W1 in IH. specialize (IH ltac:(lia)). cbv zeta in IH.
    destruct IH as (I1 & I2).
    split; [exact I1 |].
    intros k Hk Hout. rewrite I2 by lia. apply W2; lia.
Qed.

Lemma HAL_FLASHEx_Erase_frame st start len :
  0 <= start -> 0 <= len -> start + len <= zlen (flash st) ->
  let st' := fst (HAL_FLASHEx_Erase st start len) in
  length (flash st') = length (flash st)
  /\ forall k, 0 <= k -> k < start \/ start + len <= k ->
       load (flash st') k = load (flash st) k.
Proof.
  intros H0 H1 Hf. cbv zeta. unfold HAL_FLASHEx_Erase.
  destruct (hal_next (hal_script st)) as [s r].
  cbn [fst flash set_flash].
  destruct (is_HAL_OK s); [| split; [reflexivity | intros; reflexivity]].
  split; [apply length_memset; lia |].
  intros k Hk Hout. apply load_memset_out; lia.
Qed.

End FlashFacts.

Lemma memcpy_whole (b src : list Z) :
  length src = length b -> memcpy b 0 src = src.
Proof.
  intros H. unfold memcpy. cbn [Z.to_nat firstn Datatypes.app Nat.add].
  rewrite H, skipn_all. apply app_nil_r.
Qed.

Section CommitContents.
Variable App : Type.
Implicit Types (st : disk_state App).

(** Whatever the HAL answers, the F1 commit changes no flash byte
    outside the page it handles. *)
Lemma commit_first_dirty_page_frame st i :
  sizeof_disk_buffer <= zlen (flash st) ->
  first_dirty (page_dirty_mask st) 0 16 = Some i ->
  let st' := fst (rewrite_dirty_flash_pages STM32F103xB st) in
  let page := i * FLASH_PAGE_SIZE STM32F103xB in
  length (flash st') = length (flash st)
  /\ forall k, 0 <= k ->
       k < page \/ page + FLASH_PAGE_SIZE STM32F103xB <= k ->
       load (flash st') k = load (flash st) k.
Proof.
  intros Hf Hd. cbv zeta.
  pose proof (first_dirty_range _ _ _ _ Hd) as Hi.
  change (Z.of_nat 16) with 16 in Hi.
  unfold rewrite_dirty_flash_pages, HAL_FLASH_Unlock, HAL_FLASH_Lock.
  destruct (hal_next (hal_script st)) as [s0 r0].
  set (st1 := set_flash st (flash st) r0).
  change (page_dirty_mask st1) with (page_dirty_mask st). rewrite Hd.
  set (sta := set_page_dirty_mask st1 (store (page_dirty_mask st) i 0)).
  unfold erase_flash_page, FLASH_PAGE_SIZE, sizeof_disk_buffer in *.
  destruct (HAL_FLASHEx_Erase_frame App sta (i * 1024) 1024
              ltac:(lia) ltac:(lia)
              ltac:(cbn [flash sta st1 set_flash set_page_dirty_mask]; lia))
    as (A1 & A2).
  destruct (HAL_FLASHEx_Erase sta (i * 1024) 1024) as [stb sb].
  cbn [fst] in *.
  change (flash sta) with (flash st) in *.
  change (1024 / 2) with 512.
  pose proof (program_loop_frame App (Z.to_nat 512) stb (i * 1024) 0
                ltac:(lia)) as P.
  rewrite A1, Z2Nat.id in P by lia.
  specialize (P ltac:(lia)). cbv zeta in P.
  set (stc := program_loop stb (i * 1024) 0 (Z.to_nat 512)) in *.
  clearbody stc.
  destruct P as (P1 & P2).
  destruct (hal_next (hal_script stc)) as [s3 r3].
  cbn [fst flash set_flash].
  split; [exact P1 |].
  intros k Hk Hout. rewrite P2 by lia. apply A2; lia.
Qed.

(** With a working HAL the F1 commit leaves the bytes of the first dirty
    page of the mirror in flash. *)
Lemma commit_first_dirty_page_content st i :
  hal_ok (hal_script st) -> is_bytes (disk_buffer st) ->
  sizeof_disk_buffer <= zlen (flash st) ->
  first_dirty (page_dirty_mask st) 0 16 = Some i ->
  let st' := fst (rewrite_dirty_flash_pages STM32F103xB st) in
  let page := i * FLASH_PAGE_SIZE STM32F103xB in
  forall k, page <= k < page + FLASH_PAGE_SIZE STM32F103xB ->
    load (flash st') k = load (disk_buffer st) k.
Proof.
  intros Hs Hb Hf Hd. cbv zeta.
  pose proof (first_dirty_range _ _ _ _ Hd) as Hi.
  change (Z.of_nat 16) with 16 in Hi.
  unfold rewrite_dirty_flash_pages, HAL_FLASH_Unlock, HAL_FLASH_Lock.
  destruct (hal_next_ok _ Hs) as [_ E0].
  destruct (hal_next (hal_script st)) as [s0 r0]. cbn [snd] in E0.
  set (st1 := set_flash st (flash st) r0).
  change (page_dirty_mask st1) with (page_dirty_mask st). rewrite Hd.
  set (sta := set_page_dirty_mask st1 (store (page_dirty_mask st) i 0)).
  unfold erase_flash_page, FLASH_PAGE_SIZE, sizeof_disk_buffer in *.
  destruct (HAL_FLASHEx_Erase_ok App sta (i * 1024) 1024 E0
              ltac:(lia) ltac:(lia) ltac:(cbn [flash sta st1 set_flash
                set_page_dirty_mask]; lia))
    as (_ & A2 & A3 & A4 & _ & _).
  destruct (HAL_FLASHEx_Erase sta (i * 1024) 1024) as [stb sb].
  cbn [fst snd] in *.
  assert (Eb : disk_buffer stb = disk_buffer st) by apply A3.
  change (flash sta) with (flash st) in *.
  change (1024 / 2) with 512.
  pose proof (program_loop_flash App (Z.to_nat 512) stb (i * 1024) 0 A2) as P.
  rewrite Eb, A4, Z2Nat.id in P by lia.
  specialize (P Hb ltac:(lia) ltac:(lia)). cbv zeta in P.
  set (stc := program_loop stb (i * 1024) 0 (Z.to_nat 512)) in *.
  clearbody stc.
  destruct P as (_ & _ & P3 & _).
  destruct (hal_next (hal_script stc)) as [s3 r3].
  cbn [fst flash set_flash].
  intros k Hk. apply P3. lia.
Qed.

(** X10.  The F1 commit with a working HAL: the first dirty page of the
    mirror is in flash afterwards, byte for byte, and no other byte of
    the flash has changed. *)
Theorem commit_programs_first_dirty_page st i :
  hal_ok (hal_script st) -> is_bytes (disk_buffer st) ->
  sizeof_disk_buffer <= zlen (flash st) ->
  first_dirty (page_dirty_mask st) 0 16 = Some i ->
  let st' := fst (rewrite_dirty_flash_pages STM32F103xB st) in
  let page := i * FLASH_PAGE_SIZE STM32F103xB in
  0 <= i < 16
  /\ length (flash st') = length (flash st)
  /\ (forall k, page <= k < page + FLASH_PAGE_SIZE STM32F103xB ->
      load (flash st') k = load (disk_buffer st) k)
  /\ (forall k, 0 <= k ->
      k < page \/ page + FLASH_PAGE_SIZE STM32F103xB <= k ->
      load (flash st') k = load (flash st) k).
Proof.
  intros Hs Hb Hf Hd. cbv zeta.
  pose proof (first_dirty_range _ _ _ _ Hd) as Hi.
  change (Z.of_nat 16) with 16 in Hi.
  destruct (commit_first_dirty_page_frame st i Hf Hd) as (L & Out).
  split; [lia |]. split; [exact L |].
  split; [exact (commit_first_dirty_page_content st i Hs Hb Hf Hd) |].
  exact Out.
Qed.

(** The F4 commit with a working HAL leaves the whole mirror in flash. *)
Lemma commit_programs_whole_image_flash st i :
  hal_ok (hal_script st) -> is_bytes (disk_buffer st) ->
  zlen (disk_buffer st) = sizeof_disk_buffer ->
  zlen (flash st) = sizeof_disk_buffer ->
  first_dirty (page_dirty_mask st) 0 (Z.to_nat sizeof_page_dirty_mask)
  = Some i ->
  flash (fst (rewrite_dirty_flash_pages STM32F411xE st)) = disk_buffer st.
Proof.
  intros Hs Hb Hl Hf Hd.
  unfold rewrite_dirty_flash_pages, HAL_FLASH_Unlock, HAL_FLASH_Lock.
  destruct (hal_next_ok _ Hs) as [_ E0].
  destruct (hal_next (hal_script st)) as [s0 r0]. cbn [snd] in E0.
  set (st1 := set_flash st (flash st) r0).
  change (page_dirty_mask st1) with (page_dirty_mask st). rewrite Hd.
  set (sta := set_page_dirty_mask st1
                (memset (page_dirty_mask st) 0 0 sizeof_page_dirty_mask)).
  unfold erase_flash_page, sizeof_disk_buffer in *.
  destruct (HAL_FLASHEx_Erase_ok App sta 0 16384 E0
              ltac:(lia) ltac:(lia) ltac:(cbn [flash sta st1 set_flash
                set_page_dirty_mask]; lia))
    as (_ & A2 & A3 & A4 & _ & _).
  destruct (HAL_FLASHEx_Erase sta 0 16384) as [stb sb].
  cbn [fst snd] in *.
  assert (Eb : disk_buffer stb = disk_buffer st) by apply A3.
  change (flash sta) with (flash st) in *.
  change (16384 / 2) with 8192.
  pose proof (program_loop_flash App (Z.to_nat 8192) stb 0 0 A2) as P.
  rewrite Eb, A4, Z2Nat.id in P by lia.
  specialize (P Hb ltac:(lia) ltac:(lia)). cbv zeta in P.
  set (stc := program_loop stb 0 0 (Z.to_nat 8192)) in *.
  clearbody stc.
  destruct P as (_ & P2 & P3 & _).
  destruct (hal_next (hal_script stc)) as [s3 r3].
  cbn [fst flash set_flash].
  apply bytes_ext; [lia |].
  intros k Hk. apply P3. lia.
Qed.

(** X11.  The F4 commit with a working HAL: whenever some flag is set the
    flash holds the whole mirror afterwards, so that [load_from_flash]
    at the next start brings back exactly this mirror. *)
Theorem commit_programs_whole_image st i :
  hal_ok (hal_script st) -> is_bytes (disk_buffer st) ->
  zlen (disk_buffer st) = sizeof_disk_buffer ->
  zlen (flash st) = sizeof_disk_buffer ->
  first_dirty (page_dirty_mask st) 0 (Z.to_nat sizeof_page_dirty_mask)
  = Some i ->
  let st' := fst (rewrite_dirty_flash_pages STM32F411xE st) in
  flash st' = disk_buffer st
  /\ disk_buffer (load_from_flash st') = disk_buffer st.
Proof.
  intros Hs Hb Hl Hf Hd. cbv zeta.
  pose proof (commit_programs_whole_image_flash st i Hs Hb Hl Hf Hd)
    as Hflash.
  split; [exact Hflash |].
  pose proof (rewrite_dirty_flash_pages_ram App STM32F411xE st) as R.
  cbv zeta in R. destruct R as (_ & Rb & _).
  unfold load_from_flash.
  cbn [disk_buffer set_page_dirty_mask set_disk_buffer].
  rewrite Hflash, Rb.
  rewrite (slice_all _ _ Hl).
  apply memcpy_whole. reflexivity.
Qed.

Lemma erase_pages_loop_ok fuel : forall st i,
  hal_ok (hal_script st) -> 0 <= i ->
  (i + Z.of_nat fuel) * 1024 <= zlen (flash st) ->
  let r := erase_pages_loop STM32F103xB st i fuel in
  snd r = HAL_OK /\ hal_ok (hal_script (fst r))
  /\ same_ram st (fst r)
  /\ length (flash (fst r)) = length (flash st)
  /\ (forall k, i * 1024 <= k < (i + Z.of_nat fuel) * 1024 ->
      load (flash (fst r)) k = 0xFF)
  /\ (forall k, 0 <= k -> k < i * 1024 \/ (i + Z.of_nat fuel) * 1024 <= k ->
      load (flash (fst r)) k = load (flash st) k).
Proof.
  induction fuel as [| fuel IH]; intros st i Hs Hi Hf; cbv zeta.
  - cbn [erase_pages_loop fst snd]. split; [reflexivity |].
    split; [exact Hs |]. split; [apply same_ram_refl |].
    split; [reflexivity |].
    split; [intros k Hk; lia | intros; reflexivity].
  - cbn [erase_pages_loop]. unfold erase_flash_page, FLASH_PAGE_SIZE.
    destruct (HAL_FLASHEx_Erase_ok App st (i * 1024) 1024 Hs
                ltac:(lia) ltac:(lia) ltac:(lia))
      as (A1 & A2 & A3 & A4 & A5 & A6).
    destruct (HAL_FLASHEx_Erase st (i * 1024) 1024) as [st1 r1].
    cbn [fst snd] in *. subst r1. cbn [is_HAL_OK].
    specialize (IH st1 (i + 1) A2 ltac:(lia)).
    rewrite A4 in IH. specialize (IH ltac:(lia)). cbv zeta in IH.
    destruct IH as (I0 & I1 & I2 & I3 & I4 & I5).
    split; [exact I0 |]. split; [exact I1 |].
    split; [eapply same_ram_trans; [exact A3 | exact I2] |].
    split; [exact I3 |]. split.
    + intros k Hk.
      destruct (Z_lt_dec k ((i + 1) * 1024)) as [Hlt | Hge].
      * rewrite I5 by lia. apply A5. lia.
      * apply I4. lia.
    + intros k Hk Hout. rewrite I5 by lia. apply A6; lia.
Qed.

(** X12.  [rewrite_all_flash_pages] on the F1 with a working HAL erases
    the first eight pages (8 KiB) but programs only the first 2048 bytes
    of the mirror: the loop bound is [SECTOR_CNT / 2] bytes.  The bytes
    from 2048 to 8191 stay erased and the upper half of the flash region
    keeps its old content. *)
Theorem rewrite_all_programs_2048_bytes_on_f1 st :
  hal_ok (hal_script st) -> is_bytes (disk_buffer st) ->
  sizeof_disk_buffer <= zlen (flash st) ->
  let st' := fst (rewrite_all_flash_pages STM32F103xB st) in
  snd (rewrite_all_flash_pages STM32F103xB st) = 0
  /\ same_ram st st'
  /\ (forall k, 0 <= k < 2048 -> load (flash st') k = load (disk_buffer st) k)
  /\ (forall k, 2048 <= k < 8192 -> load (flash st') k = 0xFF)
  /\ (forall k, 8192 <= k -> load (flash st') k = load (flash st) k).
Proof.
  intros Hs Hb Hf. cbv zeta. unfold sizeof_disk_buffer in *.
  unfold rewrite_all_flash_pages, HAL_FLASH_Unlock, HAL_FLASH_Lock.
  destruct (hal_next_ok _ Hs) as [_ E0].
  destruct (hal_next (hal_script st)) as [s0 r0]. cbn [snd] in E0.
  set (st1 := set_flash st (flash st) r0).
  destruct (erase_pages_loop_ok 8 st1 0 E0 ltac:(lia)
              ltac:(cbn [flash st1 set_flash]; lia))
    as (A1 & A2 & A3 & A4 & A5 & A6).
  destruct (erase_pages_loop STM32F103xB st1 0 8) as [st2 r2].
  cbn [fst snd] in *. subst r2. cbn [is_HAL_OK negb].
  change (flash st1) with (flash st) in *.
  assert (Eb : disk_buffer st2 = disk_buffer st) by apply A3.
  change (SECTOR_CNT / 2 / 2) with 1024.
  pose proof (program_checked_loop_flash App (Z.to_nat 1024) st2 0 A2) as P.
  rewrite Eb, A4, Z2Nat.id in P by lia.
  specialize (P Hb ltac:(lia) ltac:(lia)). cbv zeta in P.
  destruct (program_checked_loop st2 0 (Z.to_nat 1024)) as [st3 r3].
  cbn [fst snd] in P.
  destruct P as (P0 & P1 & P2 & P3 & P4 & P5). subst r3.
  cbn [is_HAL_OK negb].
  destruct (hal_next (hal_script st3)) as [s4 r4].
  cbn [fst snd flash set_flash HAL_status_code].
  split; [reflexivity |]. split.
  { eapply same_ram_trans; [apply (same_ram_set_flash App st (flash st) r0) |].
    eapply same_ram_trans; [exact A3 |].
    eapply same_ram_trans; [exact P2 |]. apply same_ram_set_flash. }
  split; [intros k Hk; apply P4; lia |].
  split.
  - intros k Hk. rewrite P5 by lia. apply A5. lia.
  - intros k Hk. rewrite P5 by lia. apply A6; lia.
Qed.

(** X13.  [rewrite_all_flash_pages] on the F4 with a working HAL leaves
    the whole mirror in flash and returns [HAL_OK]. *)
Theorem rewrite_all_programs_whole_image_on_f4 st :
  hal_ok (hal_script st) -> is_bytes (disk_buffer st) ->
  zlen (disk_buffer st) = sizeof_disk_buffer ->
  zlen (flash st) = sizeof_disk_buffer ->
  let st' := fst (rewrite_all_flash_pages STM32F411xE st) in
  snd (rewrite_all_flash_pages STM32F411xE st) = 0
  /\ same_ram st st'
  /\ flash st' = disk_buffer st.
Proof.
  intros Hs Hb Hl Hf. cbv zeta. unfold sizeof_disk_buffer in *.
  unfold rewrite_all_flash_pages, HAL_FLASH_Unlock, HAL_FLASH_Lock.
  destruct (hal_next_ok _ Hs) as [_ E0].
  destruct (hal_next (hal_script st)) as [s0 r0]. cbn [snd] in E0.
  set (st1 := set_flash st (flash st) r0).
  unfold erase_flash_page, sizeof_disk_buffer.
  destruct (HAL_FLASHEx_Erase_ok App st1 0 16384 E0
              ltac:(lia) ltac:(lia) ltac:(cbn [flash st1 set_flash]; lia))
    as (A1 & A2 & A3 & A4 & _ & _).
  destruct (HAL_FLASHEx_Erase st1 0 16384) as [st2 r2].
  cbn [fst snd] in *. subst r2. cbn [is_HAL_OK negb].
  change (flash st1) with (flash st) in *.
  assert (Eb : disk_buffer st2 = disk_buffer st) by apply A3.
  change (16384 / 2) with 8192.
  pose proof (program_checked_loop_flash App (Z.to_nat 8192) st2 0 A2) as P.
  rewrite Eb, A4, Z2Nat.id in P by lia.
  specialize (P Hb ltac:(lia) ltac:(lia)). cbv zeta in P.
  destruct (program_checked_loop st2 0 (Z.to_nat 8192)) as [st3 r3].
  cbn [fst snd] in P.
  destruct P as (P0 & P1 & P2 & P3 & P4 & P5). subst r3.
  cbn [is_HAL_OK negb].
  destruct (hal_next (hal_script st3)) as [s4 r4].
  cbn [fst snd flash set_flash HAL_status_code].
  split; [reflexivity |]. split.
  { eapply same_ram_trans; [apply (same_ram_set_flash App st (flash st) r0) |].
    eapply same_ram_trans; [exact A3 |].
    eapply same_ram_trans; [exact P2 |]. apply same_ram_set_flash. }
  apply bytes_ext; [lia |].
  intros k Hk. apply P4. lia.
Qed.

(** X14.  When the first erase of [rewrite_all_flash_pages] fails, the
    function returns that HAL status at once: the flash is as it was,
    nothing is programmed, and [HAL_FLASH_Lock] is not called (the
    unlock and the erase are the only HAL calls made). *)
Theorem rewrite_all_returns_first_erase_failure tgt st s0 result rest :
  hal_script st = s0 :: result :: rest -> result <> HAL_OK ->
  let st' := fst (rewrite_all_flash_pages tgt st) in
  snd (rewrite_all_flash_pages tgt st) = HAL_status_code result
  /\ snd (rewrite_all_flash_pages tgt st) <> 0
  /\ flash st' = flash st
  /\ hal_script st' = rest
  /\ same_ram st st'.
Proof.
  intros Hscript Hres. cbv zeta.
  unfold rewrite_all_flash_pages, HAL_FLASH_Unlock.
  rewrite Hscript. cbn [hal_next].
  assert (Hnot : is_HAL_OK result = false)
    by (destruct result; [congruence | reflexivity ..]).
  assert (Hcode : HAL_status_code result <> 0)
    by (destruct result; [congruence | cbn; lia ..]).
  destruct tgt.
  - cbn [erase_pages_loop]. unfold erase_flash_page, HAL_FLASHEx_Erase.
    cbn [hal_script set_flash hal_next]. rewrite !Hnot.
    cbn [negb fst snd flash hal_script set_flash].
    split_all; try assumption; try reflexivity.
    apply same_ram_trans with (st2 := set_flash st (flash st) (result :: rest));
      apply same_ram_set_flash.
  - unfold erase_flash_page, HAL_FLASHEx_Erase.
    cbn [hal_script set_flash hal_next]. rewrite !Hnot.
    cbn [negb fst snd flash hal_script set_flash].
    split_all; try assumption; try reflexivity.
    apply same_ram_trans with (st2 := set_flash st (flash st) (result :: rest));
      apply same_ram_set_flash.
Qed.

End CommitContents.

(** ** The quiet period before a commit *)

Section Debounce.
Variable App : Type.
Variable tgt : target.
Implicit Types (st : disk_state App).

Lemma write_sector_arms st buff s len t st1 r :
  write_sector tgt st buff s len t = Some (st1, r) ->
  pending_flash_write st1 = true /\ last_write_tick st1 = t /\ r = 0.
Proof.
  unfold write_sector.
  destruct ((0 <=? len) && (len * SECTOR_SIZE <=? sizeof_disk_buffer_temp)
            && (len * SECTOR_SIZE <=? zlen buff)); [| discriminate].
  intros H. apply bind_inv in H. destruct H as (st' & _ & H).
  injection H as <- <-. repeat split.
Qed.

(** X15.  The commit is held back for [FLASH_WRITE_DELAY_MS] after the
    last [write_sector], the time being measured on the 32-bit tick
    modulo 2^32: during the first 499 ms [process] leaves the state as
    it is, also across a wrap-around of the tick; from 500 ms on the
    commit is due. *)
Theorem commit_waits_for_quiet_period st buff s len t st1 r d :
  write_sector tgt st buff s len t = Some (st1, r) ->
  0 <= t < 4294967296 -> 0 <= d < 4294967296 ->
  (d < FLASH_WRITE_DELAY_MS -> process tgt st1 (u32 (t + d)) = Some st1)
  /\ (FLASH_WRITE_DELAY_MS <= d -> commit_due st1 (u32 (t + d)) = true).
Proof.
  intros H Ht Hd.
  destruct (write_sector_arms _ _ _ _ _ _ _ H) as (Hp & Hl & _).
  assert (E : u32 (u32 (t + d) - last_write_tick st1) = d).
  { rewrite Hl. unfold u32. rewrite Zminus_mod_idemp_l.
    replace (t + d - t) with d by lia. apply Z.mod_small. lia. }
  unfold process, commit_due. rewrite Hp, E. cbn [andb].
  unfold FLASH_WRITE_DELAY_MS. split; intros Hcmp.
  - rewrite (proj2 (Z.leb_gt 500 d)) by lia. reflexivity.
  - apply Z.leb_le. lia.
Qed.

End Debounce.

(** ** The default file *)

Lemma memcpy_with_nul b off x :
  0 <= off -> off + zlen x + 1 <= zlen b -> load b (off + zlen x) = 0 ->
  memcpy b off (x ++ [0]) = memcpy b off x.
Proof.
  intros H0 H1 Hz. apply bytes_ext.
  - rewrite !length_memcpy; rewrite ?zlen_app; cbn [length]; lia.
  - intros i Hi.
    rewrite length_memcpy in Hi by (rewrite ?zlen_app; cbn [length]; lia).
    destruct (Z_lt_dec i off) as [A | A].
    + rewrite !load_memcpy_out by (rewrite ?zlen_app; cbn [length]; lia).
      reflexivity.
    + destruct (Z_lt_dec i (off + zlen x)) as [B | B].
      * rewrite !load_memcpy_in by (rewrite ?zlen_app; cbn [length]; lia).
        unfold load. rewrite app_nth1 by lia. reflexivity.
      * destruct (Z.eq_dec i (off + zlen x)) as [-> | C].
        -- rewrite load_memcpy_in by (rewrite ?zlen_app; cbn [length]; lia).
           rewrite load_memcpy_out by lia. rewrite Hz.
           unfold load. rewrite app_nth2 by lia.
           replace (Z.to_nat (off + zlen x - off) - length x)%nat with 0%nat
             by lia.
           reflexivity.
        -- rewrite !load_memcpy_out by (rewrite ?zlen_app; cbn [length]; lia).
           reflexivity.
Qed.

Lemma slice_prefix_all (x : list Z) n : zlen x <= n -> slice x 0 n = x.
Proof.
  intros H. unfold slice. cbn [Z.to_nat skipn].
  apply firstn_all2. lia.
Qed.

Section DefaultFile.
Variable App : Type.
Implicit Types (st : disk_state App) (es : list (FILE_ENTRY App)).

Lemma default_file_loop_text es : forall b m,
  zlen b = sizeof_disk_buffer -> 0 <= m ->
  m + zlen (default_text es) < FILE_SECTOR_SIZE ->
  (forall k, FILE_SECTOR + m <= k < sizeof_disk_buffer -> load b k = 0) ->
  default_file_loop es b m
  = Some (memcpy b (FILE_SECTOR + m) (default_text es),
          m + zlen (default_text es)).
Proof.
  unfold sizeof_disk_buffer, FILE_SECTOR_SIZE, FILE_SECTOR.
  induction es as [| e es IH]; intros b m Hb Hm Hfit Hz.
  - cbn [default_file_loop default_text length].
    rewrite memcpy_nil by lia. do 2 f_equal. lia.
  - cbn [default_file_loop default_text] in *.
    destruct (registered e); [| apply IH; assumption].
    set (line := default_line e ++ cstr (comment e)) in *.
    rewrite app_assoc in Hfit |- *. fold line in Hfit |- *.
    rewrite zlen_app in Hfit.
    unfold FILE_SECTOR_SIZE, FILE_SECTOR.
    rewrite (proj2 (Z.ltb_ge (16384 - 1536) m)) by lia.
    unfold snprintf.
    rewrite (proj2 (Z.leb_gt (16384 - 1536 - m) 0)) by lia.
    rewrite slice_prefix_all by lia.
    rewrite memcpy_with_nul by (try apply Hz; lia).
    unfold u32. rewrite Z.mod_small by lia.
    rewrite IH.
    + rewrite zlen_app. f_equal. f_equal; [| lia].
      replace (1536 + (m + zlen line)) with (1536 + m + zlen line) by lia.
      apply memcpy_memcpy_app; lia.
    + rewrite length_memcpy; lia.
    + lia.
    + lia.
    + intros k Hk. rewrite load_memcpy_out by lia. apply Hz. lia.
Qed.

End DefaultFile.

Lemma lor_shift_sum lo hi :
  0 <= lo < 256 -> 0 <= hi -> Z.lor lo (Z.shiftl hi 8) = lo + 256 * hi.
Proof.
  intros Hlo Hhi.
  set (x := Z.lor lo (Z.shiftl hi 8)).
  assert (E1 : x mod 256 = lo) by (apply (u8_lor_shift lo hi); exact Hlo).
  assert (E2 : x / 256 = hi).
  { change 256 with (2 ^ 8). rewrite <- Z.shiftr_div_pow2 by lia.
    unfold x. rewrite Z.shiftr_lor, Z.shiftr_shiftl_l by lia.
    rewrite Z.sub_diag, Z.shiftl_0_r.
    rewrite Z.shiftr_div_pow2 by lia.
    change (2 ^ 8) with 256. rewrite Z.div_small by lia.
    apply Z.lor_0_l. }
  pose proof (Z.div_mod x 256 ltac:(lia)) as D.
  rewrite E1, E2 in D. lia.
Qed.

Lemma le16_of_size_bytes m :
  0 <= m < 65536 ->
  Z.lor (Z.land m 0xFF) (Z.shiftl (Z.land (Z.shiftr m 8) 0xFF) 8) = m.
Proof.
  intros Hm. rewrite !land_255.
  rewrite Z.shiftr_div_pow2 by lia. change (2 ^ 8) with 256.
  rewrite lor_shift_sum.
  - rewrite (Z.mod_small (m / 256)) by zdiv. zdiv.
  - apply Z.mod_pos_bound. lia.
  - apply Z.mod_pos_bound. lia.
Qed.

Lemma load_store b i v k :
  0 <= i < zlen b -> 0 <= k ->
  load (store b i v) k = if k =? i then v else load b k.
Proof.
  intros Hi Hk. destruct (Z.eqb_spec k i) as [-> | N].
  - apply load_store_same. exact Hi.
  - apply load_store_other; assumption.
Qed.

(** The stores of [flush_file] into the first directory entry
    (lines 715-722). *)
Lemma root_fill_loads b v0 v1 v2 v3 s0 s1 s2 s3 :
  zlen b = sizeof_disk_buffer ->
  let b' :=
    store (store (store (store (store
      (memcpy (store b 0x40B 0) VOLUME_BASE [v0; v1; v2; v3])
      0x41A 0x02) 0x41C s0) 0x41D s1) 0x41E s2) 0x41F s3 in
  zlen b' = sizeof_disk_buffer
  /\ load b' 0x40B = 0 /\ load b' 0x41A = 2
  /\ load b' 0x41C = s0 /\ load b' 0x41D = s1
  /\ load b' 0x41E = s2 /\ load b' 0x41F = s3
  /\ forall k, 0 <= k -> k <> 0x40B -> ~ 0x416 <= k <= 0x41A ->
       ~ 0x41C <= k <= 0x41F -> load b' k = load b k.
Proof.
  unfold sizeof_disk_buffer, VOLUME_BASE. intros Hb. cbv zeta.
  set (b5 := store b 0x40B 0).
  assert (L5 : zlen b5 = 16384) by (unfold b5; rewrite length_store; lia).
  set (b6 := memcpy b5 0x416 [v0; v1; v2; v3]).
  assert (L6 : zlen b6 = 16384)
    by (unfold b6; rewrite length_memcpy; cbn [length]; lia).
  set (b7 := store b6 0x41A 2).
  assert (L7 : zlen b7 = 16384) by (unfold b7; rewrite length_store; lia).
  set (b8 := store b7 0x41C s0).
  assert (L8 : zlen b8 = 16384) by (unfold b8; rewrite length_store; lia).
  set (b9 := store b8 0x41D s1).
  assert (L9 : zlen b9 = 16384) by (unfold b9; rewrite length_store; lia).
  set (b10 := store b9 0x41E s2).
  assert (L10 : zlen b10 = 16384) by (unfold b10; rewrite length_store; lia).
  set (b11 := store b10 0x41F s3).
  assert (L11 : zlen b11 = 16384) by (unfold b11; rewrite length_store; lia).
  assert (H5 : forall k, 0 <= k -> load b5 k = if k =? 0x40B then 0 else load b k)
    by (intros; apply load_store; lia).
  assert (H6 : forall k, 0 <= k -> k < 0x416 \/ 0x41A <= k ->
               load b6 k = load b5 k)
    by (intros; apply load_memcpy_out; cbn [length]; lia).
  assert (H7 : forall k, 0 <= k -> load b7 k = if k =? 0x41A then 2 else load b6 k)
    by (intros; apply load_store; lia).
  assert (H8 : forall k, 0 <= k -> load b8 k = if k =? 0x41C then s0 else load b7 k)
    by (intros; apply load_store; lia).
  assert (H9 : forall k, 0 <= k -> load b9 k = if k =? 0x41D then s1 else load b8 k)
    by (intros; apply load_store; lia).
  assert (H10 : forall k, 0 <= k -> load b10 k = if k =? 0x41E then s2 else load b9 k)
    by (intros; apply load_store; lia).
  assert (H11 : forall k, 0 <= k -> load b11 k = if k =? 0x41F then s3 else load b10 k)
    by (intros; apply load_store; lia).
  split; [exact L11 |].
  split. { rewrite H11, H10, H9, H8, H7, H6, H5 by lia. reflexivity. }
  split. { rewrite H11, H10, H9, H8, H7 by lia. reflexivity. }
  split. { rewrite H11, H10, H9, H8 by lia. reflexivity. }
  split. { rewrite H11, H10, H9 by lia. reflexivity. }
  split. { rewrite H11, H10 by lia. reflexivity. }
  split. { rewrite H11 by lia. reflexivity. }
  intros k Hk N1 N2 N3.
  rewrite H11, H10, H9, H8, H7, H6, H5 by lia.
  rewrite !(proj2 (Z.eqb_neq k _)) by lia. reflexivity.
Qed.

Section Bootstrap.
Variable App : Type.
Implicit Types (st : disk_state App).

(** [flush_file] on a mirror without a CONFIG.TXT entry builds the
    default volume. *)
Lemma flush_file_default_file st now :
  find_file (disk_buffer st) CONFIG_FILENAME = None ->
  zlen (disk_buffer st) = sizeof_disk_buffer ->
  zlen (page_dirty_mask st) = sizeof_page_dirty_mask ->
  zlen (default_text (entries st)) < FILE_SECTOR_SIZE ->
  let text := default_text (entries st) in
  let n := Z.max 1 ((zlen text + 511) / 512) in
  exists st',
    flush_file st now = Some st'
    /\ pending_flash_write st' = true /\ last_write_tick st' = now
    /\ page_dirty_mask st' = repeat 1 (Z.to_nat sizeof_page_dirty_mask)
    /\ flash st' = flash st /\ entries st' = entries st /\ app st' = app st
    /\ slice (disk_buffer st') ROOT_SECTOR 11 = slice CONFIG_FILENAME 0 11
    /\ load (disk_buffer st') (ROOT_SECTOR + 0x0B) = 0
    /\ canonical_layout (disk_buffer st') 0 text (zlen text)
    /\ slice (disk_buffer st') FAT1_SECTOR 3 = [0xF8; 0xFF; 0xFF]
    /\ (forall i, 0 <= i < n ->
        fat12_entry (disk_buffer st') FAT1_SECTOR (2 + i)
        = if i =? n - 1 then 0xFFF else 3 + i)
    /\ slice (disk_buffer st') FAT2_SECTOR SECTOR_SIZE
       = slice (disk_buffer st') FAT1_SECTOR SECTOR_SIZE
    /\ find_file (disk_buffer st') CONFIG_FILENAME
       = Some (FILE_SECTOR, zlen text, 0).
Proof.
  intros Hnone Hb Hm Hfit. cbv zeta.
  set (text := default_text (entries st)) in *.
  set (m := zlen text) in *.
  assert (Hm0 : 0 <= m) by (unfold m; lia).
  unfold flush_file. rewrite Hnone.
  unfold sizeof_disk_buffer, sizeof_page_dirty_mask, FILE_SECTOR_SIZE in *.
  set (b0 := memset (disk_buffer st) 0 0 16384).
  assert (L0 : zlen b0 = 16384) by (unfold b0; rewrite length_memset; lia).
  assert (Z0 : forall k, 0 <= k < 16384 -> load b0 k = 0)
    by (intros; unfold b0; apply load_memset_in; lia).
  set (b1 := memcpy b0 ROOT_SECTOR (slice CONFIG_FILENAME 0 12)).
  assert (LC : zlen (slice CONFIG_FILENAME 0 12) = 12) by reflexivity.
  assert (L1 : zlen b1 = 16384)
    by (unfold b1; rewrite length_memcpy; unfold ROOT_SECTOR; lia).
  set (b2 := memcpy b1 FAT1_SECTOR fat_data).
  assert (LF : zlen fat_data = 6) by reflexivity.
  assert (L2 : zlen b2 = 16384)
    by (unfold b2; rewrite length_memcpy; unfold FAT1_SECTOR; lia).
  set (b3 := memcpy b2 FAT2_SECTOR fat_data).
  assert (L3 : zlen b3 = 16384)
    by (unfold b3; rewrite length_memcpy; unfold FAT2_SECTOR; lia).
  assert (H1 : forall k, 0 <= k -> k < 0x400 \/ 0x40C <= k ->
               load b1 k = load b0 k)
    by (intros; unfold b1; apply load_memcpy_out; unfold ROOT_SECTOR; lia).
  assert (H1' : forall k, 0x400 <= k < 0x40C ->
                load b1 k = load CONFIG_FILENAME (k - 0x400)).
  { intros k Hk. unfold b1.
    rewrite load_memcpy_in by (unfold ROOT_SECTOR; lia).
    unfold ROOT_SECTOR. rewrite load_slice by lia. reflexivity. }
  assert (H2 : forall k, 6 <= k -> load b2 k = load b1 k)
    by (intros; unfold b2; apply load_memcpy_out; unfold FAT1_SECTOR; lia).
  assert (H2' : forall k, 0 <= k < 6 -> load b2 k = load fat_data k).
  { intros k Hk. unfold b2.
    rewrite load_memcpy_in by (unfold FAT1_SECTOR; lia).
    unfold FAT1_SECTOR. f_equal. lia. }
  assert (H3 : forall k, 0 <= k -> k < 0x200 \/ 0x206 <= k ->
               load b3 k = load b2 k)
    by (intros; unfold b3; apply load_memcpy_out; unfold FAT2_SECTOR; lia).
  rewrite (default_file_loop_text App (entries st) b3 0);
    unfold sizeof_disk_buffer, FILE_SECTOR_SIZE, FILE_SECTOR;
    [| exact L3 | lia | fold text; fold m; lia
     | intros k Hk; rewrite H3, H2, H1 by lia; apply Z0; lia].
  fold text. fold m. rewrite bind_Some; cbv beta iota.
  change (1536 + 0) with 1536. change (0 + m) with m.
  set (b4 := memcpy b3 1536 text).
  assert (L4 : zlen b4 = 16384)
    by (unfold b4; rewrite length_memcpy; fold m; lia).
  assert (H4 : forall k, 0 <= k -> k < 1536 \/ 1536 + m <= k ->
               load b4 k = load b3 k)
    by (intros; unfold b4; apply load_memcpy_out; fold m; lia).
  assert (H4' : forall k, 1536 <= k < 1536 + m ->
                load b4 k = load text (k - 1536))
    by (intros; unfold b4; apply load_memcpy_in; fold m; lia).
  destruct (root_fill_loads b4
              (Z.land VOLUME 0xFF) (Z.land (Z.shiftr VOLUME 8) 0xFF)
              (Z.land (Z.shiftr VOLUME 16) 0xFF)
              (Z.land (Z.shiftr VOLUME 24) 0xFF)
              (Z.land m 0xFF) (Z.land (Z.shiftr m 8) 0xFF)
              (Z.land (Z.shiftr m 16) 0xFF) (Z.land (Z.shiftr m 24) 0xFF) L4)
    as (L11 & R1 & R2 & R3 & R4 & R5 & R6 & R7).
  cbv zeta in L11, R1, R2, R3, R4, R5, R6, R7.
  set (b11 := store _ 0x41F _) in *.
  clearbody b11.
  unfold sizeof_disk_buffer in L11.
  destruct (update_fat_chain_fits b11 m ltac:(lia) ltac:(lia))
    as (b12 & E12 & C1 & C2 & C3 & C4 & C5 & C6 & C7).
  rewrite E12. rewrite bind_Some; cbv beta.
  eexists. split; [reflexivity |].
  cbn [pending_flash_write last_write_tick page_dirty_mask flash entries
       app disk_buffer set_pending set_page_dirty_mask set_disk_buffer].
  assert (L12 : zlen b12 = 16384) by lia.
  assert (Hroot : forall k, 0x400 <= k -> k <> 0x40B -> ~ 0x416 <= k <= 0x41A ->
                  ~ 0x41C <= k <= 0x41F -> load b12 k = load b4 k)
    by (intros; rewrite C7 by lia; apply R7; lia).
  split; [reflexivity |]. split; [reflexivity |].
  split.
  { unfold memset. apply memcpy_whole. rewrite repeat_length. lia. }
  split; [reflexivity |]. split; [reflexivity |]. split; [reflexivity |].
  assert (Ename : slice b12 ROOT_SECTOR 11 = slice CONFIG_FILENAME 0 11).
  { unfold ROOT_SECTOR. apply bytes_ext.
    - apply Nat2Z.inj. rewrite length_slice by lia. reflexivity.
    - intros i Hi. rewrite length_slice in Hi by lia.
      rewrite !load_slice by lia.
      rewrite Hroot, H4, H3, H2, H1' by lia. f_equal. lia. }
  split; [exact Ename |].
  split.
  { unfold ROOT_SECTOR. rewrite C7 by lia. exact R1. }
  assert (Ec : load b12 0x41A = 2) by (rewrite C7 by lia; exact R2).
  assert (Es0 : load b12 0x41C = Z.land m 0xFF) by (rewrite C7 by lia; exact R3).
  assert (Es1 : load b12 0x41D = Z.land (Z.shiftr m 8) 0xFF)
    by (rewrite C7 by lia; exact R4).
  assert (Ech : load b12 0x41B = 0).
  { rewrite C7, R7, H4, H3, H2, H1 by lia. apply Z0. lia. }
  split.
  { unfold canonical_layout, ROOT_SECTOR, FILE_SECTOR, FILE_SECTOR_SIZE.
    cbv zeta. change (1024 + 0 * 32) with 1024.
    split; [exact Ec |]. split; [exact Ech |].
    split.
    { change (1024 + 28) with 0x41C. change (1024 + 29) with 0x41D.
      change (1024 + 30) with 0x41E. change (1024 + 31) with 0x41F.
      rewrite Es0, Es1.
      rewrite (C7 0x41E), (C7 0x41F) by lia. rewrite R5, R6.
      apply le32_bytes. lia. }
    split.
    { rewrite (slice_all text m eq_refl).
      apply bytes_ext.
      - apply Nat2Z.inj. rewrite length_slice by lia. reflexivity.
      - intros i Hi. rewrite length_slice in Hi by lia.
        rewrite load_slice by lia.
        rewrite Hroot, H4' by lia. f_equal. lia. }
    intros k Hk. rewrite Hroot, H4, H3, H2, H1 by lia. apply Z0. lia. }
  split.
  { unfold FAT1_SECTOR. apply bytes_ext.
    - apply Nat2Z.inj. rewrite length_slice by lia. reflexivity.
    - intros i Hi. rewrite length_slice in Hi by lia.
      rewrite load_slice by lia. rewrite C2 by lia.
      rewrite R7, H4, H3, H2' by lia.
      assert (i = 0 \/ i = 1 \/ i = 2) as [-> | [-> | ->]] by (cbn in Hi; lia);
        reflexivity. }
  split; [exact C3 |]. split; [exact C6 |].
  unfold find_file.
  rewrite (find_file_loop_first b12 16 0 0);
    [| lia | | intros j Hj; lia].
  - unfold ROOT_SECTOR, SECTOR_SIZE, FILE_SECTOR, le16.
    change (1024 + 32 * 0 + 26) with 0x41A.
    change (0x41A + 1) with 0x41B.
    change (1024 + 32 * 0 + 28) with 0x41C.
    change (0x41C + 1) with 0x41D.
    rewrite Ec, Ech, Es0, Es1.
    rewrite le16_of_size_bytes by lia. reflexivity.
  - unfold is_config_entry. change (ROOT_SECTOR + 32 * 0) with ROOT_SECTOR.
    rewrite Ename. reflexivity.
Qed.

End Bootstrap.

(** ** After normalisation *)

Lemma slice_ext b b' off n :
  0 <= off -> 0 <= n -> off + n <= zlen b -> length b' = length b ->
  (forall k, off <= k < off + n -> load b' k = load b k) ->
  slice b' off n = slice b off n.
Proof.
  intros H0 Hn Hb Hl H. apply bytes_ext.
  - apply Nat2Z.inj. rewrite !length_slice by lia. reflexivity.
  - intros i Hi. rewrite length_slice in Hi by lia.
    rewrite !load_slice by lia. apply H. lia.
Qed.

Section Normalised.
Variable App : Type.
Implicit Types (st : disk_state App).

Lemma select_source_low st p_file b1 rs :
  select_source st p_file = Some (b1, rs) ->
  zlen (disk_buffer st) = sizeof_disk_buffer ->
  sizeof_disk_buffer <= zlen (flash st) ->
  forall k, 0 <= k < FILE_SECTOR -> load b1 k = load (disk_buffer st) k.
Proof.
  unfold select_source, sizeof_disk_buffer. intros H Hb Hf k Hk.
  destruct (any_label_at (disk_buffer st) FILE_SECTOR (entries st))
    as [v1 |]; [| discriminate].
  rewrite bind_Some in H; cbv beta in H.
  destruct (if p_file =? FILE_SECTOR then Some false
            else any_label_at (disk_buffer st) p_file (entries st))
    as [v2 |]; [| discriminate].
  rewrite bind_Some in H; cbv beta in H.
  destruct v2; [injection H as <- _; reflexivity |].
  destruct v1; [injection H as <- _; reflexivity |].
  destruct (any_label_at _ FILE_SECTOR (entries st)) as [v3 |];
    [| discriminate].
  rewrite bind_Some in H; cbv beta in H. injection H as <- _.
  unfold FILE_SECTOR, FILE_SECTOR_SIZE in *.
  apply load_memcpy_out; try lia.
  rewrite length_slice; lia.
Qed.

(** X17.  Normalisation is found again: after [validate_file] has run on
    the entry that [find_file] returns, [find_file] returns the same
    directory index, the pointer [FILE_SECTOR] (cluster 2) and the length
    of the rebuilt content. *)
Theorem validate_file_then_find_file st p_file root_addr st' illegal :
  zlen (disk_buffer st) = sizeof_disk_buffer ->
  sizeof_disk_buffer <= zlen (flash st) ->
  first_config_entry (disk_buffer st) root_addr ->
  validate_file st p_file root_addr = Some (st', illegal) ->
  exists b1 a fcb m,
    file_content st p_file = Some (b1, a, illegal, fcb, m)
    /\ find_file (disk_buffer st') CONFIG_FILENAME
       = Some (FILE_SECTOR, m, root_addr).
Proof.
  intros Hb Hf (Hr & Hcfg & Hfirst) Hv.
  unfold validate_file in Hv.
  apply bind_inv in Hv. destruct Hv as ([[[[b1 a] ill] fcb] m] & Hc & Hv).
  cbv beta iota in Hv.
  destruct (file_content_bounds _ _ _ _ _ _ _ _ Hc Hb Hf) as (L1 & Lf & Hm).
  assert (Hlow : forall k, 0 <= k < FILE_SECTOR ->
                 load b1 k = load (disk_buffer st) k).
  { unfold file_content in Hc.
    destruct (select_source st p_file) as [[b1' rs] |] eqn:Hs;
      [| discriminate].
    rewrite bind_Some in Hc; cbv beta iota in Hc.
    destruct (slice_opt b1' rs sizeof_file_buffer) as [fb |]; [| discriminate].
    rewrite bind_Some in Hc; cbv beta in Hc.
    destruct (split_lines fb _ 0 _) as [pb0 |]; [| discriminate].
    rewrite bind_Some in Hc; cbv beta in Hc.
    destruct (resolve_entries (entries st) 0 _) as [[[pb a'] ill'] |];
      [| discriminate].
    rewrite bind_Some in Hc; cbv beta iota in Hc.
    destruct (rebuild_loop (entries st) 0 pb _ 0) as [fcb' m'].
    injection Hc as <- _ _ _ _.
    eapply select_source_low; eassumption. }
  unfold sizeof_disk_buffer, FILE_CHAR_CNT, FILE_SECTOR in *.
  destruct (write_dir_entry_stores b1 root_addr m)
    as (b2 & E2 & L2 & D1 & D2 & D3 & D4 & D5 & D6 & D7);
    [unfold ROOT_SECTOR, SECTOR_SIZE; lia | exact Hr |].
  rewrite E2 in Hv. rewrite bind_Some in Hv; cbv beta in Hv.
  destruct (update_fat_chain_fits b2 m)
    as (b3 & E3 & L3 & _ & _ & _ & _ & _ & F3); [lia | lia |].
  rewrite E3 in Hv. rewrite bind_Some in Hv; cbv beta in Hv.
  assert (Ls : zlen (slice fcb 0 m) = m) by (apply length_slice; lia).
  set (b4 := memcpy b3 1536 (slice fcb 0 m)) in Hv.
  assert (L4 : length b4 = length b3)
    by (apply length_memcpy; unfold FILE_SECTOR; lia).
  unfold FILE_SECTOR_SIZE in Hv.
  destruct (Z.ltb_spec m (0x4000 - 0x600)); [| lia].
  set (b5 := memset b4 (1536 + m) 0 (0x4000 - 0x600 - m)) in Hv.
  assert (L5 : length b5 = length b4)
    by (apply length_memset; unfold FILE_SECTOR; lia).
  assert (Hroot : forall k, 0x400 <= k < 0x600 -> load b5 k = load b2 k).
  { intros k Hk. unfold b5.
    rewrite load_memset_out by (unfold FILE_SECTOR; lia).
    unfold b4. rewrite load_memcpy_out by (unfold FILE_SECTOR; lia).
    apply F3. lia. }
  injection Hv as <- <-.
  cbn [disk_buffer set_app set_page_dirty_mask set_disk_buffer].
  exists b1, a, fcb, m. split; [exact Hc |].
  unfold ROOT_SECTOR in *. cbv zeta in D1, D2, D3, D4, D7.
  assert (Hname : forall j, 0 <= j < 16 ->
            slice b5 (1024 + 32 * j) 11 = slice (disk_buffer st) (1024 + 32 * j) 11).
  { intros j Hj. apply slice_ext; try lia.
    intros k Hk. rewrite Hroot by lia.
    rewrite D7 by lia. apply Hlow. lia. }
  unfold find_file.
  rewrite (find_file_loop_first b5 16 0 root_addr);
    [| lia | | ].
  - unfold ROOT_SECTOR, FILE_SECTOR, SECTOR_SIZE, le16.
    replace (1024 + 32 * root_addr + 26) with (1024 + root_addr * 32 + 26) by lia.
    replace (1024 + root_addr * 32 + 26 + 1) with (1024 + root_addr * 32 + 27) by lia.
    replace (1024 + 32 * root_addr + 28) with (1024 + root_addr * 32 + 28) by lia.
    replace (1024 + root_addr * 32 + 28 + 1) with (1024 + root_addr * 32 + 29) by lia.
    rewrite !Hroot by lia.
    rewrite D1, D2, D3, D4.
    rewrite le16_of_size_bytes by lia. reflexivity.
  - unfold is_config_entry, ROOT_SECTOR in *. rewrite Hname by lia.
    exact Hcfg.
  - intros j Hj. unfold is_config_entry, ROOT_SECTOR in *.
    rewrite Hname by lia. apply Hfirst. lia.
Qed.

End Normalised.

(** ** Start-up *)

Section StartUp.
Variable App : Type.
Implicit Types (st : disk_state App).

Lemma load_from_flash_mirror st :
  zlen (disk_buffer st) = sizeof_disk_buffer ->
  sizeof_disk_buffer <= zlen (flash st) ->
  zlen (page_dirty_mask st) = sizeof_page_dirty_mask ->
  disk_buffer (load_from_flash st) = slice (flash st) 0 sizeof_disk_buffer
  /\ page_dirty_mask (load_from_flash st)
     = repeat 0 (Z.to_nat sizeof_page_dirty_mask).
Proof.
  unfold sizeof_disk_buffer, sizeof_page_dirty_mask. intros Hb Hf Hm.
  unfold load_from_flash.
  cbn [disk_buffer page_dirty_mask set_page_dirty_mask set_disk_buffer].
  split.
  - apply memcpy_whole. apply Nat2Z.inj.
    rewrite length_slice; unfold sizeof_disk_buffer; lia.
  - unfold memset. apply memcpy_whole. rewrite repeat_length.
    unfold sizeof_page_dirty_mask. lia.
Qed.

(** X16.  First start: when the flash region holds no CONFIG.TXT
    directory entry (a blank or erased flash), [init] builds the default
    volume in the mirror.  The first directory entry is named CONFIG.TXT
    with attribute 0, starting cluster 2 and the length of the default
    text as size; the default text stands at [FILE_SECTOR] with zeros
    behind it; the FAT chain covers it; every dirty flag is set and the
    commit is armed.  The flash, the registry and the handlers' state are
    not touched: the update handlers are not called with the defaults on
    this path. *)
Theorem init_creates_default_file st now :
  zlen (disk_buffer st) = sizeof_disk_buffer ->
  sizeof_disk_buffer <= zlen (flash st) ->
  zlen (page_dirty_mask st) = sizeof_page_dirty_mask ->
  no_config_entry (flash st) ->
  zlen (default_text (entries st)) < FILE_SECTOR_SIZE ->
  let text := default_text (entries st) in
  let n := Z.max 1 ((zlen text + 511) / 512) in
  exists st',
    init st now = Some st'
    /\ pending_flash_write st' = true /\ last_write_tick st' = now
    /\ page_dirty_mask st' = repeat 1 (Z.to_nat sizeof_page_dirty_mask)
    /\ flash st' = flash st /\ entries st' = entries st /\ app st' = app st
    /\ slice (disk_buffer st') ROOT_SECTOR 11 = slice CONFIG_FILENAME 0 11
    /\ load (disk_buffer st') (ROOT_SECTOR + 0x0B) = 0
    /\ canonical_layout (disk_buffer st') 0 text (zlen text)
    /\ slice (disk_buffer st') FAT1_SECTOR 3 = [0xF8; 0xFF; 0xFF]
    /\ (forall i, 0 <= i < n ->
        fat12_entry (disk_buffer st') FAT1_SECTOR (2 + i)
        = if i =? n - 1 then 0xFFF else 3 + i)
    /\ slice (disk_buffer st') FAT2_SECTOR SECTOR_SIZE
       = slice (disk_buffer st') FAT1_SECTOR SECTOR_SIZE
    /\ find_file (disk_buffer st') CONFIG_FILENAME
       = Some (FILE_SECTOR, zlen text, 0).
Proof.
  intros Hb Hf Hm Hno Hfit.
  destruct (load_from_flash_mirror st Hb Hf Hm) as [Eb Em].
  unfold init.
  assert (Hnone : find_file (disk_buffer (load_from_flash st)) CONFIG_FILENAME
                  = None).
  { unfold find_file. apply find_file_loop_none.
    intros j Hj Hc. apply (Hno j); [lia |].
    unfold is_config_entry in *. rewrite Eb in Hc.
    unfold sizeof_disk_buffer, ROOT_SECTOR in *.
    rewrite slice_slice in Hc by lia. exact Hc. }
  assert (Hb' : zlen (disk_buffer (load_from_flash st)) = sizeof_disk_buffer).
  { rewrite Eb. unfold sizeof_disk_buffer in *. apply length_slice; lia. }
  assert (Hm' : zlen (page_dirty_mask (load_from_flash st))
                = sizeof_page_dirty_mask).
  { rewrite Em, repeat_length. unfold sizeof_page_dirty_mask. lia. }
  exact (flush_file_default_file App (load_from_flash st) now
           Hnone Hb' Hm' Hfit).
Qed.

(** X18.  A commit right after [load_from_flash] writes nothing: the
    load clears every dirty flag, so [rewrite_dirty_flash_pages] finds no
    page to erase and the flash is left as it is, on either target and
    whatever the HAL answers. *)
Theorem commit_after_load_writes_nothing tgt st :
  zlen (disk_buffer st) = sizeof_disk_buffer ->
  sizeof_disk_buffer <= zlen (flash st) ->
  zlen (page_dirty_mask st) = sizeof_page_dirty_mask ->
  let st' := fst (rewrite_dirty_flash_pages tgt (load_from_flash st)) in
  flash st' = flash st
  /\ disk_buffer st' = slice (flash st) 0 sizeof_disk_buffer
  /\ page_dirty_mask st' = repeat 0 (Z.to_nat sizeof_page_dirty_mask).
Proof.
  intros Hb Hf Hm. cbv zeta.
  destruct (load_from_flash_mirror st Hb Hf Hm) as [Eb Em].
  pose proof (rewrite_dirty_flash_pages_ram App tgt (load_from_flash st)) as R.
  cbv zeta in R. destruct R as (_ & Rb & Rm & _).
  assert (Hclean : forall n, (n <= 32)%nat ->
            first_dirty (repeat 0 (Z.to_nat sizeof_page_dirty_mask)) 0 n = None).
  { intros n Hn.
    assert (G : forall fuel i, 0 <= i ->
              first_dirty (repeat 0 (Z.to_nat sizeof_page_dirty_mask)) i fuel
              = None).
    { induction fuel as [| fuel IH]; intros i Hi; [reflexivity |].
      cbn [first_dirty].
      assert (E : load (repeat 0 (Z.to_nat sizeof_page_dirty_mask)) i = 0)
        by (destruct (load_repeat 0 sizeof_page_dirty_mask i); assumption).
      rewrite E. cbn [Z.eqb negb]. apply IH. lia. }
    apply G. lia. }
  split.
  - unfold rewrite_dirty_flash_pages, HAL_FLASH_Unlock, HAL_FLASH_Lock.
    destruct (hal_next (hal_script (load_from_flash st))) as [s0 r0].
    cbn [page_dirty_mask set_flash]. rewrite Em.
    destruct tgt.
    + rewrite (Hclean 16%nat) by lia.
      cbn [hal_script set_flash].
      destruct (hal_next r0) as [s1 r1]. reflexivity.
    + rewrite (Hclean (Z.to_nat sizeof_page_dirty_mask))
        by (unfold sizeof_page_dirty_mask; lia).
      cbn [hal_script set_flash].
      destruct (hal_next r0) as [s1 r1]. reflexivity.
  - split; [rewrite Rb; exact Eb |].
    rewrite Rm, Em. unfold flags_after_commit.
    destruct tgt.
    + rewrite (Hclean 16%nat) by lia. reflexivity.
    + rewrite (Hclean (Z.to_nat sizeof_page_dirty_mask))
        by (unfold sizeof_page_dirty_mask; lia).
      reflexivity.
Qed.

End StartUp.

(** ** Values of parsed lines *)

Lemma tab_hash_at_tail c value i :
  0 <= i -> tab_hash_at value i -> tab_hash_at (c :: value) (i + 1).
Proof.
  unfold tab_hash_at. intros Hi [A B].
  rewrite !load_cons_S by lia.
  replace (i + 1 - 1) with i by lia.
  replace (i + 1 + 1 - 1) with (i + 1) by lia.
  split; assumption.
Qed.

Lemma find_comment_start_skips value tail : forall p,
  Forall (fun c => c <> 0) value ->
  (forall i, 0 <= i -> ~ tab_hash_at value i) ->
  hd 0 tail <> 35 ->
  find_comment_start (value ++ tail) p
  = find_comment_start tail (p + zlen value).
Proof.
  induction value as [| c value IH]; intros p Hall Hno Htail.
  - cbn [Datatypes.app length]. f_equal. lia.
  - inversion Hall as [| c' v' H0 Hall']; subst.
    cbn [Datatypes.app find_comment_start].
    rewrite (proj2 (Z.eqb_neq c 0)) by exact H0.
    assert (Hnext : (c =? 9) && (hd 0 (value ++ tail) =? 35) = false).
    { destruct (Z.eqb_spec c 9) as [E9 | E9]; [| reflexivity].
      cbn [andb]. apply Z.eqb_neq.
      destruct value as [| d value'].
      - exact Htail.
      - cbn [Datatypes.app hd]. intros E35. apply (Hno 0); [lia |].
        split; [rewrite load_cons_0; exact E9 |].
        rewrite load_cons_S by lia. exact E35. }
    rewrite Hnext. rewrite IH; [| exact Hall' | | exact Htail].
    + f_equal. cbn [length]. lia.
    + intros i Hi Ht. apply (Hno (i + 1)); [lia |].
      apply tab_hash_at_tail; assumption.
Qed.

Lemma strlen_app_nonzero value tail :
  Forall (fun c => c <> 0) value ->
  strlen (value ++ tail) = zlen value + strlen tail.
Proof.
  induction 1 as [| c value H0 _ IH]; [reflexivity |].
  cbn [Datatypes.app]. rewrite strlen_cons.
  rewrite (proj2 (Z.eqb_neq c 0)) by exact H0.
  rewrite IH. cbn [length]. lia.
Qed.

Lemma value_length value tail :
  Forall (fun c => c <> 0) value ->
  (forall i, 0 <= i -> ~ tab_hash_at value i) ->
  value_end tail ->
  match find_comment_start (value ++ tail) 0 with
  | Some n => n
  | None => strlen (value ++ tail)
  end = zlen value.
Proof.
  intros Hall Hno Hend.
  assert (Htail : hd 0 tail <> 35)
    by (destruct Hend as [-> | [[r ->] | [r ->]]]; cbn [hd]; lia).
  rewrite find_comment_start_skips by assumption.
  rewrite strlen_app_nonzero by exact Hall.
  destruct Hend as [-> | [[r ->] | [r ->]]]; cbn; lia.
Qed.

Section ParsedValues.
Variable App : Type.

(** X19.  The value handed to an entry's handlers.  For the parsed line
    of a registered entry, the text between the '=' and the end of the
    line or the first TAB that is followed by '#' reaches [validate] and
    [update] as a NUL-padded [FILE_ROW_CNT]-byte buffer holding exactly
    that text; a TAB that is not followed by '#' belongs to the value.
    When the validator accepts it (or there is none), [update] is called
    with it, row [k] is rewritten by [print] and [illegal] is left as it
    was; when the validator refuses it, row [k] becomes
    ["label=default"], the handlers' state is left alone and [illegal]
    is 1. *)
Theorem resolve_entry_passes_clean_value k (e : FILE_ENTRY App) pb
  (a : App) illegal row value tail :
  find_line pb e = Some (Some row) ->
  skipn (Z.to_nat (strlen (entry e) + 1)) row = value ++ tail ->
  Forall (fun c => c <> 0) value ->
  (forall i, 0 <= i -> ~ tab_hash_at value i) ->
  value_end tail ->
  zlen value <= FILE_ROW_CNT - 1 ->
  let vb := memcpy (repeat 0 (Z.to_nat FILE_ROW_CNT)) 0 value in
  let valid :=
    match validate e with
    | Some v => v vb a
    | None => true
    end in
  let a' :=
    match update e with
    | Some u => u vb a
    | None => a
    end in
  zlen vb = FILE_ROW_CNT /\ cstr vb = value
  /\ resolve_entry k e (pb, a, illegal)
     = if valid
       then Some (match print e with
                  | Some p =>
                      set_row pb k
                        (memcpy (get_row pb k) 0
                           (slice (p a' FILE_ROW_CNT) 0 FILE_ROW_CNT))
                  | None => pb
                  end, a', illegal)
       else Some (set_row pb k
                    (snprintf (get_row pb k) 0 FILE_ROW_CNT (default_line e)),
                  a, 1).
Proof.
  intros Hline Hrow Hall Hno Hend Hfit. cbv zeta.
  unfold FILE_ROW_CNT in *.
  assert (Lz : zlen (repeat 0 (Z.to_nat 2048)) = 2048)
    by (rewrite repeat_length; lia).
  split; [rewrite length_memcpy; lia |].
  split.
  { unfold memcpy. change (Z.to_nat 0) with 0%nat.
    rewrite Nat.add_0_l. cbn [firstn Datatypes.app].
    assert (exists y, skipn (length value) (repeat 0 (Z.to_nat 2048)) = 0 :: y)
      as [y Hy].
    { replace (Z.to_nat 2048)
        with (length value + S (Z.to_nat 2048 - length value - 1))%nat by lia.
      rewrite repeat_app, skipn_app, repeat_length, Nat.sub_diag.
      rewrite skipn_all2 by (rewrite repeat_length; lia).
      cbn [skipn Datatypes.app repeat]. eexists. reflexivity. }
    rewrite Hy. apply cstr_prefix. exact Hall. }
  unfold resolve_entry. rewrite Hline. rewrite bind_Some; cbv beta iota zeta.
  rewrite Hrow. rewrite (value_length value tail Hall Hno Hend).
  unfold FILE_ROW_CNT.
  rewrite Z.min_l by lia.
  assert (Es : slice (value ++ tail) 0 (zlen value) = value).
  { unfold slice. cbn [Z.to_nat skipn]. rewrite Nat2Z.id.
    rewrite firstn_app, Nat.sub_diag, firstn_all. cbn [firstn].
    apply app_nil_r. }
  rewrite Es. reflexivity.
Qed.

End ParsedValues.

(** ** The commit that follows a validation *)

Section CommitAfterValidation.
Variable App : Type.
Implicit Types (st : disk_state App).

(** X20.  On the F1, a [process] that finds CONFIG.TXT with a non-zero
    length never writes flash beyond the first page: [validate_file]
    sets the flags of pages 0 and 1, the commit handles the first dirty
    page only, which is then page 0, and the pending flag is cleared.
    The flag of page 1 (root directory and start of the file) is still
    set afterwards, and every flash byte from offset [FLASH_PAGE_SIZE]
    on is as before, whatever the HAL answers. *)
Theorem f1_commit_after_validation_stops_at_page_0 st now p_file file_len
  root_addr st1 illegal :
  commit_due st now = true ->
  find_file (disk_buffer st) CONFIG_FILENAME
  = Some (p_file, file_len, root_addr) ->
  0 < file_len ->
  validate_file st p_file root_addr = Some (st1, illegal) ->
  zlen (page_dirty_mask st) = sizeof_page_dirty_mask ->
  FLASH_PAGE_SIZE STM32F103xB <= zlen (flash st) ->
  exists st',
    process STM32F103xB st now = Some st'
    /\ pending_flash_write st' = false
    /\ disk_buffer st' = disk_buffer st1
    /\ load (page_dirty_mask st') 0 = 0
    /\ load (page_dirty_mask st') 1 = 1
    /\ forall k, FLASH_PAGE_SIZE STM32F103xB <= k ->
         load (flash st') k = load (flash st) k.
Proof.
  intros Hdue Hfind Hlen Hv Hm Hf.
  destruct (validate_file_frame App st p_file root_addr st1 illegal Hv)
    as (Vm & _ & _ & Vf & _ & _).
  unfold process. rewrite Hdue, Hfind.
  rewrite (proj2 (Z.ltb_lt 0 file_len)) by exact Hlen.
  rewrite Hv. rewrite !bind_Some; cbv beta iota.
  pose proof (rewrite_dirty_flash_pages_ram App STM32F103xB st1) as R.
  cbv zeta in R. destruct R as (_ & Rb & Rm & _).
  unfold sizeof_page_dirty_mask, FLASH_PAGE_SIZE in *.
  assert (L1 : zlen (store (page_dirty_mask st) 0 1) = 32)
    by (rewrite length_store; lia).
  assert (Hfirst : first_dirty (page_dirty_mask st1) 0 16 = Some 0).
  { rewrite Vm. cbn [first_dirty].
    rewrite load_store_other, load_store_same by lia. reflexivity. }
  assert (Hflash : forall k, 1024 <= k ->
            load (flash (fst (rewrite_dirty_flash_pages STM32F103xB st1))) k
            = load (flash st) k).
  { intros k Hk. rewrite <- Vf.
    unfold rewrite_dirty_flash_pages, HAL_FLASH_Unlock, HAL_FLASH_Lock.
    destruct (hal_next (hal_script st1)) as [s0 r0].
    set (st2 := set_flash st1 (flash st1) r0).
    change (page_dirty_mask st2) with (page_dirty_mask st1). rewrite Hfirst.
    set (sta := set_page_dirty_mask st2 (store (page_dirty_mask st1) 0 0)).
    unfold erase_flash_page, FLASH_PAGE_SIZE.
    change (0 * 1024) with 0.
    destruct (HAL_FLASHEx_Erase_frame App sta 0 1024 ltac:(lia) ltac:(lia)
                ltac:(cbn [flash sta st2 set_flash set_page_dirty_mask];
                      rewrite Vf; lia))
      as (A1 & A2).
    destruct (HAL_FLASHEx_Erase sta 0 1024) as [stb sb]. cbn [fst] in *.
    change (flash sta) with (flash st1) in *.
    change (1024 / 2) with 512.
    pose proof (program_loop_frame App (Z.to_nat 512) stb 0 0 ltac:(lia))
      as P.
    rewrite A1, Vf, Z2Nat.id in P by lia.
    specialize (P ltac:(lia)). cbv zeta in P.
    set (stc := program_loop stb 0 0 (Z.to_nat 512)) in *. clearbody stc.
    destruct P as (_ & P2).
    destruct (hal_next (hal_script stc)) as [s3 r3].
    cbn [fst flash set_flash].
    rewrite P2 by lia. apply A2; lia. }
  destruct (rewrite_dirty_flash_pages STM32F103xB st1) as [st2 r2].
  cbn [fst] in *.
  eexists. split; [reflexivity |].
  cbn [pending_flash_write disk_buffer page_dirty_mask flash set_pending].
  split; [reflexivity |]. split; [exact Rb |].
  rewrite Rm. unfold flags_after_commit. rewrite Hfirst, Vm.
  assert (L2 : zlen (store (store (page_dirty_mask st) 0 1) 1 1) = 32)
    by (rewrite length_store; lia).
  split; [apply load_store_same; lia |].
  split; [| exact Hflash].
  rewrite load_store_other, load_store_same by lia. reflexivity.
Qed.

(** X21.  On the F4 with a working HAL, a due [process] that finds
    CONFIG.TXT with a non-zero length leaves the normalised mirror in
    flash: after it the flash equals the mirror, no page is dirty and
    nothing is pending. *)
Theorem f4_process_persists_normalised_image st now p_file file_len
  root_addr st1 illegal :
  commit_due st now = true ->
  find_file (disk_buffer st) CONFIG_FILENAME
  = Some (p_file, file_len, root_addr) ->
  0 < file_len ->
  validate_file st p_file root_addr = Some (st1, illegal) ->
  zlen (page_dirty_mask st) = sizeof_page_dirty_mask ->
  zlen (disk_buffer st1) = sizeof_disk_buffer ->
  is_bytes (disk_buffer st1) ->
  zlen (flash st) = sizeof_disk_buffer -> hal_ok (hal_script st) ->
  exists st',
    process STM32F411xE st now = Some st'
    /\ pending_flash_write st' = false
    /\ disk_buffer st' = disk_buffer st1
    /\ flash st' = disk_buffer st'
    /\ page_dirty_mask st' = repeat 0 (Z.to_nat sizeof_page_dirty_mask).
Proof.
  intros Hdue Hfind Hlen Hv Hm Hb1 Hbytes Hf Hs.
  destruct (validate_file_frame App st p_file root_addr st1 illegal Hv)
    as (Vm & _ & _ & Vf & Vs & _).
  unfold process. rewrite Hdue, Hfind.
  rewrite (proj2 (Z.ltb_lt 0 file_len)) by exact Hlen.
  rewrite Hv. rewrite !bind_Some; cbv beta iota.
  pose proof (rewrite_dirty_flash_pages_ram App STM32F411xE st1) as R.
  cbv zeta in R. destruct R as (_ & Rb & Rm & _).
  unfold sizeof_page_dirty_mask in *.
  assert (L1 : zlen (store (page_dirty_mask st) 0 1) = 32)
    by (rewrite length_store; lia).
  assert (L2 : zlen (store (store (page_dirty_mask st) 0 1) 1 1) = 32)
    by (rewrite length_store; lia).
  assert (Hfirst : first_dirty (page_dirty_mask st1) 0 (Z.to_nat 32) = Some 0).
  { rewrite Vm. change (Z.to_nat 32) with 32%nat. cbn [first_dirty].
    rewrite load_store_other, load_store_same by lia. reflexivity. }
  pose proof (commit_programs_whole_image_flash App st1 0
              ltac:(rewrite Vs; exact Hs) Hbytes Hb1
              ltac:(rewrite Vf; exact Hf) Hfirst) as Hflash.
  destruct (rewrite_dirty_flash_pages STM32F411xE st1) as [st2 r2].
  cbn [fst] in *.
  eexists. split; [reflexivity |].
  cbn [pending_flash_write disk_buffer page_dirty_mask flash set_pending].
  split; [reflexivity |]. split; [exact Rb |].
  split; [rewrite Rb; exact Hflash |].
  rewrite Rm. unfold flags_after_commit, sizeof_page_dirty_mask.
  rewrite Hfirst. rewrite Vm.
  unfold memset. apply memcpy_whole. rewrite repeat_length. lia.
Qed.

End CommitAfterValidation.

(** ** The size of the staging buffer *)

Section Staging.
Variable App : Type.
Variable tgt : target.
Implicit Types (st : disk_state App).


End Staging.

(** ** The parsed rows *)

Lemma get_set_row_same pb k row :
  0 <= k < zlen pb -> get_row (set_row pb k row) k = row.
Proof.
  intros Hk. unfold get_row, set_row.
  rewrite app_nth2 by (rewrite length_firstn; lia).
  rewrite length_firstn.
  replace (Z.to_nat k - Nat.min (Z.to_nat k) (length pb))%nat with 0%nat by lia.
  reflexivity.
Qed.

Lemma get_set_row_other pb k row i :
  0 <= k < zlen pb -> 0 <= i -> i <> k ->
  get_row (set_row pb k row) i = get_row pb i.
Proof.
  intros Hk Hi Hne. unfold get_row, set_row.
  destruct (Z_lt_dec i k) as [Hlt | Hge].
  - rewrite app_nth1 by (rewrite length_firstn; lia).
    rewrite nth_firstn. rewrite (proj2 (Nat.ltb_lt _ _)) by lia. reflexivity.
  - rewrite app_nth2 by (rewrite length_firstn; lia).
    rewrite length_firstn.
    replace (Z.to_nat i - Nat.min (Z.to_nat k) (length pb))%nat
      with (S (Z.to_nat i - Z.to_nat k - 1))%nat by lia.
    cbn [nth]. rewrite nth_skipn. f_equal. lia.
Qed.

Lemma cstr_zero_row n : cstr (repeat 0 (S n)) = [].
Proof. reflexivity. Qed.

(** The row that one line leaves: the line, then NULs. *)
Lemma cstr_line_row l :
  plain_line l ->
  cstr (store (memcpy (repeat 0 (Z.to_nat FILE_ROW_CNT)) 0 l) (zlen l) 0) = l.
Proof.
  intros [Hall Hfit]. unfold FILE_ROW_CNT in *.
  assert (Lz : zlen (repeat 0 (Z.to_nat 2048)) = 2048)
    by (rewrite repeat_length; lia).
  assert (Lm : zlen (memcpy (repeat 0 (Z.to_nat 2048)) 0 l) = 2048)
    by (rewrite length_memcpy; lia).
  assert (E : store (memcpy (repeat 0 (Z.to_nat 2048)) 0 l) (zlen l) 0
              = memcpy (repeat 0 (Z.to_nat 2048)) 0 l).
  { apply bytes_ext; [apply length_store; lia |].
    intros i Hi. rewrite length_store in Hi by lia.
    destruct (Z.eq_dec i (zlen l)) as [-> | Hne].
    - rewrite load_store_same by lia.
      rewrite load_memcpy_out by lia.
      symmetry. apply load_repeat_in. lia.
    - apply load_store_other; lia. }
  rewrite E. unfold memcpy. change (Z.to_nat 0) with 0%nat.
  rewrite Nat.add_0_l. cbn [firstn Datatypes.app].
  assert (exists y, skipn (length l) (repeat 0 (Z.to_nat 2048)) = 0 :: y)
    as [y Hy].
  { replace (Z.to_nat 2048)
      with (length l + S (Z.to_nat 2048 - length l - 1))%nat by lia.
    rewrite repeat_app, skipn_app, repeat_length, Nat.sub_diag.
    rewrite skipn_all2 by (rewrite repeat_length; lia).
    cbn [skipn Datatypes.app repeat]. eexists. reflexivity. }
  rewrite Hy. apply cstr_prefix.
  eapply Forall_impl; [| exact Hall]. unfold line_byte. tauto.
Qed.

Lemma split_lines_rows ls : forall pb line_idx rest fuel,
  Forall (fun x => plain_line (fst x)) ls ->
  zlen pb = FILE_ENTRY_CNT ->
  0 <= line_idx -> line_idx + Z.of_nat fuel = FILE_ENTRY_CNT ->
  zlen ls <= Z.of_nat fuel ->
  (forall i, line_idx <= i < FILE_ENTRY_CNT ->
     get_row pb i = repeat 0 (Z.to_nat FILE_ROW_CNT)) ->
  exists pb',
    split_lines (join_lines ls ++ 0 :: rest) pb line_idx fuel = Some pb'
    /\ zlen pb' = FILE_ENTRY_CNT
    /\ (forall i, 0 <= i < line_idx -> get_row pb' i = get_row pb i)
    /\ (forall i, 0 <= i < zlen ls ->
        cstr (get_row pb' (line_idx + i)) = fst (nth (Z.to_nat i) ls ([], false)))
    /\ (forall i, line_idx + zlen ls <= i < FILE_ENTRY_CNT ->
        cstr (get_row pb' i) = []).
Proof.
  unfold FILE_ENTRY_CNT.
  induction ls as [| [l crlf] ls IH];
    intros pb line_idx rest fuel Hall Hpb Hi Hfuel Hn Hzero.
  - cbn [join_lines Datatypes.app length] in *.
    destruct fuel as [| fuel].
    + exists pb. cbn [split_lines]. split; [reflexivity |].
      split; [exact Hpb |]. split; [intros; reflexivity |].
      split; intros i Hr; lia.
    + cbn [split_lines scan_line]. change (0 =? 0) with true. cbv iota.
      rewrite bind_Some; cbv beta iota.
      eexists. split; [reflexivity |].
      assert (Hrow : get_row pb line_idx = repeat 0 (Z.to_nat FILE_ROW_CNT))
        by (apply Hzero; lia).
      assert (Est : store (get_row pb line_idx) 0 0
                    = repeat 0 (Z.to_nat FILE_ROW_CNT)).
      { rewrite Hrow. reflexivity. }
      split.
      { unfold set_row. rewrite length_app, length_firstn. cbn [length].
        rewrite length_skipn. lia. }
      split; [intros i Hr; apply get_set_row_other; lia |].
      split; [intros i Hr; lia |].
      intros i Hr.
      destruct (Z.eq_dec i line_idx) as [-> | Hne].
      * rewrite get_set_row_same by lia. rewrite Est. reflexivity.
      * rewrite get_set_row_other by lia. rewrite Hzero by lia. reflexivity.
  - inversion Hall as [| x xs Hl Hall']; subst. cbn [fst] in Hl.
    cbn [length] in Hn.
    destruct fuel as [| fuel]; [lia |].
    assert (Hrow : get_row pb line_idx = repeat 0 (Z.to_nat FILE_ROW_CNT))
      by (apply Hzero; lia).
    assert (Lz : zlen (repeat 0 (Z.to_nat FILE_ROW_CNT)) = FILE_ROW_CNT)
      by (rewrite repeat_length; unfold FILE_ROW_CNT; lia).
    cbn [split_lines join_lines]. rewrite <- !app_assoc. rewrite Hrow.
    assert (Escan : scan_line
                      (l ++ (if crlf then [13; 10] else [10])
                         ++ join_lines ls ++ 0 :: rest)
                      (repeat 0 (Z.to_nat FILE_ROW_CNT)) 0
                    = Some (memcpy (repeat 0 (Z.to_nat FILE_ROW_CNT)) 0 l,
                            zlen l, join_lines ls ++ 0 :: rest, false)).
    { destruct Hl as [Hl1 Hl2].
      destruct crlf; rewrite scan_line_run by (assumption || lia);
        reflexivity. }
    rewrite Escan. rewrite bind_Some; cbv beta iota.
    set (row := store (memcpy (repeat 0 (Z.to_nat FILE_ROW_CNT)) 0 l) (zlen l) 0).
    set (pb1 := set_row pb line_idx row).
    assert (Lpb1 : zlen pb1 = 8).
    { unfold pb1, set_row. rewrite length_app, length_firstn. cbn [length].
      rewrite length_skipn. lia. }
    destruct (IH pb1 (line_idx + 1) rest fuel Hall' Lpb1 ltac:(lia) ltac:(lia)
                ltac:(lia))
      as (pb' & E & L & Hlow & Hrows & Hrest).
    { intros i Hr. unfold pb1. rewrite get_set_row_other by lia.
      apply Hzero. lia. }
    exists pb'. split; [exact E |]. split; [exact L |].
    split.
    { intros i Hr. rewrite Hlow by lia. unfold pb1.
      apply get_set_row_other; lia. }
    split.
    { intros i Hr. cbn [length] in Hr.
      destruct (Z.eq_dec i 0) as [-> | Hne].
      - rewrite Z.add_0_r. rewrite Hlow by lia. unfold pb1.
        rewrite get_set_row_same by lia. cbn [Z.to_nat nth fst].
        unfold row. apply cstr_line_row. exact Hl.
      - replace (line_idx + i) with (line_idx + 1 + (i - 1)) by lia.
        rewrite Hrows by lia.
        replace (Z.to_nat i) with (S (Z.to_nat (i - 1))) by lia.
        reflexivity. }
    intros i Hr. cbn [length] in Hr. apply Hrest. lia.
Qed.

(** X23.  What the line splitter of [validate_file] yields for a file of at
    most [FILE_ENTRY_CNT] lines, each free of NUL, CR and LF, no longer
    than [FILE_ROW_CNT - 1] bytes and ended by CR LF or by LF alone, with a
    NUL behind the last of them: row [i] of [parse_buffer] holds line [i]
    as a NUL-terminated string, and the rows behind the last line are
    empty. *)
Theorem split_lines_yields_the_lines (ls : list (list Z * bool)) (rest : list Z) :
  Forall (fun x => plain_line (fst x)) ls ->
  zlen ls <= FILE_ENTRY_CNT ->
  exists pb,
    split_lines (join_lines ls ++ 0 :: rest) blank_rows 0
      (Z.to_nat FILE_ENTRY_CNT) = Some pb
    /\ zlen pb = FILE_ENTRY_CNT
    /\ (forall i, 0 <= i < zlen ls ->
        cstr (get_row pb i) = fst (nth (Z.to_nat i) ls ([], false)))
    /\ (forall i, zlen ls <= i < FILE_ENTRY_CNT -> cstr (get_row pb i) = []).
Proof.
  intros Hall Hn.
  destruct (split_lines_rows ls blank_rows 0 rest (Z.to_nat FILE_ENTRY_CNT) Hall)
    as (pb & E & L & _ & Hrows & Hrest).
  - unfold blank_rows. rewrite repeat_length. unfold FILE_ENTRY_CNT. lia.
  - lia.
  - unfold FILE_ENTRY_CNT. lia.
  - unfold FILE_ENTRY_CNT in *. lia.
  - intros i Hi. unfold get_row, blank_rows.
    apply nth_repeat_lt. unfold FILE_ENTRY_CNT in *. lia.
  - exists pb. split; [exact E |]. split; [exact L |]. split.
    + intros i Hi. rewrite <- (Hrows i Hi). f_equal.
    + intros i Hi. apply Hrest. lia.
Qed.

(** ** The two directory scans *)

Lemma find_file_loop_some b fuel : forall i k,
  i <= k < i + Z.of_nat fuel -> is_config_entry b k ->
  exists p len n,
    find_file_loop b CONFIG_FILENAME i fuel = Some (p, len, n) /\ i <= n <= k.
Proof.
  induction fuel as [| fuel IH]; intros i k Hk Hc; [lia |].
  cbn [find_file_loop].
  destruct (bytes_eqb _ _) eqn:E.
  - eexists _, _, _. split; [reflexivity | lia].
  - destruct (Z.eq_dec i k) as [-> | Hne].
    + unfold is_config_entry in Hc. rewrite Hc, bytes_eqb_refl in E.
      discriminate.
    + destruct (IH (i + 1) k ltac:(lia) Hc) as (p & len & n & F & Hn).
      exists p, len, n. split; [exact F | lia].
Qed.

(** X24.  Whenever the scan that [write_sector] runs after a root-directory
    write recognises CONFIG.TXT (an entry named exactly [CONFIG  TXT]),
    [find_file] finds a file too, at that entry or at an earlier one whose
    name differs only in letter case: [find_file] compares the upper-cased
    name, the scan in [write_sector] the name as stored. *)
Theorem root_scan_implies_find_file (b : list Z) (e : Z) :
  zlen b = sizeof_disk_buffer ->
  scan_config_entry b 0 16 = Some e ->
  exists p len n,
    find_file b CONFIG_FILENAME = Some (p, len, n)
    /\ 0 <= n /\ ROOT_SECTOR + 32 * n <= e.
Proof.
  intros Hb Hscan.
  destruct (scan_config_entry_some b 16 0 e Hscan) as (k & Hk & -> & Hname & _).
  change (Z.of_nat 16) with 16 in Hk.
  assert (Hc : is_config_entry b k).
  { unfold is_config_entry.
    unfold sizeof_disk_buffer, ROOT_SECTOR in *.
    rewrite slice_slice in Hname by lia.
    rewrite Z.add_0_r in Hname. rewrite Hname. reflexivity. }
  destruct (find_file_loop_some b 16 0 k ltac:(lia) Hc)
    as (p & len & n & F & Hn).
  exists p, len, n. split; [exact F |]. lia.
Qed.

(** ** The row of an entry *)

Section Rows.
Variable App : Type.

Lemma find_line_spec (e : FILE_ENTRY App) (pb : list (list Z)) :
  (forall row, find_line pb e = Some (Some row) ->
     exists before after,
       pb = before ++ row :: after
       /\ load row 0 <> 0 /\ label_at row 0 e = Some true
       /\ Forall (fun r => load r 0 = 0 \/ label_at r 0 e = Some false) before)
  /\ (find_line pb e = Some None ->
      Forall (fun r => load r 0 = 0 \/ label_at r 0 e = Some false) pb).
Proof.
  induction pb as [| r pb IH].
  - split; [discriminate | constructor].
  - cbn [find_line]. destruct IH as [IH1 IH2].
    destruct (Z.eqb_spec (load r 0) 0) as [E0 | E0].
    + split.
      * intros row Hrow. destruct (IH1 row Hrow) as (bf & af & -> & A & B & C).
        exists (r :: bf), af. split; [reflexivity |].
        split; [exact A |]. split; [exact B |].
        constructor; [left; exact E0 | exact C].
      * intros Hn. constructor; [left; exact E0 | apply IH2; exact Hn].
    + destruct (label_at r 0 e) as [[|] |] eqn:El;
        rewrite ?bind_Some; cbv beta iota.
      * split; [| discriminate].
        intros row Hrow. injection Hrow as <-.
        exists [], pb. split; [reflexivity |].
        split; [exact E0 |]. split; [exact El | constructor].
      * split.
        -- intros row Hrow.
           destruct (IH1 row Hrow) as (bf & af & -> & A & B & C).
           exists (r :: bf), af. split; [reflexivity |].
           split; [exact A |]. split; [exact B |].
           constructor; [right; exact El | exact C].
        -- intros Hn. constructor; [right; exact El | apply IH2; exact Hn].
      * split; discriminate.
Qed.

(** Rows that do not match are skipped. *)
Lemma find_line_skips (e : FILE_ENTRY App) before rest :
  Forall (fun r => load r 0 = 0 \/ label_at r 0 e = Some false) before ->
  find_line (before ++ rest) e = find_line rest e.
Proof.
  induction 1 as [| r before [E0 | El] _ IH]; [reflexivity | |];
    cbn [Datatypes.app find_line].
  - rewrite E0. cbn [Z.eqb]. exact IH.
  - destruct (load r 0 =? 0); [exact IH |].
    rewrite El. rewrite bind_Some; cbv beta iota. exact IH.
Qed.

(** Resolving an entry rewrites no row but its own. *)
Lemma resolve_entry_other_rows k (e : FILE_ENTRY App) pb a illegal pb' a'
  illegal' :
  0 <= k < zlen pb ->
  resolve_entry k e (pb, a, illegal) = Some (pb', a', illegal') ->
  length pb' = length pb
  /\ forall j, 0 <= j -> j <> k -> get_row pb' j = get_row pb j.
Proof.
  intros Hk H. unfold resolve_entry in H.
  destruct (find_line pb e) as [r |]; [| discriminate].
  rewrite bind_Some in H; cbv beta iota zeta in H.
  assert (S : forall row,
            length (set_row pb k row) = length pb
            /\ forall j, 0 <= j -> j <> k ->
                 get_row (set_row pb k row) j = get_row pb j).
  { intros row. split.
    - unfold set_row. rewrite length_app, length_firstn. cbn [length].
      rewrite length_skipn. lia.
    - intros j Hj Hne. apply get_set_row_other; assumption. }
  destruct r as [row |].
  - destruct (match validate e with Some v => _ | None => true end).
    + injection H as <- _ _.
      destruct (print e); [apply S | split; [reflexivity | reflexivity]].
    + injection H as <- _ _. apply S.
  - injection H as <- _ _. apply S.
Qed.

(** X25.  The search for an entry's line in [validate_file], on
    [parse_buffer] as it stands when the entry's turn comes.  With rows
    of [FILE_ROW_CNT] bytes and a label that fits its 64-byte field the
    search is defined; the row it returns is the first non-empty row
    that starts with the entry's label followed by '=', and it returns
    none exactly when no non-empty row starts that way.  Resolving the
    entry of slot [k] changes no row but row [k], where the rendered
    line goes: the search for a later entry runs on the buffer with the
    rows of the earlier slots possibly overwritten, and on the file's
    lines in the other rows. *)
Theorem find_line_first_match (e : FILE_ENTRY App) (pb : list (list Z)) :
  Forall (fun row => zlen row = FILE_ROW_CNT) pb ->
  zlen (entry e) <= MAX_ENTRY_LABEL_LENGTH ->
  let other r := load r 0 = 0 \/ label_at r 0 e = Some false in
  (exists r, find_line pb e = Some r)
  /\ (forall row,
        find_line pb e = Some (Some row)
        <-> exists before after,
              pb = before ++ row :: after
              /\ load row 0 <> 0 /\ label_at row 0 e = Some true
              /\ Forall other before)
  /\ (find_line pb e = Some None <-> Forall other pb)
  /\ forall k a illegal pb' a' illegal',
       0 <= k < zlen pb ->
       resolve_entry k e (pb, a, illegal) = Some (pb', a', illegal') ->
       length pb' = length pb
       /\ forall j, 0 <= j -> j <> k -> get_row pb' j = get_row pb j.
Proof.
  intros Hrows Hfit. cbv zeta.
  destruct (find_line_spec e pb) as [S1 S2].
  split; [exact (find_line_defined App e pb Hrows Hfit) |].
  split; [| split].
  - intros row. split; [apply S1 |].
    intros (before & after & -> & H0 & Hl & Hb).
    rewrite find_line_skips by exact Hb.
    cbn [find_line].
    rewrite (proj2 (Z.eqb_neq (load row 0) 0)) by exact H0.
    rewrite Hl. reflexivity.
  - split; [apply S2 |].
    intros Hall. rewrite <- (app_nil_r pb).
    rewrite find_line_skips by exact Hall. reflexivity.
  - intros k a illegal pb' a' illegal'.
    apply resolve_entry_other_rows.
Qed.

End Rows.

(** ** What a commit pass writes *)

Section CommitPass.
Variable App : Type.
Implicit Types (st : disk_state App).

(** With no flag set the commit only unlocks and locks. *)
Lemma commit_nothing_dirty tgt st :
  first_dirty (page_dirty_mask st) 0
    (match tgt with
     | STM32F103xB => 16%nat
     | STM32F411xE => Z.to_nat sizeof_page_dirty_mask
     end) = None ->
  flash (fst (rewrite_dirty_flash_pages tgt st)) = flash st.
Proof.
  intros Hd.
  unfold rewrite_dirty_flash_pages, HAL_FLASH_Unlock, HAL_FLASH_Lock.
  destruct (hal_next (hal_script st)) as [s0 r0].
  cbn [page_dirty_mask set_flash].
  destruct tgt; rewrite Hd; cbn [hal_script set_flash];
    destruct (hal_next r0) as [s1 r1]; reflexivity.
Qed.


End CommitPass.

(** ** Writing back what was read *)

Section RoundTrip.
Variable App : Type.
Implicit Types (st : disk_state App).

(** The pending flag and the tick play no part in [validate_file]. *)
Lemma validate_file_set_pending st p t p_file root_addr :
  validate_file (set_pending st p t) p_file root_addr
  = match validate_file st p_file root_addr with
    | Some (st1, illegal) => Some (set_pending st1 p t, illegal)
    | None => None
    end.
Proof.
  unfold validate_file.
  change (file_content (set_pending st p t) p_file)
    with (file_content st p_file).
  destruct (file_content st p_file) as [[[[[b1 a] ill] fcb] m] |];
    [| reflexivity].
  rewrite !bind_Some; cbv beta iota.
  destruct (write_dir_entry b1 root_addr m) as [b2 |]; [| reflexivity].
  rewrite !bind_Some; cbv beta.
  destruct (update_fat_chain b2 m) as [b3 |]; reflexivity.
Qed.

(** With a working HAL a commit changes no flash byte that already
    equals the byte of the mirror at the same offset. *)
Lemma commit_keeps_matching_bytes tgt st :
  hal_ok (hal_script st) -> is_bytes (disk_buffer st) ->
  zlen (disk_buffer st) = sizeof_disk_buffer ->
  zlen (flash st) = sizeof_disk_buffer ->
  let st' := fst (rewrite_dirty_flash_pages tgt st) in
  length (flash st') = length (flash st)
  /\ forall k, 0 <= k -> load (flash st) k = load (disk_buffer st) k ->
       load (flash st') k = load (flash st) k.
Proof.
  intros Hs Hbytes Hb Hf. cbv zeta.
  destruct tgt.
  - destruct (first_dirty (page_dirty_mask st) 0 16) as [i |] eqn:Hd.
    + destruct (commit_first_dirty_page_frame App st i ltac:(lia) Hd)
        as (L & Out).
      pose proof (commit_first_dirty_page_content App st i Hs Hbytes
                    ltac:(lia) Hd) as In.
      cbv zeta in In.
      split; [exact L |].
      intros k Hk Hsame.
      destruct (Z_lt_dec k (i * FLASH_PAGE_SIZE STM32F103xB)) as [Hlt | Hge];
        [apply Out; [exact Hk | left; exact Hlt] |].
      destruct (Z_le_dec (i * FLASH_PAGE_SIZE STM32F103xB
                          + FLASH_PAGE_SIZE STM32F103xB) k) as [Hle | Hgt];
        [apply Out; [exact Hk | right; exact Hle] |].
      rewrite In by lia. symmetry. exact Hsame.
    + rewrite (commit_nothing_dirty App STM32F103xB st Hd).
      split; [reflexivity | intros; reflexivity].
  - destruct (first_dirty (page_dirty_mask st) 0
                (Z.to_nat sizeof_page_dirty_mask)) as [i |] eqn:Hd.
    + rewrite (commit_programs_whole_image_flash App st i Hs Hbytes Hb Hf Hd).
      split; [apply Nat2Z.inj; lia |].
      intros k Hk Hsame. symmetry. exact Hsame.
    + rewrite (commit_nothing_dirty App STM32F411xE st Hd).
      split; [reflexivity | intros; reflexivity].
Qed.

(** C8 (amended).  The host writes back, one sector per call, the bytes
    that [read_sector] returned for that sector, and [process] runs once
    the write is [FLASH_WRITE_DELAY_MS] old.  The write changes nothing
    but the pending flag and the tick.  On a device whose file is in the
    form that [validate_file] gives it and whose HAL works, the
    [process] that follows leaves the mirror as it was and changes no
    flash byte that already equalled the mirror: when the flash holds the
    mirror, the round trip is a no-op on both.  Flash bytes that differ
    from the mirror, that is changes not committed yet, are what the
    commit may program. *)
Theorem write_back_then_process_round_trip tgt st s now now' :
  zlen (disk_buffer st) = sizeof_disk_buffer ->
  zlen (flash st) = sizeof_disk_buffer ->
  labels_fit (entries st) ->
  is_bytes (disk_buffer st) ->
  0 <= s < 4294967296 ->
  FLASH_WRITE_DELAY_MS <= u32 (now' - now) ->
  normalised st ->
  hal_ok (hal_script st) ->
  exists st2,
    write_sector tgt st (snd (read_sector st s)) s 1 now
    = Some (set_pending st true now, 0)
    /\ process tgt (set_pending st true now) now' = Some st2
    /\ pending_flash_write st2 = false
    /\ disk_buffer st2 = disk_buffer st
    /\ length (flash st2) = length (flash st)
    /\ (forall k, 0 <= k -> load (flash st) k = load (disk_buffer st) k ->
        load (flash st2) k = load (flash st) k)
    /\ (flash st = disk_buffer st -> flash st2 = flash st).
Proof.
  intros Hb Hf Hfit Hbytes Hs Hdue Hnorm Hhal.
  pose proof (write_back_only_sets_pending App tgt st s now Hb Hfit Hs) as W.
  assert (Commit : forall sv,
            disk_buffer sv = disk_buffer st -> flash sv = flash st ->
            hal_script sv = hal_script st ->
            exists st2,
              (let '(st2, _) := rewrite_dirty_flash_pages tgt sv in
               Some (set_pending st2 false (last_write_tick st2))) = Some st2
              /\ pending_flash_write st2 = false
              /\ disk_buffer st2 = disk_buffer st
              /\ length (flash st2) = length (flash st)
              /\ (forall k, 0 <= k ->
                  load (flash st) k = load (disk_buffer st) k ->
                  load (flash st2) k = load (flash st) k)).
  { intros sv Eb Ef Eh.
    pose proof (rewrite_dirty_flash_pages_ram App tgt sv) as R.
    cbv zeta in R. destruct R as (_ & Rb & _).
    pose proof (commit_keeps_matching_bytes tgt sv
                  ltac:(rewrite Eh; exact Hhal)
                  ltac:(rewrite Eb; exact Hbytes)
                  ltac:(rewrite Eb; exact Hb)
                  ltac:(rewrite Ef; exact Hf)) as K.
    cbv zeta in K. rewrite Ef, Eb in K. destruct K as (K1 & K2).
    destruct (rewrite_dirty_flash_pages tgt sv) as [st2 r2].
    cbn [fst] in *.
    eexists. split; [reflexivity |].
    cbn [pending_flash_write disk_buffer flash set_pending].
    split; [reflexivity |]. split; [rewrite Rb; exact Eb |].
    split; [exact K1 | exact K2]. }
  assert (Hp : exists st2,
            process tgt (set_pending st true now) now' = Some st2
            /\ pending_flash_write st2 = false
            /\ disk_buffer st2 = disk_buffer st
            /\ length (flash st2) = length (flash st)
            /\ (forall k, 0 <= k ->
                load (flash st) k = load (disk_buffer st) k ->
                load (flash st2) k = load (flash st) k)).
  { unfold process, commit_due.
    cbn [pending_flash_write last_write_tick disk_buffer set_pending andb].
    rewrite (proj2 (Z.leb_le _ _) Hdue).
    destruct (find_file (disk_buffer st) CONFIG_FILENAME)
      as [[[p_file file_len] root_addr] |] eqn:Hfind.
    - destruct (Z.ltb_spec 0 file_len) as [Hlen | Hlen].
      + destruct (Hnorm p_file file_len root_addr Hfind Hlen)
          as (st1 & illegal & Hv & Eb).
        destruct (validate_file_frame App st p_file root_addr st1 illegal Hv)
          as (_ & _ & _ & Vf & Vs & _).
        rewrite validate_file_set_pending, Hv.
        rewrite !bind_Some; cbv beta iota.
        apply Commit; assumption.
      + rewrite bind_Some; cbv beta. apply Commit; reflexivity.
    - rewrite bind_Some; cbv beta. apply Commit; reflexivity. }
  destruct Hp as (st2 & P1 & P2 & P3 & P4 & P5).
  exists st2. split; [exact W |]. split; [exact P1 |].
  split; [exact P2 |]. split; [exact P3 |]. split; [exact P4 |].
  split; [exact P5 |].
  intros Hsync. apply bytes_ext; [exact P4 |].
  intros k Hk. rewrite P4 in Hk. apply P5; [lia |].
  rewrite Hsync. reflexivity.
Qed.

End RoundTrip.

(** ** The further properties on sample devices *)

Lemma all_bytes_is_bytes b : Sample.all_bytes b = true -> is_bytes b.
Proof.
  unfold Sample.all_bytes, is_bytes. intros H.
  rewrite forallb_forall in H. apply Forall_forall. intros x Hx.
  specialize (H x Hx). apply andb_prop in H. destruct H as [H1 H2].
  apply Z.leb_le in H1. apply Z.ltb_lt in H2. lia.
Qed.

Lemma registered_state_labels_fit : labels_fit (entries Scenario.registered_state).
Proof.
  unfold labels_fit. vm_compute.
  repeat (constructor; [discriminate |]). constructor.
Qed.

Lemma loaded_validated :
  validate_file Sample.loaded FILE_SECTOR 0
  = Some (fst Sample.validated, snd Sample.validated).
Proof. vm_compute. reflexivity. Qed.

Lemma scan_line_terminators_witness :
  Forall line_byte (bytes_of "SSID=home")
  /\ zlen (bytes_of "SSID=home") <= FILE_ROW_CNT - 1
  /\ zlen (repeat 0 (Z.to_nat FILE_ROW_CNT)) = FILE_ROW_CNT
  /\ scan_line (bytes_of "SSID=home" ++ 13 :: 10 :: bytes_of "PSK=x")
       (repeat 0 (Z.to_nat FILE_ROW_CNT)) 0
     = Some (memcpy (repeat 0 (Z.to_nat FILE_ROW_CNT)) 0 (bytes_of "SSID=home"),
             zlen (bytes_of "SSID=home"), bytes_of "PSK=x", false).
Proof.
  assert (H1 : Forall line_byte (bytes_of "SSID=home")).
  { repeat constructor; discriminate. }
  assert (H2 : zlen (bytes_of "SSID=home") <= FILE_ROW_CNT - 1)
    by (vm_compute; discriminate).
  assert (H3 : zlen (repeat 0 (Z.to_nat FILE_ROW_CNT)) = FILE_ROW_CNT)
    by (vm_compute; reflexivity).
  split; [exact H1 |]. split; [exact H2 |]. split; [exact H3 |].
  exact (proj1 (proj2 (scan_line_terminators (bytes_of "SSID=home")
                         (bytes_of "PSK=x") _ H1 H2 H3))).
Defined.

Lemma rebuild_loop_concatenates_witness :
  zlen (repeat 0 (Z.to_nat FILE_CHAR_CNT)) = FILE_CHAR_CNT
  /\ zlen (rendered (entries Scenario.registered_state) 0 Sample.rows)
     < FILE_CHAR_CNT - 1
  /\ (let '(fcb', m) :=
        rebuild_loop (entries Scenario.registered_state) 0 Sample.rows
          (repeat 0 (Z.to_nat FILE_CHAR_CNT)) 0 in
      m = zlen (rendered (entries Scenario.registered_state) 0 Sample.rows)
      /\ slice fcb' 0 m
         = rendered (entries Scenario.registered_state) 0 Sample.rows
      /\ length fcb' = length (repeat 0 (Z.to_nat FILE_CHAR_CNT))
      /\ forall i, m <= i ->
           load fcb' i = load (repeat 0 (Z.to_nat FILE_CHAR_CNT)) i).
Proof.
  assert (H1 : zlen (repeat 0 (Z.to_nat FILE_CHAR_CNT)) = FILE_CHAR_CNT)
    by (vm_compute; reflexivity).
  assert (H2 : zlen (rendered (entries Scenario.registered_state) 0 Sample.rows)
               < FILE_CHAR_CNT - 1)
    by (vm_compute; reflexivity).
  split; [exact H1 |]. split; [exact H2 |].
  exact (rebuild_loop_concatenates Scenario.App
           (entries Scenario.registered_state) Sample.rows _ H1 H2).
Defined.

Lemma register_entry_takes_first_free_slot_witness :
  registry_shape (entries Sample.blank)
  /\ first_free (entry_usage_mask Sample.blank) 0
  /\ exists st' e,
       register_entry Sample.blank (bytes_of "SSID") None (bytes_of "#ap")
         None None None = (st', true)
       /\ slot st' 0 = Some e
       /\ cstr (entry e) = slice (cstr (bytes_of "SSID")) 0 (MAX_ENTRY_LABEL_LENGTH - 1)
       /\ cstr (comment e)
          = slice ([9] ++ cstr (bytes_of "#ap") ++ [13; 10]) 0
              (MAX_ENTRY_COMMENT_LENGTH - 1).
Proof.
  assert (H1 : registry_shape (entries Sample.blank)).
  { split; [vm_compute; reflexivity |].
    vm_compute. repeat (constructor; [split; reflexivity |]). constructor. }
  assert (H2 : first_free (entry_usage_mask Sample.blank) 0).
  { split; [vm_compute; split; [discriminate | reflexivity] |].
    split; [reflexivity | intros j Hj; lia]. }
  split; [exact H1 |]. split; [exact H2 |].
  destruct (register_entry_takes_first_free_slot Scenario.App Sample.blank 0
              (bytes_of "SSID") None (bytes_of "#ap") None None None H1 H2)
    as (st' & e & E & S & _ & L & _ & C & _).
  exists st', e. split; [exact E |]. split; [exact S |].
  split; [exact L | exact C].
Defined.

Lemma register_entry_full_witness :
  (forall j, 0 <= j < FILE_ENTRY_CNT ->
     Z.testbit (entry_usage_mask Sample.full) j = true)
  /\ register_entry Sample.full (bytes_of "X") None [] None None None
     = (Sample.full, false).
Proof.
  assert (H1 : forall j, 0 <= j < FILE_ENTRY_CNT ->
                 Z.testbit (entry_usage_mask Sample.full) j = true).
  { intros j Hj. unfold FILE_ENTRY_CNT in Hj.
    split_index j 0 8%nat; reflexivity. }
  split; [exact H1 |].
  exact (register_entry_full Scenario.App Sample.full (bytes_of "X") None []
           None None None H1).
Defined.

Lemma write_sector_drops_unmapped_sectors_witness :
  zlen Sample.sector = SECTOR_SIZE
  /\ write_sector STM32F103xB Scenario.registered_state Sample.sector 5 1 100
     = Some (set_pending Scenario.registered_state true 100, 0).
Proof.
  assert (H1 : zlen Sample.sector = SECTOR_SIZE) by (vm_compute; reflexivity).
  split; [exact H1 |].
  apply (write_sector_drops_unmapped_sectors Scenario.App STM32F103xB
           Scenario.registered_state Sample.sector 5 100 H1); lia.
Defined.

Lemma write_sector_touches_one_sector_witness :
  zlen (disk_buffer Scenario.registered_state) = sizeof_disk_buffer
  /\ zlen (page_dirty_mask Scenario.registered_state) = sizeof_page_dirty_mask
  /\ zlen Sample.sector = SECTOR_SIZE
  /\ labels_fit (entries Scenario.registered_state)
  /\ exists st',
       write_sector STM32F103xB Scenario.registered_state Sample.sector 32 1 100
       = Some (st', 0)
       /\ pending_flash_write st' = true
       /\ flash st' = flash Scenario.registered_state
       /\ load (disk_buffer st') 0x600 = load (disk_buffer Scenario.registered_state) 0x600.
Proof.
  assert (H1 : zlen (disk_buffer Scenario.registered_state) = sizeof_disk_buffer)
    by (vm_compute; reflexivity).
  assert (H2 : zlen (page_dirty_mask Scenario.registered_state)
               = sizeof_page_dirty_mask) by (vm_compute; reflexivity).
  assert (H3 : zlen Sample.sector = SECTOR_SIZE) by (vm_compute; reflexivity).
  pose proof registered_state_labels_fit as H4.
  split; [exact H1 |]. split; [exact H2 |]. split; [exact H3 |].
  split; [exact H4 |].
  destruct (write_sector_touches_one_sector Scenario.App STM32F103xB
              Scenario.registered_state Sample.sector 32 100 H1 H2 H3 H4
              ltac:(lia))
    as (st' & E & P & _ & F & _ & _ & _ & _ & _ & _ & K).
  exists st'. split; [exact E |]. split; [exact P |]. split; [exact F |].
  apply K; [lia |].
  intros off Hoff. vm_compute in Hoff. injection Hoff as <-.
  right. vm_compute. discriminate.
Defined.

Lemma read_after_write_witness :
  zlen (disk_buffer Scenario.registered_state) = sizeof_disk_buffer
  /\ zlen (page_dirty_mask Scenario.registered_state) = sizeof_page_dirty_mask
  /\ zlen Sample.sector = SECTOR_SIZE
  /\ labels_fit (entries Scenario.registered_state)
  /\ exists st',
       write_sector STM32F103xB Scenario.registered_state Sample.sector 8 1 100
       = Some (st', 0)
       /\ snd (read_sector st' 8) = Sample.sector.
Proof.
  assert (H1 : zlen (disk_buffer Scenario.registered_state) = sizeof_disk_buffer)
    by (vm_compute; reflexivity).
  assert (H2 : zlen (page_dirty_mask Scenario.registered_state)
               = sizeof_page_dirty_mask) by (vm_compute; reflexivity).
  assert (H3 : zlen Sample.sector = SECTOR_SIZE) by (vm_compute; reflexivity).
  pose proof registered_state_labels_fit as H4.
  split; [exact H1 |]. split; [exact H2 |]. split; [exact H3 |].
  split; [exact H4 |].
  destruct (read_after_write Scenario.App STM32F103xB
              Scenario.registered_state Sample.sector 8 100 H1 H2 H3 H4
              ltac:(lia))
    as (st' & E & A & _).
  exists st'. split; [exact E |]. apply A. left. reflexivity.
Defined.

Lemma commit_programs_first_dirty_page_witness :
  hal_ok (hal_script Sample.dirty3)
  /\ is_bytes (disk_buffer Sample.dirty3)
  /\ sizeof_disk_buffer <= zlen (flash Sample.dirty3)
  /\ first_dirty (page_dirty_mask Sample.dirty3) 0 16 = Some 3
  /\ load (flash (fst (rewrite_dirty_flash_pages STM32F103xB Sample.dirty3))) 3072
     = load (disk_buffer Sample.dirty3) 3072
  /\ load (flash (fst (rewrite_dirty_flash_pages STM32F103xB Sample.dirty3))) 4096
     = load (flash Sample.dirty3) 4096.
Proof.
  assert (H1 : hal_ok (hal_script Sample.dirty3)) by constructor.
  assert (H2 : is_bytes (disk_buffer Sample.dirty3))
    by (apply all_bytes_is_bytes; vm_compute; reflexivity).
  assert (H3 : sizeof_disk_buffer <= zlen (flash Sample.dirty3))
    by (vm_compute; discriminate).
  assert (H4 : first_dirty (page_dirty_mask Sample.dirty3) 0 16 = Some 3)
    by (vm_compute; reflexivity).
  split; [exact H1 |]. split; [exact H2 |]. split; [exact H3 |].
  split; [exact H4 |].
  destruct (commit_programs_first_dirty_page Scenario.App Sample.dirty3 3
              H1 H2 H3 H4) as (_ & _ & P & Q).
  split; [apply P | apply Q]; unfold FLASH_PAGE_SIZE; lia.
Defined.

Lemma commit_programs_whole_image_witness :
  hal_ok (hal_script Sample.dirty3)
  /\ is_bytes (disk_buffer Sample.dirty3)
  /\ zlen (disk_buffer Sample.dirty3) = sizeof_disk_buffer
  /\ zlen (flash Sample.dirty3) = sizeof_disk_buffer
  /\ first_dirty (page_dirty_mask Sample.dirty3) 0
       (Z.to_nat sizeof_page_dirty_mask) = Some 3
  /\ flash (fst (rewrite_dirty_flash_pages STM32F411xE Sample.dirty3))
     = disk_buffer Sample.dirty3
  /\ disk_buffer
       (load_from_flash (fst (rewrite_dirty_flash_pages STM32F411xE Sample.dirty3)))
     = disk_buffer Sample.dirty3.
Proof.
  assert (H1 : hal_ok (hal_script Sample.dirty3)) by constructor.
  assert (H2 : is_bytes (disk_buffer Sample.dirty3))
    by (apply all_bytes_is_bytes; vm_compute; reflexivity).
  assert (H3 : zlen (disk_buffer Sample.dirty3) = sizeof_disk_buffer)
    by (vm_compute; reflexivity).
  assert (H4 : zlen (flash Sample.dirty3) = sizeof_disk_buffer)
    by (vm_compute; reflexivity).
  assert (H5 : first_dirty (page_dirty_mask Sample.dirty3) 0
                 (Z.to_nat sizeof_page_dirty_mask) = Some 3)
    by (vm_compute; reflexivity).
  split; [exact H1 |]. split; [exact H2 |]. split; [exact H3 |].
  split; [exact H4 |]. split; [exact H5 |].
  exact (commit_programs_whole_image Scenario.App Sample.dirty3 3
           H1 H2 H3 H4 H5).
Defined.

Lemma rewrite_all_programs_2048_bytes_on_f1_witness :
  hal_ok (hal_script Sample.blank)
  /\ is_bytes (disk_buffer Sample.blank)
  /\ sizeof_disk_buffer <= zlen (flash Sample.blank)
  /\ snd (rewrite_all_flash_pages STM32F103xB Sample.blank) = 0
  /\ load (flash (fst (rewrite_all_flash_pages STM32F103xB Sample.blank))) 2047
     = load (disk_buffer Sample.blank) 2047
  /\ load (flash (fst (rewrite_all_flash_pages STM32F103xB Sample.blank))) 2048
     = 0xFF.
Proof.
  assert (H1 : hal_ok (hal_script Sample.blank)) by constructor.
  assert (H2 : is_bytes (disk_buffer Sample.blank))
    by (apply all_bytes_is_bytes; vm_compute; reflexivity).
  assert (H3 : sizeof_disk_buffer <= zlen (flash Sample.blank))
    by (vm_compute; discriminate).
  split; [exact H1 |]. split; [exact H2 |]. split; [exact H3 |].
  destruct (rewrite_all_programs_2048_bytes_on_f1 Scenario.App Sample.blank
              H1 H2 H3) as (R & _ & P & Q & _).
  split; [exact R |]. split; [apply P | apply Q]; lia.
Defined.

Lemma rewrite_all_programs_whole_image_on_f4_witness :
  hal_ok (hal_script Sample.blank)
  /\ is_bytes (disk_buffer Sample.blank)
  /\ zlen (disk_buffer Sample.blank) = sizeof_disk_buffer
  /\ zlen (flash Sample.blank) = sizeof_disk_buffer
  /\ snd (rewrite_all_flash_pages STM32F411xE Sample.blank) = 0
  /\ flash (fst (rewrite_all_flash_pages STM32F411xE Sample.blank))
     = disk_buffer Sample.blank.
Proof.
  assert (H1 : hal_ok (hal_script Sample.blank)) by constructor.
  assert (H2 : is_bytes (disk_buffer Sample.blank))
    by (apply all_bytes_is_bytes; vm_compute; reflexivity).
  assert (H3 : zlen (disk_buffer Sample.blank) = sizeof_disk_buffer)
    by (vm_compute; reflexivity).
  assert (H4 : zlen (flash Sample.blank) = sizeof_disk_buffer)
    by (vm_compute; reflexivity).
  split; [exact H1 |]. split; [exact H2 |]. split; [exact H3 |].
  split; [exact H4 |].
  destruct (rewrite_all_programs_whole_image_on_f4 Scenario.App Sample.blank
              H1 H2 H3 H4) as (R & _ & P).
  split; [exact R | exact P].
Defined.

Lemma rewrite_all_returns_first_erase_failure_witness :
  hal_script Sample.erase_fails = HAL_OK :: HAL_ERROR :: []
  /\ HAL_ERROR <> HAL_OK
  /\ snd (rewrite_all_flash_pages STM32F103xB Sample.erase_fails) = 1
  /\ flash (fst (rewrite_all_flash_pages STM32F103xB Sample.erase_fails))
     = flash Sample.erase_fails
  /\ hal_script (fst (rewrite_all_flash_pages STM32F103xB Sample.erase_fails))
     = [].
Proof.
  assert (H1 : hal_script Sample.erase_fails = HAL_OK :: HAL_ERROR :: [])
    by reflexivity.
  assert (H2 : HAL_ERROR <> HAL_OK) by discriminate.
  split; [exact H1 |]. split; [exact H2 |].
  destruct (rewrite_all_returns_first_erase_failure Scenario.App STM32F103xB
              Sample.erase_fails HAL_OK HAL_ERROR [] H1 H2)
    as (R & _ & F & S & _).
  split; [exact R |]. split; [exact F | exact S].
Defined.

Lemma commit_waits_for_quiet_period_witness :
  write_sector STM32F103xB Scenario.registered_state Sample.sector 5 1 4294967000
  = Some (set_pending Scenario.registered_state true 4294967000, 0)
  /\ 0 <= 4294967000 < 4294967296 /\ 0 <= 400 < 4294967296
  /\ u32 (4294967000 + 400) = 104
  /\ process STM32F103xB (set_pending Scenario.registered_state true 4294967000)
       (u32 (4294967000 + 400))
     = Some (set_pending Scenario.registered_state true 4294967000).
Proof.
  assert (H1 : write_sector STM32F103xB Scenario.registered_state Sample.sector
                 5 1 4294967000
               = Some (set_pending Scenario.registered_state true 4294967000, 0))
    by (vm_compute; reflexivity).
  assert (H2 : 0 <= 4294967000 < 4294967296) by lia.
  assert (H3 : 0 <= 400 < 4294967296) by lia.
  split; [exact H1 |]. split; [exact H2 |]. split; [exact H3 |].
  split; [reflexivity |].
  apply (proj1 (commit_waits_for_quiet_period Scenario.App STM32F103xB _ _ _ _
                  _ _ _ 400 H1 H2 H3)).
  unfold FLASH_WRITE_DELAY_MS. lia.
Defined.

Lemma init_creates_default_file_witness :
  zlen (disk_buffer Scenario.registered_state) = sizeof_disk_buffer
  /\ sizeof_disk_buffer <= zlen (flash Scenario.registered_state)
  /\ zlen (page_dirty_mask Scenario.registered_state) = sizeof_page_dirty_mask
  /\ no_config_entry (flash Scenario.registered_state)
  /\ zlen (default_text (entries Scenario.registered_state)) < FILE_SECTOR_SIZE
  /\ exists st',
       init Scenario.registered_state 0 = Some st'
       /\ pending_flash_write st' = true
       /\ canonical_layout (disk_buffer st') 0
            (default_text (entries Scenario.registered_state))
            (zlen (default_text (entries Scenario.registered_state)))
       /\ find_file (disk_buffer st') CONFIG_FILENAME
          = Some (FILE_SECTOR,
                  zlen (default_text (entries Scenario.registered_state)), 0).
Proof.
  assert (H1 : zlen (disk_buffer Scenario.registered_state) = sizeof_disk_buffer)
    by (vm_compute; reflexivity).
  assert (H2 : sizeof_disk_buffer <= zlen (flash Scenario.registered_state))
    by (vm_compute; discriminate).
  assert (H3 : zlen (page_dirty_mask Scenario.registered_state)
               = sizeof_page_dirty_mask) by (vm_compute; reflexivity).
  assert (H4 : no_config_entry (flash Scenario.registered_state)).
  { intros j Hj. unfold is_config_entry.
    split_index j 0 16%nat; vm_compute; discriminate. }
  assert (H5 : zlen (default_text (entries Scenario.registered_state))
               < FILE_SECTOR_SIZE) by (vm_compute; reflexivity).
  split; [exact H1 |]. split; [exact H2 |]. split; [exact H3 |].
  split; [exact H4 |]. split; [exact H5 |].
  destruct (init_creates_default_file Scenario.App Scenario.registered_state 0
              H1 H2 H3 H4 H5)
    as (st' & E & P & _ & _ & _ & _ & _ & _ & _ & C & _ & _ & _ & F).
  exists st'. split; [exact E |]. split; [exact P |].
  split; [exact C | exact F].
Defined.

Lemma validate_file_then_find_file_witness :
  zlen (disk_buffer Sample.loaded) = sizeof_disk_buffer
  /\ sizeof_disk_buffer <= zlen (flash Sample.loaded)
  /\ first_config_entry (disk_buffer Sample.loaded) 0
  /\ validate_file Sample.loaded FILE_SECTOR 0
     = Some (fst Sample.validated, snd Sample.validated)
  /\ exists m,
       find_file (disk_buffer (fst Sample.validated)) CONFIG_FILENAME
       = Some (FILE_SECTOR, m, 0).
Proof.
  assert (H1 : zlen (disk_buffer Sample.loaded) = sizeof_disk_buffer)
    by (vm_compute; reflexivity).
  assert (H2 : sizeof_disk_buffer <= zlen (flash Sample.loaded))
    by (vm_compute; discriminate).
  assert (H3 : first_config_entry (disk_buffer Sample.loaded) 0).
  { split; [lia |]. split; [vm_compute; reflexivity | intros j Hj; lia]. }
  pose proof loaded_validated as H4.
  split; [exact H1 |]. split; [exact H2 |]. split; [exact H3 |].
  split; [exact H4 |].
  destruct (validate_file_then_find_file Scenario.App Sample.loaded FILE_SECTOR 0
              _ _ H1 H2 H3 H4) as (b1 & a & fcb & m & _ & F).
  exists m. exact F.
Defined.

Lemma commit_after_load_writes_nothing_witness :
  zlen (disk_buffer Sample.dirty3) = sizeof_disk_buffer
  /\ sizeof_disk_buffer <= zlen (flash Sample.dirty3)
  /\ zlen (page_dirty_mask Sample.dirty3) = sizeof_page_dirty_mask
  /\ flash (fst (rewrite_dirty_flash_pages STM32F103xB
                   (load_from_flash Sample.dirty3)))
     = flash Sample.dirty3.
Proof.
  assert (H1 : zlen (disk_buffer Sample.dirty3) = sizeof_disk_buffer)
    by (vm_compute; reflexivity).
  assert (H2 : sizeof_disk_buffer <= zlen (flash Sample.dirty3))
    by (vm_compute; discriminate).
  assert (H3 : zlen (page_dirty_mask Sample.dirty3) = sizeof_page_dirty_mask)
    by (vm_compute; reflexivity).
  split; [exact H1 |]. split; [exact H2 |]. split; [exact H3 |].
  exact (proj1 (commit_after_load_writes_nothing Scenario.App STM32F103xB
                  Sample.dirty3 H1 H2 H3)).
Defined.

Lemma resolve_entry_passes_clean_value_witness :
  find_line [Sample.tab_row] Sample.ssid_entry = Some (Some Sample.tab_row)
  /\ skipn (Z.to_nat (strlen (entry Sample.ssid_entry) + 1)) Sample.tab_row
     = (bytes_of "my" ++ 9 :: bytes_of "net")
       ++ 9 :: 35 :: bytes_of "ap" ++ repeat 0 100
  /\ Forall (fun c => c <> 0) (bytes_of "my" ++ 9 :: bytes_of "net")
  /\ (forall i, 0 <= i ->
      ~ tab_hash_at (bytes_of "my" ++ 9 :: bytes_of "net") i)
  /\ value_end (9 :: 35 :: bytes_of "ap" ++ repeat 0 100)
  /\ zlen (bytes_of "my" ++ 9 :: bytes_of "net") <= FILE_ROW_CNT - 1
  /\ cstr (memcpy (repeat 0 (Z.to_nat FILE_ROW_CNT)) 0
             (bytes_of "my" ++ 9 :: bytes_of "net"))
     = bytes_of "my" ++ 9 :: bytes_of "net"
  /\ resolve_entry 0 Sample.ssid_entry ([Sample.tab_row], ([], []), 0)
     = Some ([memcpy Sample.tab_row 0
                (bytes_of "SSID=my" ++ 9 :: bytes_of "net" ++ [0])],
             (bytes_of "my" ++ 9 :: bytes_of "net", []), 0).
Proof.
  assert (H1 : find_line [Sample.tab_row] Sample.ssid_entry
               = Some (Some Sample.tab_row)) by (vm_compute; reflexivity).
  assert (H2 : skipn (Z.to_nat (strlen (entry Sample.ssid_entry) + 1))
                 Sample.tab_row
               = (bytes_of "my" ++ 9 :: bytes_of "net")
                 ++ 9 :: 35 :: bytes_of "ap" ++ repeat 0 100)
    by (vm_compute; reflexivity).
  assert (H3 : Forall (fun c => c <> 0) (bytes_of "my" ++ 9 :: bytes_of "net")).
  { repeat constructor; discriminate. }
  assert (H3' : forall i, 0 <= i ->
                ~ tab_hash_at (bytes_of "my" ++ 9 :: bytes_of "net") i).
  { intros i Hi [A B].
    destruct (Z_lt_dec i 6) as [Hlt | Hge].
    - split_index i 0 6%nat; vm_compute in A; vm_compute in B; discriminate.
    - unfold load in A. rewrite nth_overflow in A; [discriminate |].
      change (length (bytes_of "my" ++ 9 :: bytes_of "net")) with 6%nat. lia. }
  assert (H4 : value_end (9 :: 35 :: bytes_of "ap" ++ repeat 0 100)).
  { right. right. eexists. reflexivity. }
  assert (H5 : zlen (bytes_of "my" ++ 9 :: bytes_of "net") <= FILE_ROW_CNT - 1)
    by (vm_compute; discriminate).
  split; [exact H1 |]. split; [exact H2 |]. split; [exact H3 |].
  split; [exact H3' |]. split; [exact H4 |]. split; [exact H5 |].
  destruct (resolve_entry_passes_clean_value Scenario.App 0
              Sample.ssid_entry [Sample.tab_row] ([], []) 0 Sample.tab_row _ _
              H1 H2 H3 H3' H4 H5) as (_ & C & R).
  split; [exact C |].
  refine (eq_trans R _). vm_compute. reflexivity.
Defined.

Lemma f1_commit_after_validation_stops_at_page_0_witness :
  commit_due Sample.loaded 600 = true
  /\ find_file (disk_buffer Sample.loaded) CONFIG_FILENAME
     = Some (FILE_SECTOR, 33, 0)
  /\ 0 < 33
  /\ validate_file Sample.loaded FILE_SECTOR 0
     = Some (fst Sample.validated, snd Sample.validated)
  /\ zlen (page_dirty_mask Sample.loaded) = sizeof_page_dirty_mask
  /\ FLASH_PAGE_SIZE STM32F103xB <= zlen (flash Sample.loaded)
  /\ exists st',
       process STM32F103xB Sample.loaded 600 = Some st'
       /\ pending_flash_write st' = false
       /\ load (page_dirty_mask st') 1 = 1
       /\ load (flash st') 1024 = load (flash Sample.loaded) 1024.
Proof.
  assert (H1 : commit_due Sample.loaded 600 = true) by (vm_compute; reflexivity).
  assert (H2 : find_file (disk_buffer Sample.loaded) CONFIG_FILENAME
               = Some (FILE_SECTOR, 33, 0)) by (vm_compute; reflexivity).
  assert (H3 : 0 < 33) by lia.
  pose proof loaded_validated as H4.
  assert (H5 : zlen (page_dirty_mask Sample.loaded) = sizeof_page_dirty_mask)
    by (vm_compute; reflexivity).
  assert (H6 : FLASH_PAGE_SIZE STM32F103xB <= zlen (flash Sample.loaded))
    by (vm_compute; discriminate).
  split; [exact H1 |]. split; [exact H2 |]. split; [exact H3 |].
  split; [exact H4 |]. split; [exact H5 |]. split; [exact H6 |].
  destruct (f1_commit_after_validation_stops_at_page_0 Scenario.App
              Sample.loaded 600 FILE_SECTOR 33 0 _ _ H1 H2 H3 H4 H5 H6)
    as (st' & E & P & _ & _ & M & F).
  exists st'. split; [exact E |]. split; [exact P |]. split; [exact M |].
  apply F. unfold FLASH_PAGE_SIZE. lia.
Defined.

Lemma f4_process_persists_normalised_image_witness :
  commit_due Sample.loaded 600 = true
  /\ find_file (disk_buffer Sample.loaded) CONFIG_FILENAME
     = Some (FILE_SECTOR, 33, 0)
  /\ 0 < 33
  /\ validate_file Sample.loaded FILE_SECTOR 0
     = Some (fst Sample.validated, snd Sample.validated)
  /\ zlen (page_dirty_mask Sample.loaded) = sizeof_page_dirty_mask
  /\ zlen (disk_buffer (fst Sample.validated)) = sizeof_disk_buffer
  /\ is_bytes (disk_buffer (fst Sample.validated))
  /\ zlen (flash Sample.loaded) = sizeof_disk_buffer
  /\ hal_ok (hal_script Sample.loaded)
  /\ exists st',
       process STM32F411xE Sample.loaded 600 = Some st'
       /\ pending_flash_write st' = false
       /\ flash st' = disk_buffer st'.
Proof.
  assert (H1 : commit_due Sample.loaded 600 = true) by (vm_compute; reflexivity).
  assert (H2 : find_file (disk_buffer Sample.loaded) CONFIG_FILENAME
               = Some (FILE_SECTOR, 33, 0)) by (vm_compute; reflexivity).
  assert (H3 : 0 < 33) by lia.
  pose proof loaded_validated as H4.
  assert (H5 : zlen (page_dirty_mask Sample.loaded) = sizeof_page_dirty_mask)
    by (vm_compute; reflexivity).
  assert (H6 : zlen (disk_buffer (fst Sample.validated)) = sizeof_disk_buffer)
    by (vm_compute; reflexivity).
  assert (H7 : is_bytes (disk_buffer (fst Sample.validated)))
    by (apply all_bytes_is_bytes; vm_compute; reflexivity).
  assert (H8 : zlen (flash Sample.loaded) = sizeof_disk_buffer)
    by (vm_compute; reflexivity).
  assert (H9 : hal_ok (hal_script Sample.loaded)) by constructor.
  split; [exact H1 |]. split; [exact H2 |]. split; [exact H3 |].
  split; [exact H4 |]. split; [exact H5 |]. split; [exact H6 |].
  split; [exact H7 |]. split; [exact H8 |]. split; [exact H9 |].
  destruct (f4_process_persists_normalised_image Scenario.App
              Sample.loaded 600 FILE_SECTOR 33 0 _ _ H1 H2 H3 H4 H5 H6 H7 H8 H9)
    as (st' & E & P & _ & F & _).
  exists st'. split; [exact E |]. split; [exact P | exact F].
Defined.

Lemma split_lines_yields_the_lines_witness :
  Forall (fun x => plain_line (fst x))
    [(bytes_of "SSID=home", true); (bytes_of "PSK=x", false)]
  /\ zlen [(bytes_of "SSID=home", true); (bytes_of "PSK=x", false)]
     <= FILE_ENTRY_CNT
  /\ exists pb,
       split_lines
         (join_lines [(bytes_of "SSID=home", true); (bytes_of "PSK=x", false)]
          ++ 0 :: [])
         blank_rows 0 (Z.to_nat FILE_ENTRY_CNT) = Some pb
       /\ cstr (get_row pb 0) = bytes_of "SSID=home"
       /\ cstr (get_row pb 1) = bytes_of "PSK=x"
       /\ cstr (get_row pb 2) = [].
Proof.
  assert (H1 : Forall (fun x => plain_line (fst x))
                 [(bytes_of "SSID=home", true); (bytes_of "PSK=x", false)]).
  { constructor.
    - split; [repeat constructor; discriminate | vm_compute; discriminate].
    - constructor; [| constructor].
      split; [repeat constructor; discriminate | vm_compute; discriminate]. }
  assert (H2 : zlen [(bytes_of "SSID=home", true); (bytes_of "PSK=x", false)]
               <= FILE_ENTRY_CNT) by (vm_compute; discriminate).
  split; [exact H1 |]. split; [exact H2 |].
  destruct (split_lines_yields_the_lines _ [] H1 H2) as (pb & E & _ & R & Z0).
  exists pb. split; [exact E |].
  split; [exact (R 0 ltac:(cbn [length]; lia)) |].
  split; [exact (R 1 ltac:(cbn [length]; lia)) |].
  apply Z0. unfold FILE_ENTRY_CNT. cbn [length]. lia.
Defined.

Lemma root_scan_implies_find_file_witness :
  zlen Scenario.image = sizeof_disk_buffer
  /\ scan_config_entry Scenario.image 0 16 = Some ROOT_SECTOR
  /\ exists p len n,
       find_file Scenario.image CONFIG_FILENAME = Some (p, len, n)
       /\ 0 <= n /\ ROOT_SECTOR + 32 * n <= ROOT_SECTOR.
Proof.
  assert (H1 : zlen Scenario.image = sizeof_disk_buffer)
    by (vm_compute; reflexivity).
  assert (H2 : scan_config_entry Scenario.image 0 16 = Some ROOT_SECTOR)
    by (vm_compute; reflexivity).
  split; [exact H1 |]. split; [exact H2 |].
  exact (root_scan_implies_find_file Scenario.image ROOT_SECTOR H1 H2).
Defined.

Lemma find_line_first_match_witness :
  Forall (fun row => zlen row = FILE_ROW_CNT) Sample.swapped_rows
  /\ zlen (entry Sample.ssid_entry) <= MAX_ENTRY_LABEL_LENGTH
  /\ find_line Sample.swapped_rows Sample.ssid_entry
     = Some (Some (Sample.row_of (bytes_of "SSID=home")))
  /\ exists pb' a' illegal',
       resolve_entry 0 Sample.ssid_entry (Sample.swapped_rows, ([], []), 0)
       = Some (pb', a', illegal')
       /\ get_row pb' 1 = Sample.row_of (bytes_of "SSID=home")
       /\ cstr (get_row pb' 0) = bytes_of "SSID=home"
       /\ find_line pb' Sample.psk_entry = Some None.
Proof.
  assert (H1 : Forall (fun row => zlen row = FILE_ROW_CNT) Sample.swapped_rows).
  { repeat constructor; vm_compute; reflexivity. }
  assert (H2 : zlen (entry Sample.ssid_entry) <= MAX_ENTRY_LABEL_LENGTH)
    by (vm_compute; discriminate).
  destruct (find_line_first_match Scenario.App Sample.ssid_entry
              Sample.swapped_rows H1 H2) as (_ & First & _ & Others).
  split; [exact H1 |]. split; [exact H2 |]. split.
  - apply First.
    exists [Sample.row_of (bytes_of "PSK=12345678")], [].
    split; [reflexivity |].
    split; [vm_compute; discriminate |].
    split; [vm_compute; reflexivity |].
    constructor; [right; vm_compute; reflexivity | constructor].
  - assert (E : resolve_entry 0 Sample.ssid_entry
                  (Sample.swapped_rows, ([], []), 0)
                = Some ([memcpy (Sample.row_of (bytes_of "PSK=12345678")) 0
                           (bytes_of "SSID=home" ++ [0]);
                         Sample.row_of (bytes_of "SSID=home")],
                        (bytes_of "home", []), 0))
      by (vm_compute; reflexivity).
    eexists _, _, _. split; [exact E |].
    split.
    + exact (proj2 (Others 0 _ _ _ _ _ ltac:(unfold Sample.swapped_rows; cbn [length]; lia) E) 1
               ltac:(lia) ltac:(lia)).
    + split; vm_compute; reflexivity.
Defined.

(** ** The commit pass and the round trip on the concrete device *)




(** Three devices on which writing a sector back and letting the commit
    run changes the flash or the mirror.  After a cold boot with erased
    flash the mirror holds an image that the flash does not hold yet, and
    the commit programs its first page.  On the running device, whose
    flash holds the mirror and which has nothing pending, the write-back
    makes [process] erase and program the first page again: when the
    programming fails, the page is left erased.  On the running device
    whose file the host has just rewritten, the commit normalises the
    file: the mirror changes. *)
Lemma write_back_then_commit_changes_flash :
  init Scenario.registered_state 0 = Some Scenario.cold_boot
  /\ write_sector STM32F103xB Scenario.cold_boot
       (snd (read_sector Scenario.cold_boot 64)) 64 1 10
     = Some (Scenario.written_back, 0)
  /\ process STM32F103xB Scenario.written_back 600 = Some Scenario.committed
  /\ load (disk_buffer Scenario.cold_boot) 0 = 0xF8
  /\ load (flash Scenario.cold_boot) 0 = 0xFF
  /\ load (flash Scenario.committed) 0 = 0xF8
  /\ init (Scenario.flashed Scenario.programs_fail) 0
     = Some (Scenario.running Scenario.programs_fail)
  /\ flash (Scenario.running Scenario.programs_fail)
     = disk_buffer (Scenario.running Scenario.programs_fail)
  /\ pending_flash_write (Scenario.running Scenario.programs_fail) = false
  /\ write_sector STM32F103xB (Scenario.running Scenario.programs_fail)
       (snd (read_sector (Scenario.running Scenario.programs_fail) 64)) 64 1 10
     = Some (Scenario.settled_written_back, 0)
  /\ process STM32F103xB Scenario.settled_written_back 600
     = Some Scenario.settled_committed
  /\ load (flash (Scenario.running Scenario.programs_fail)) 0 = 0xF8
  /\ load (flash Scenario.settled_committed) 0 = 0xFF
  /\ write_sector STM32F103xB (Scenario.running [])
       (Scenario.sector_of (bytes_of "SSID=home")) 64 1 10
     = Some (Scenario.edited, 0)
  /\ write_sector STM32F103xB Scenario.edited
       (snd (read_sector Scenario.edited 8)) 8 1 20
     = Some (Scenario.edited_written_back, 0)
  /\ process STM32F103xB Scenario.edited_written_back 600
     = Some Scenario.edited_committed
  /\ load (disk_buffer Scenario.edited) (FILE_SECTOR + 9) = 0
  /\ load (disk_buffer Scenario.edited_committed) (FILE_SECTOR + 9) = 9.
Proof. split_all; vm_compute; reflexivity. Qed.

Lemma running_normalised : normalised (Scenario.running []).
Proof.
  intros p_file file_len root_addr Hfind _.
  assert (F : find_file (disk_buffer (Scenario.running [])) CONFIG_FILENAME
              = Some (FILE_SECTOR, 33, 0)) by (vm_compute; reflexivity).
  rewrite F in Hfind. injection Hfind as <- _ <-.
  exists (fst Sample.revalidated), (snd Sample.revalidated).
  split; vm_compute; reflexivity.
Qed.

Lemma write_back_then_process_round_trip_witness :
  zlen (disk_buffer (Scenario.running [])) = sizeof_disk_buffer
  /\ zlen (flash (Scenario.running [])) = sizeof_disk_buffer
  /\ labels_fit (entries (Scenario.running []))
  /\ is_bytes (disk_buffer (Scenario.running []))
  /\ 0 <= 64 < 4294967296
  /\ FLASH_WRITE_DELAY_MS <= u32 (600 - 10)
  /\ normalised (Scenario.running [])
  /\ hal_ok (hal_script (Scenario.running []))
  /\ flash (Scenario.running []) = disk_buffer (Scenario.running [])
  /\ forall tgt, exists st2,
       write_sector tgt (Scenario.running [])
         (snd (read_sector (Scenario.running []) 64)) 64 1 10
       = Some (set_pending (Scenario.running []) true 10, 0)
       /\ process tgt (set_pending (Scenario.running []) true 10) 600
          = Some st2
       /\ pending_flash_write st2 = false
       /\ disk_buffer st2 = disk_buffer (Scenario.running [])
       /\ flash st2 = flash (Scenario.running []).
Proof.
  assert (H1 : zlen (disk_buffer (Scenario.running [])) = sizeof_disk_buffer)
    by (vm_compute; reflexivity).
  assert (H2 : zlen (flash (Scenario.running [])) = sizeof_disk_buffer)
    by (vm_compute; reflexivity).
  assert (H3 : labels_fit (entries (Scenario.running []))).
  { unfold labels_fit. vm_compute.
    repeat (constructor; [discriminate |]). constructor. }
  assert (H4 : is_bytes (disk_buffer (Scenario.running [])))
    by (apply all_bytes_is_bytes; vm_compute; reflexivity).
  assert (H5 : 0 <= 64 < 4294967296) by lia.
  assert (H6 : FLASH_WRITE_DELAY_MS <= u32 (600 - 10))
    by (vm_compute; discriminate).
  pose proof running_normalised as H7.
  assert (H8 : hal_ok (hal_script (Scenario.running []))) by constructor.
  assert (H9 : flash (Scenario.running []) = disk_buffer (Scenario.running []))
    by (vm_compute; reflexivity).
  split; [exact H1 |]. split; [exact H2 |]. split; [exact H3 |].
  split; [exact H4 |]. split; [exact H5 |]. split; [exact H6 |].
  split; [exact H7 |]. split; [exact H8 |]. split; [exact H9 |].
  intros tgt.
  destruct (write_back_then_process_round_trip Scenario.App tgt
              (Scenario.running []) 64 10 600 H1 H2 H3 H4 H5 H6 H7 H8)
    as (st2 & W & P & Pend & B & _ & _ & Sync).
  exists st2. split; [exact W |]. split; [exact P |].
  split; [exact Pend |]. split; [exact B | exact (Sync H9)].
Defined.
